(** * ChordCode: the completion pipeline of [services/chordAnalysisService-azure.ts]

    A shallow embedding of the search / analysis service: the retrying
    completion client, the defaulting of model replies, and the canned
    fallback data.  The file holds two variants of the service; they are
    embedded as the modules [EndpointVariant] (lines 1-774, the endpoint
    URL is used as it is) and [DeploymentVariant] (lines 775-1236, the URL
    names a deployment and an API version).

    JavaScript values are embedded as they are at run time (TypeScript's
    annotations are erased, and [any] flows from [JSON.parse] into the
    results), asynchronous functions as computations over the trace of
    observable events, exceptions as an explicit completion.  Strings are
    byte strings: on ASCII text they are JavaScript's strings, and the
    built-ins that look inside other text ([toLowerCase], [JSON.parse],
    [encodeURIComponent], the printing of numbers) are parameters of the
    development.

    Around the service stand its callers and the consumer of its results:
    the handlers of the home screen and of the input box (module
    [Screen]) and the chord selector and chord sheet of the display
    component (module [ChordDisplay]). *)

From Stdlib Require Import String Ascii List ZArith Bool Lia DecimalString.
From Stdlib Require Import Floats.PrimFloat.
From Stdlib Require Floats.FloatOps Floats.SpecFloat Floats.FloatAxioms Numbers.Cyclic.Int63.Uint63.
Import ListNotations.

Local Open Scope string_scope.
Local Open Scope list_scope.

#[local] Set Warnings "-register-all,-inexact-float".

(* ================================================================== *)
(** ** JavaScript values, exceptions and completions *)
(* ================================================================== *)

Module JS.

(** A value as [JSON.parse] builds it, plus [undefined].  An object is the
    list of its own properties in insertion order, each key once. *)
Inductive JSValue : Type :=
| JUndefined
| JNull
| JBool (b : bool)
| JNum (x : float)
| JStr (s : string)
| JArr (items : list JSValue)
| JObj (fields : list (string * JSValue)).

(** What the program can throw: the built-in errors and one constructor
    per [throw new Error(...)] of the source. *)
Inductive Exn : Type :=
| NetworkFailure (reason : string)            (* fetch() rejected *)
| ApiError (status : Z) (statusText : string) (* `Azure OpenAI API error: ${status} - ${statusText}` *)
| BodyError (reason : string)                 (* response.json() rejected *)
| NoContent                                   (* "No content in Azure OpenAI response" *)
| TypeError (what : string)
| SyntaxError (what : string)                 (* JSON.parse *)
| URIError
| InvalidResponse                             (* "Invalid response from Azure OpenAI" *)
| InvalidTutorialResponse                     (* "Invalid tutorial response" *)
| NoValidResponse                             (* "No valid response from Azure OpenAI" *)
| AnalysisFailed                              (* "Failed to analyze the song. Please try again." *)
| ThrownUndefined.                            (* throw of an unassigned variable *)

Inductive Completion (A : Type) : Type :=
| Normal (a : A)
| Throw (e : Exn).
Arguments Normal {A} a.
Arguments Throw {A} e.

Definition cbind {A B} (c : Completion A) (k : A -> Completion B) : Completion B :=
  match c with
  | Normal a => k a
  | Throw e => Throw e
  end.

Fixpoint cmap {A B} (f : A -> Completion B) (l : list A) : Completion (list B) :=
  match l with
  | [] => Normal []
  | x :: l' => cbind (f x) (fun y => cbind (cmap f l') (fun ys => Normal (y :: ys)))
  end.

(** ToBoolean. *)
Definition truthy (v : JSValue) : bool :=
  match v with
  | JUndefined | JNull => false
  | JBool b => b
  | JNum x => negb (PrimFloat.is_zero x || PrimFloat.is_nan x)
  | JStr s => negb (s =? "")
  | JArr _ | JObj _ => true
  end.

(** [a || b] on values that are already evaluated. *)
Definition or_else (a b : JSValue) : JSValue := if truthy a then a else b.

Fixpoint lookup (k : string) (fields : list (string * JSValue)) : JSValue :=
  match fields with
  | [] => JUndefined
  | (k', v) :: rest => if k =? k' then v else lookup k rest
  end.

(** [v.k] for the property names this program reads.  None of them is a
    property of the String, Number, Boolean or Array prototypes, so only an
    object can answer with something other than [undefined]. *)
Definition get (v : JSValue) (k : string) : Completion JSValue :=
  match v with
  | JUndefined | JNull => Throw (TypeError ("Cannot read properties of null or undefined: " ++ k))
  | JObj fields => Normal (lookup k fields)
  | _ => Normal JUndefined
  end.

(** [v?.k] *)
Definition get_opt (v : JSValue) (k : string) : JSValue :=
  match v with
  | JObj fields => lookup k fields
  | _ => JUndefined
  end.

(** [v?.[0]] *)
Definition index0_opt (v : JSValue) : JSValue :=
  match v with
  | JArr (x :: _) => x
  | JObj fields => lookup "0" fields
  | JStr (String c _) => JStr (String c "")
  | _ => JUndefined
  end.

(** SameValueZero, the equality of [Set].  Arrays and objects compare by
    identity; two of them met at different places of a parsed reply are
    never the same object. *)
Definition sameValueZero (a b : JSValue) : bool :=
  match a, b with
  | JUndefined, JUndefined | JNull, JNull => true
  | JBool x, JBool y => Bool.eqb x y
  | JNum x, JNum y => PrimFloat.eqb x y || (PrimFloat.is_nan x && PrimFloat.is_nan y)
  | JStr x, JStr y => x =? y
  | _, _ => false
  end.

(** [a === b], with the same reading of arrays and objects. *)
Definition strictEquals (a b : JSValue) : bool :=
  match a, b with
  | JUndefined, JUndefined | JNull, JNull => true
  | JBool x, JBool y => Bool.eqb x y
  | JNum x, JNum y => PrimFloat.eqb x y
  | JStr x, JStr y => x =? y
  | _, _ => false
  end.

(** [[...new Set(l)]]: first occurrences, in order. *)
Fixpoint unique_from (seen l : list JSValue) : list JSValue :=
  match l with
  | [] => []
  | x :: l' =>
      if existsb (sameValueZero x) seen then unique_from seen l'
      else x :: unique_from (x :: seen) l'
  end.
Definition unique (l : list JSValue) : list JSValue := unique_from [] l.

(** *** Strings *)

(** [s.includes(sub)] *)
Fixpoint includes (s sub : string) : bool :=
  prefix sub s ||
  match s with
  | EmptyString => false
  | String _ s' => includes s' sub
  end.

Definition lower_ascii (c : ascii) : ascii :=
  let n := nat_of_ascii c in
  if (65 <=? n)%nat && (n <=? 90)%nat then ascii_of_nat (n + 32) else c.

Fixpoint ascii_toLowerCase (s : string) : string :=
  match s with
  | EmptyString => EmptyString
  | String c s' => String (lower_ascii c) (ascii_toLowerCase s')
  end.

Fixpoint is_ascii (s : string) : bool :=
  match s with
  | EmptyString => true
  | String c s' => (nat_of_ascii c <? 128)%nat && is_ascii s'
  end.

Definition isWhiteSpace (c : ascii) : bool :=
  let n := nat_of_ascii c in
  ((9 <=? n)%nat && (n <=? 13)%nat) || (n =? 32)%nat.

Fixpoint trimStart (s : string) : string :=
  match s with
  | String c s' => if isWhiteSpace c then trimStart s' else s
  | EmptyString => EmptyString
  end.

Fixpoint trimEnd (s : string) : string :=
  match s with
  | EmptyString => EmptyString
  | String c s' =>
      let r := trimEnd s' in
      if isWhiteSpace c && (r =? "") then EmptyString else String c r
  end.

(** [s.trim()], over the white space of the ASCII range. *)
Definition trim (s : string) : string := trimEnd (trimStart s).

Definition newline : ascii := "010"%char.

(** [s.replace(/<fence>\n?/g, "")]: every occurrence of [fence], with one
    newline after it if there is one, is dropped, left to right.  [skip]
    counts the characters of the current occurrence still to drop, [after]
    says that an occurrence has just ended. *)
Fixpoint remove_fence (fence : string) (skip : nat) (after : bool) (s : string) : string :=
  match s with
  | EmptyString => EmptyString
  | String c rest =>
      match skip with
      | S k => remove_fence fence k true rest
      | O =>
          if after && Ascii.eqb c newline then remove_fence fence 0 false rest
          else if prefix fence s then remove_fence fence (String.length fence - 1) true rest
          else String c (remove_fence fence 0 false rest)
      end
  end.

Definition fence_json : string := "```json".
Definition fence : string := "```".

(** [content.replace(/```json\n?/g, "").replace(/```\n?/g, "").trim()];
    a truthy [content] that is not a string has no [replace] method. *)
Definition clean (content : JSValue) : Completion string :=
  match content with
  | JStr s => Normal (trim (remove_fence fence 0 false (remove_fence fence_json 0 false s)))
  | _ => Throw (TypeError "content.replace is not a function")
  end.

End JS.
Export JS.

(* ================================================================== *)
(** ** The platform and the outside world *)
(* ================================================================== *)

(** The built-ins the service calls and the source does not define.
    [toLowerCase] is only known on ASCII text, where it lowers A-Z. *)
Class Platform : Type := {
  toLowerCase : string -> string;
  toLowerCase_ascii : forall s, is_ascii s = true -> toLowerCase s = ascii_toLowerCase s;
  JSON_parse : string -> Completion JSValue;
  Number_toString : float -> string;
  Object_toString : JSValue -> Completion string;   (* ToPrimitive on an array or object *)
  encodeURI_string : string -> Completion string    (* URIError on a lone surrogate *)
}.

Record ProcessEnv : Type := {
  EXPO_PUBLIC_AZURE_OPENAI_ENDPOINT : option string;
  EXPO_PUBLIC_AZURE_OPENAI_API_KEY : option string;
  EXPO_PUBLIC_AZURE_OPENAI_DEPLOYMENT : option string
}.

(** [process.env.X] *)
Definition env_value (x : option string) : JSValue :=
  match x with
  | Some s => JStr s
  | None => JUndefined
  end.

(** [process.env.X || fallback] *)
Definition env_or (x : option string) (fallback : string) : string :=
  match x with
  | Some s => if s =? "" then fallback else s
  | None => fallback
  end.

Record ChatMessage : Type := { role : string; content : string }.

(** The argument of [fetch]; the body is the object handed to
    [JSON.stringify]. *)
Record Request : Type := {
  fetch_url : string;
  method : string;
  headers : list (string * JSValue);
  messages : list ChatMessage;
  max_tokens : Z;
  temperature : float;
  top_p : float
}.

Record Response : Type := {
  ok : bool;
  status : Z;
  statusText : string;
  json : Completion JSValue      (* what response.json() settles to *)
}.

Inductive FetchResult : Type :=
| Rejected (e : Exn)
| Responded (r : Response).

Inductive Message : Type :=
| KeyNotConfigured                    (* "Azure OpenAI API key not configured" *)
| KeyNotConfiguredUsingMock           (* "Azure OpenAI API key not configured, using mock data" *)
| AttemptFailed (attempt : Z) (error : Exn)  (* `Azure OpenAI attempt ${attempt} failed:`, error *)
| SearchFailed (error : Exn)          (* "Error searching songs with Azure OpenAI:", error *)
| ChordsFailed (error : Exn)          (* "Error analyzing chords with Azure OpenAI:", error *)
| TutorialFailed (error : Exn)        (* "Error generating tutorial with Azure OpenAI:", error *)
| AnalyzeFailed (error : Exn)         (* "Error analyzing song:", error *)
| ResponseDump (response : JSValue).  (* "response", response *)

(** What a run does that can be observed from outside, in order. *)
Inductive Event : Type :=
| Fetch (req : Request)
| Sleep (ms : Z)                      (* setTimeout(resolve, ms), awaited *)
| ConsoleWarn (m : Message)
| ConsoleError (m : Message)
| ConsoleLog (m : Message)
| AlertShown (title message : string).

Definition Trace : Type := list Event.

(** The network answers a request knowing everything that happened before. *)
Definition Network : Type := Trace -> Request -> FetchResult.

(* ================================================================== *)
(** ** Computations: a trace of events and a completion *)
(* ================================================================== *)

Definition Prog (A : Type) : Type := Trace -> Completion A * Trace.

Definition ret {A} (a : A) : Prog A := fun tr => (Normal a, tr).
Definition throw {A} (e : Exn) : Prog A := fun tr => (Throw e, tr).
Definition lift {A} (c : Completion A) : Prog A := fun tr => (c, tr).
Definition emit (ev : Event) : Prog unit := fun tr => (Normal tt, tr ++ [ev]).

Definition bind {A B} (m : Prog A) (k : A -> Prog B) : Prog B :=
  fun tr =>
    match m tr with
    | (Normal a, tr') => k a tr'
    | (Throw e, tr') => (Throw e, tr')
    end.

(** [try { body } catch (error) { handler }] *)
Definition try_catch {A} (body : Prog A) (handler : Exn -> Prog A) : Prog A :=
  fun tr =>
    match body tr with
    | (Normal a, tr') => (Normal a, tr')
    | (Throw e, tr') => handler e tr'
    end.

Declare Scope prog_scope.
Delimit Scope prog_scope with prog.
Declare Scope comp_scope.
Delimit Scope comp_scope with comp.
Notation "x <- m ;; k" := (bind m (fun x => k))
  (at level 61, m at next level, right associativity) : prog_scope.
Notation "m ;; k" := (bind m (fun _ => k))
  (at level 61, right associativity) : prog_scope.
Notation "x <- m ;; k" := (cbind m (fun x => k))
  (at level 61, m at next level, right associativity) : comp_scope.

Definition console_warn (m : Message) : Prog unit := emit (ConsoleWarn m).
Definition console_error (m : Message) : Prog unit := emit (ConsoleError m).
Definition console_log (m : Message) : Prog unit := emit (ConsoleLog m).
Definition Alert_alert (title message : string) : Prog unit := emit (AlertShown title message).
Definition sleep (ms : Z) : Prog unit := emit (Sleep ms).

(** [await fetch(url, init)] *)
Definition fetch (net : Network) (req : Request) : Prog Response :=
  fun tr =>
    match net tr req with
    | Rejected e => (Throw e, tr ++ [Fetch req])
    | Responded r => (Normal r, tr ++ [Fetch req])
    end.

(** ToString, as template literals and [join] apply it. *)
Definition ToString {platform : Platform} (v : JSValue) : Completion string :=
  match v with
  | JUndefined => Normal "undefined"
  | JNull => Normal "null"
  | JBool true => Normal "true"
  | JBool false => Normal "false"
  | JNum x => Normal (Number_toString x)
  | JStr s => Normal s
  | JArr _ | JObj _ => Object_toString v
  end.

(** [encodeURIComponent(v)] *)
Definition encodeURIComponent {platform : Platform} (v : JSValue) : Completion string :=
  (s <- ToString v;; encodeURI_string s)%comp.

(* ================================================================== *)
(** ** The completion client (lines 108-174 and 867-926) *)
(* ================================================================== *)

Module Client.
Section CompletionClient.
Context {platform : Platform} (net : Network).
(** The two variants differ in the URL they post to and in where the key
    comes from, and in nothing else. *)
Variables (endpointURL : string) (apiKeyHeader : JSValue).

Definition systemInstruction : string :=
  "You are an expert music theorist and guitar instructor with extensive knowledge of popular songs, chord progressions, and guitar techniques. Always respond with valid JSON only.".

Definition request (prompt : string) (maxTokens : Z) : Request :=
  {| fetch_url := endpointURL;
     method := "POST";
     headers := [("Content-Type", JStr "application/json"); ("api-key", apiKeyHeader)];
     messages := [ {| role := "system"; content := systemInstruction |};
                   {| role := "user"; content := prompt |} ];
     max_tokens := maxTokens;
     temperature := 0.3%float;
     top_p := 0.8%float |}.

(** [data.choices?.[0]?.message?.content] *)
Definition content_of (data : JSValue) : Completion JSValue :=
  (choices <- get data "choices";;
   Normal (get_opt (get_opt (index0_opt choices) "message") "content"))%comp.

(** The body of the [try] of one attempt. *)
Definition attempt_once (prompt : string) (maxTokens : Z) : Prog JSValue :=
  (response <- fetch net (request prompt maxTokens);;
   if negb (ok response) then throw (ApiError (status response) (statusText response))
   else
     data <- lift (json response);;
     content <- lift (content_of data);;
     if negb (truthy content) then throw NoContent
     else
       cleanContent <- lift (clean content);;
       lift (JSON_parse cleanContent))%prog.

Definition maxRetries : Z := 3.

(** [1000 * Math.pow(2, attempt - 1)] *)
Definition backoff (attempt : Z) : Z := (1000 * 2 ^ (attempt - 1))%Z.

(** The [for] loop from [attempt] on; [remaining] is the number of
    iterations left, [maxRetries + 1 - attempt].  Only the attempt stands
    in the [try]; the [catch] block logs and waits, and the iterations
    that follow it are written after it.  After the last one comes
    [throw lastError!]. *)
Fixpoint attempts_from (prompt : string) (maxTokens : Z)
         (remaining : nat) (attempt : Z) (lastError : option Exn) : Prog JSValue :=
  match remaining with
  | O => throw (match lastError with Some e => e | None => ThrownUndefined end)
  | S remaining' =>
      try_catch (attempt_once prompt maxTokens)
        (fun error =>
           console_warn (AttemptFailed attempt error);;
           (if (attempt <? maxRetries)%Z then sleep (backoff attempt) else ret tt);;
           attempts_from prompt maxTokens remaining' (attempt + 1)%Z (Some error))%prog
  end.

(** [maxTokens: number = 2000] *)
Definition callAzureOpenAI (prompt : string) (maxTokens : option Z) : Prog JSValue :=
  attempts_from prompt
                (match maxTokens with Some n => n | None => 2000 end)
                (Z.to_nat maxRetries) 1 None.

End CompletionClient.
End Client.

(* ================================================================== *)
(** ** The entities of [types.ts] *)
(* ================================================================== *)

(** Fields that a model reply can fill hold whatever value arrived there. *)
Module Song.
Record SongInfo : Type := {
  title : JSValue;
  artist : JSValue;
  duration : JSValue;
  thumbnail : string;
  url : string;
  album : JSValue;
  year : JSValue;
  genre : JSValue;
  popularity : JSValue;
  description : JSValue
}.
End Song.
Abbreviation SongInfo := Song.SongInfo.

Module Chord.
Record ChordProgression : Type := {
  time : JSValue;
  chord : JSValue;
  duration : JSValue;
  lyricLine : JSValue;
  section : JSValue
}.
End Chord.
Abbreviation ChordProgression := Chord.ChordProgression.

(** [Omit<ChordAnalysisResult, "songInfo">] *)
Module Analysis.
Record ChordAnalysis : Type := {
  chords : list ChordProgression;
  key : JSValue;
  tempo : JSValue;
  difficulty : JSValue;
  capo : JSValue;
  tuning : JSValue;
  strummingPattern : JSValue;
  timeSignature : JSValue;
  sections : JSValue;
  songStructure : JSValue;
  alternativeCapo : JSValue
}.
End Analysis.
Abbreviation ChordAnalysis := Analysis.ChordAnalysis.

(** [{ songInfo, ...chordAnalysis }] *)
Record ChordAnalysisResult : Type := {
  songInfo : SongInfo;
  chordAnalysis : ChordAnalysis
}.

Module Tutorial.
Record GuitarTutorial : Type := {
  overview : JSValue;
  difficulty : JSValue;
  estimatedTime : JSValue;
  requirements : JSValue;
  chordDiagrams : JSValue;
  steps : JSValue;
  practiceNotes : JSValue;
  playingTips : JSValue;
  performanceTips : JSValue
}.
End Tutorial.
Abbreviation GuitarTutorial := Tutorial.GuitarTutorial.

Record FullAnalysisResult : Type := {
  analysis : ChordAnalysisResult;
  tutorial : GuitarTutorial
}.

(* ================================================================== *)
(** ** Helpers shared by the two variants *)
(* ================================================================== *)

Arguments JNum x%_float.

(** [v.toLowerCase()] *)
Definition toLowerCase_of {platform : Platform} (v : JSValue) : Completion string :=
  match v with
  | JStr s => Normal (toLowerCase s)
  | JUndefined | JNull => Throw (TypeError "Cannot read properties of null or undefined: toLowerCase")
  | _ => Throw (TypeError "toLowerCase is not a function")
  end.

(** [l.filter(p)] for a callback that can throw. *)
Fixpoint cfilter {A} (p : A -> Completion bool) (l : list A) : Completion (list A) :=
  match l with
  | [] => Normal []
  | x :: l' =>
      (keep <- p x;;
       rest <- cfilter p l';;
       Normal (if keep then x :: rest else rest))%comp
  end.

(** The object literal of [response.map((song: any) => ({ ... }))]
    (lines 54-69 and 819-830, the same text). *)
Definition songOfItem {platform : Platform} (song : JSValue) : Completion SongInfo :=
  (title <- get song "title";;
   artist <- get song "artist";;
   duration <- get song "duration";;
   thumbArtist <- encodeURIComponent artist;;
   thumbTitle <- encodeURIComponent title;;
   urlArtist <- encodeURIComponent artist;;
   urlTitle <- encodeURIComponent title;;
   album <- get song "album";;
   year <- get song "year";;
   genre <- get song "genre";;
   popularity <- get song "popularity";;
   description <- get song "description";;
   Normal {| Song.title := title;
             Song.artist := artist;
             Song.duration := or_else duration (JNum 180);
             Song.thumbnail := "https://via.placeholder.com/480x360/1e293b/white?text="
                                 ++ thumbArtist ++ "+-+" ++ thumbTitle;
             Song.url := "song://" ++ urlArtist ++ "-" ++ urlTitle;
             Song.album := album;
             Song.year := year;
             Song.genre := genre;
             Song.popularity := popularity;
             Song.description := description |})%comp.

(** An entry of a [mockSongs] literal. *)
Definition mockSong (title artist : string) (duration : float) (thumbnail url album : string)
           (year : float) (genre popularity description : string) : SongInfo :=
  {| Song.title := JStr title;
     Song.artist := JStr artist;
     Song.duration := JNum duration;
     Song.thumbnail := thumbnail;
     Song.url := url;
     Song.album := JStr album;
     Song.year := JNum year;
     Song.genre := JStr genre;
     Song.popularity := JStr popularity;
     Song.description := JStr description |}.

Definition Perfect (album : string) : SongInfo :=
  mockSong "Perfect" "Ed Sheeran" 263
           "https://via.placeholder.com/480x360/1e293b/white?text=Ed+Sheeran+-+Perfect"
           "song://Ed-Sheeran-Perfect" album 2017 "Pop" "Very High"
           "Romantic ballad, one of Ed Sheeran's biggest hits".

Definition Wonderwall : SongInfo :=
  mockSong "Wonderwall" "Oasis" 258
           "https://via.placeholder.com/480x360/1e293b/white?text=Oasis+-+Wonderwall"
           "song://Oasis-Wonderwall" "(What's the Story) Morning Glory?" 1995 "Rock" "Very High"
           "Classic British rock anthem, perfect for beginners".

Definition ShapeOfYou (album : string) : SongInfo :=
  mockSong "Shape of You" "Ed Sheeran" 233
           "https://via.placeholder.com/480x360/1e293b/white?text=Ed+Sheeran+-+Shape+of+You"
           "song://Ed-Sheeran-Shape-of-You" album 2017 "Pop" "Very High"
           "Upbeat pop song with simple chord progression".

Definition LetItBe : SongInfo :=
  mockSong "Let It Be" "The Beatles" 243
           "https://via.placeholder.com/480x360/1e293b/white?text=The+Beatles+-+Let+It+Be"
           "song://The-Beatles-Let-It-Be" "Let It Be" 1970 "Rock" "Very High"
           "Timeless classic with simple chord progression".

Definition HouseOfTheRisingSun : SongInfo :=
  mockSong "House of the Rising Sun" "The Animals" 272
           "https://via.placeholder.com/480x360/1e293b/white?text=The+Animals+-+House+of+the+Rising+Sun"
           "song://The-Animals-House-of-the-Rising-Sun" "The Animals" 1964 "Folk Rock" "High"
           "Classic fingerpicking song, great for intermediate players".

(** The double-quote character, as a string. *)
Definition quote_mark : string := String "034"%char EmptyString.

(** A length as a number. *)
Definition float_of_nat (n : nat) : float := PrimFloat.of_uint63 (Uint63.of_Z (Z.of_nat n)).

(** [l.join(sep)]: [undefined] and [null] give the empty string. *)
Fixpoint join {platform : Platform} (sep : string) (l : list JSValue) : Completion string :=
  let element v :=
    match v with
    | JUndefined | JNull => Normal ""
    | _ => ToString v
    end in
  match l with
  | [] => Normal ""
  | [v] => element v
  | v :: rest =>
      (s <- element v;;
       r <- join sep rest;;
       Normal (s ++ sep ++ r)%string)%comp
  end.

(** The text of a prompt, written with a backquote wherever the source
    has a double quote. *)
Fixpoint with_quotes (s : string) : string :=
  match s with
  | EmptyString => EmptyString
  | String c s' => String (if Ascii.eqb c "`" then "034"%char else c) (with_quotes s')
  end.

(** A template literal: the texts with a hole after each but the last,
    each hole evaluated and converted in its turn. *)
Fixpoint render (texts : list string) (holes : list (Completion string)) : Completion string :=
  match texts, holes with
  | text :: texts', hole :: holes' =>
      (s <- hole;;
       r <- render texts' holes';;
       Normal (text ++ s ++ r)%string)%comp
  | text :: _, [] => Normal text
  | [], _ => Normal ""
  end.

(* ================================================================== *)
(** ** The variant of lines 1-774 *)
(* ================================================================== *)

Module EndpointVariant.
Section Service.
Context {platform : Platform} (net : Network) (env : ProcessEnv).

Definition AZURE_OPENAI_ENDPOINT : string :=
  env_or (EXPO_PUBLIC_AZURE_OPENAI_ENDPOINT env) "https://your-resource.openai.azure.com/".

Definition AZURE_OPENAI_API_KEY : string :=
  env_or (EXPO_PUBLIC_AZURE_OPENAI_API_KEY env) "YOUR_AZURE_OPENAI_API_KEY".

(** [fetch(`${AZURE_OPENAI_ENDPOINT}`, ...)] with the header
    ["api-key": AZURE_OPENAI_API_KEY]. *)
Definition callAzureOpenAI : string -> option Z -> Prog JSValue :=
  Client.callAzureOpenAI net AZURE_OPENAI_ENDPOINT (JStr AZURE_OPENAI_API_KEY).

(** *** getMockSongSearchResults (lines 347-425) *)

Definition mockSongs : list SongInfo :=
  [ Perfect "รท (Divide)"; Wonderwall; ShapeOfYou "รท (Divide)"; LetItBe; HouseOfTheRisingSun ].

(** The callback of [mockSongs.filter]; [||] stops at the first match, and
    [song.genre?.] answers [undefined] for a missing genre. *)
Definition matchesQuery (query : string) (song : SongInfo) : Completion bool :=
  (title <- toLowerCase_of (Song.title song);;
   if includes title (toLowerCase query) then Normal true
   else
     artist <- toLowerCase_of (Song.artist song);;
     if includes artist (toLowerCase query) then Normal true
     else
       match Song.genre song with
       | JUndefined | JNull => Normal false
       | g => genre <- toLowerCase_of g;; Normal (includes genre (toLowerCase query))
       end)%comp.

Definition getMockSongSearchResults (query : string) : Completion (list SongInfo) :=
  (filtered <- cfilter (matchesQuery query) mockSongs;;
   Normal (if (0 <? List.length filtered)%nat then filtered else firstn 3 mockSongs))%comp.

(** *** searchSongs (lines 19-77) *)

Definition searchPrompt (query : string) : string :=
  (with_quotes "
Search for songs matching the query: `"
   ++ query ++
   with_quotes "`

Please provide a JSON array of the top 5 most popular and well-known songs that match this search.
Include variations, covers, and different versions if applicable.

Format as:
[
  {
    `title`: `Perfect`,
    `artist`: `Ed Sheeran`,
    `album`: `รท (Divide)`,
    `year`: 2017,
    `genre`: `Pop, Romantic Ballad`,
    `duration`: 263,
    `popularity`: `Very High`,
    `description`: `Romantic ballad, one of Ed Sheeran's biggest hits`
  }
]
Include accurate metadata.
")%string.

(** The block of the [try].  [None] is the [undefined] of a function that
    runs off its end. *)
Definition searchSongs_try (query : string) : Prog (option (list SongInfo)) :=
  ((if (AZURE_OPENAI_API_KEY =? "") || (AZURE_OPENAI_API_KEY =? "YOUR_AZURE_OPENAI_API_KEY")
    then console_warn KeyNotConfigured;;
         Alert_alert "Warning" "Azure OpenAI API key not configured"
    else ret tt);;
   response <- callAzureOpenAI (searchPrompt query) None;;
   match response with
   | JArr items =>              (* response && Array.isArray(response) *)
       result <- lift (cmap songOfItem items);;
       console_log (ResponseDump response);;
       ret (Some result)
   | _ => ret None
   end)%prog.

Definition searchSongs (query : string) : Prog (option (list SongInfo)) :=
  try_catch (searchSongs_try query)
    (fun error =>
       console_error (SearchFailed error);;
       fallback <- lift (getMockSongSearchResults query);;
       ret (Some fallback))%prog.

(** *** analyzeChordsWithAzureAI (lines 179-252) *)

Definition chordPrompt (songInfo : SongInfo) : Completion string :=
  render
    [ with_quotes "
Analyze the chord progression for the song `";
      with_quotes "` by ";
      with_quotes ".

Please provide a detailed and accurate chord analysis in JSON format:

{
  `chords`: [
    {`time`: 0, `chord`: `G`, `duration`: 8, `lyricLine`: `First line of lyrics`, `section`: `verse`},
    {`time`: 8, `chord`: `Em`, `duration`: 8, `lyricLine`: `Second line of lyrics`, `section`: `verse`}
  ],
  `key`: `G Major`,
  `tempo`: 63,
  `difficulty`: `Beginner`,
  `capo`: 0,
  `tuning`: `Standard (E-A-D-G-B-E)`,
  `strummingPattern`: `D-D-U-U-D-U`,
  `timeSignature`: `4/4`,
  `sections`: {
    `verse`: [`G`, `Em`, `C`, `D`],
    `chorus`: [`Em`, `C`, `G`, `D`],
    `bridge`: [`Am`, `F`, `C`, `G`]
  },
  `songStructure`: [`verse`, `verse`, `chorus`, `verse`, `chorus`, `bridge`, `chorus`],
  `alternativeCapo`: {
    `position`: 3,
    `chords`: [`Em`, `C#m`, `A`, `B`]
  }
}

Requirements:
- Provide accurate chord progressions based on the actual song
- Include timing information that matches the song structure
- Consider the song's genre and style for appropriate difficulty rating
- Include common alternative capo positions if applicable
- Focus on the most commonly played version of the song
" ]
    [ToString (Song.title songInfo); ToString (Song.artist songInfo)].

(** The callback of [chords.map] (lines 226-232). *)
Definition chordOfItem (chord : JSValue) : Completion ChordProgression :=
  (time <- get chord "time";;
   name <- get chord "chord";;
   duration <- get chord "duration";;
   lyricLine <- get chord "lyricLine";;
   section <- get chord "section";;
   Normal {| Chord.time := or_else time (JNum 0);
             Chord.chord := or_else name (JStr "C");
             Chord.duration := or_else duration (JNum 4);
             Chord.lyricLine := or_else lyricLine (JStr "");
             Chord.section := or_else section (JStr "verse") |})%comp.

(** [chords.map(...)]: only an array has a [map] to call. *)
Definition mapChords (chords : JSValue) : Completion (list ChordProgression) :=
  match chords with
  | JArr items => cmap chordOfItem items
  | _ => Throw (TypeError "chords.map is not a function")
  end.

(** Lines 222-246: the reply turned into an analysis, or the [throw] of
    line 246 for a falsy reply. *)
Definition chordAnalysisOfResponse (response : JSValue) : Completion ChordAnalysis :=
  if truthy response then
    (chords <- get response "chords";;
     mapped <- mapChords (or_else chords (JArr []));;
     key <- get response "key";;
     tempo <- get response "tempo";;
     difficulty <- get response "difficulty";;
     capo <- get response "capo";;
     tuning <- get response "tuning";;
     strummingPattern <- get response "strummingPattern";;
     timeSignature <- get response "timeSignature";;
     sections <- get response "sections";;
     songStructure <- get response "songStructure";;
     alternativeCapo <- get response "alternativeCapo";;
     Normal {| Analysis.chords := mapped;
               Analysis.key := or_else key (JStr "C Major");
               Analysis.tempo := or_else tempo (JNum 120);
               Analysis.difficulty := or_else difficulty (JStr "Beginner");
               Analysis.capo := or_else capo (JNum 0);
               Analysis.tuning := or_else tuning (JStr "Standard (E-A-D-G-B-E)");
               Analysis.strummingPattern := or_else strummingPattern (JStr "D-D-U-U-D-U");
               Analysis.timeSignature := or_else timeSignature (JStr "4/4");
               Analysis.sections :=
                 or_else sections (JObj [("verse", JArr [JStr "C"; JStr "G"; JStr "Am"; JStr "F"])]);
               Analysis.songStructure := or_else songStructure (JArr [JStr "verse"; JStr "chorus"]);
               Analysis.alternativeCapo := alternativeCapo |})%comp
  else Throw InvalidResponse.

(** *** getEnhancedMockChordAnalysis (lines 430-604) *)

Definition chordAt (time : float) (name : string) (duration : float) (lyricLine section : string)
  : ChordProgression :=
  {| Chord.time := JNum time;
     Chord.chord := JStr name;
     Chord.duration := JNum duration;
     Chord.lyricLine := JStr lyricLine;
     Chord.section := JStr section |}.

Definition strs (l : list string) : JSValue := JArr (map JStr l).

Definition progression (chords : list ChordProgression) (key : string) (tempo : float)
           (verse chorus : list string) : ChordAnalysis :=
  {| Analysis.chords := chords;
     Analysis.key := JStr key;
     Analysis.tempo := JNum tempo;
     Analysis.difficulty := JStr "Beginner";
     Analysis.capo := JNum 0;
     Analysis.tuning := JStr "Standard (E-A-D-G-B-E)";
     Analysis.strummingPattern := JStr "D-D-U-U-D-U";
     Analysis.timeSignature := JStr "4/4";
     Analysis.sections := JObj [("verse", strs verse); ("chorus", strs chorus)];
     Analysis.songStructure := JUndefined;
     Analysis.alternativeCapo := JUndefined |}.

Definition perfectProgression : ChordAnalysis :=
  progression
    [ chordAt 0 "G" 8 "I found a love for me" "verse";
      chordAt 8 "Em" 8 "Darling, just dive right in" "verse";
      chordAt 16 "C" 8 "Well, I found a girl beautiful and sweet" "verse";
      chordAt 24 "D" 8 "I never knew you were the someone waiting for me" "verse";
      chordAt 32 "Em" 4 "Baby, I'm dancing in the dark" "chorus";
      chordAt 36 "C" 4 "with you between my arms" "chorus";
      chordAt 40 "G" 4 "Barefoot on the grass" "chorus";
      chordAt 44 "D" 4 "listening to our favourite song" "chorus" ]
    "G Major" 63 ["G"; "Em"; "C"; "D"] ["Em"; "C"; "G"; "D"].

Definition wonderwallProgression : ChordAnalysis :=
  progression
    [ chordAt 0 "Em7" 4 "Today is gonna be the day" "verse";
      chordAt 4 "G" 4 "that they're gonna throw it back to you" "verse";
      chordAt 8 "D" 4 "By now you should've somehow" "verse";
      chordAt 12 "C" 4 "realized what you gotta do" "verse" ]
    "G Major" 87 ["Em7"; "G"; "D"; "C"] ["C"; "D"; "G"; "Em"].

Definition defaultProgression : ChordAnalysis :=
  progression
    [ chordAt 0 "C" 4 "First line of the song" "verse";
      chordAt 4 "G" 4 "Second line continues" "verse";
      chordAt 8 "Am" 4 "Third line with emotion" "verse";
      chordAt 12 "F" 4 "Fourth line completes the thought" "verse" ]
    "C Major" 120 ["C"; "G"; "Am"; "F"] ["F"; "C"; "G"; "Am"].

(** The table, in the order of [Object.keys]. *)
Definition commonProgressions : list (string * ChordAnalysis) :=
  [ ("perfect", perfectProgression); ("wonderwall", wonderwallProgression) ].

(** [Object.keys(commonProgressions).find(...)] and the lookup of the key
    found, as one search for the first entry whose key matches. *)
Definition getEnhancedMockChordAnalysis (songInfo : SongInfo) : Completion ChordAnalysis :=
  (songKey <- toLowerCase_of (Song.title songInfo);;
   match find (fun entry => includes songKey (fst entry)) commonProgressions with
   | Some (_, matched) => Normal matched
   | None => Normal defaultProgression
   end)%comp.

Definition analyzeChordsWithAzureAI (songInfo : SongInfo) : Prog ChordAnalysis :=
  try_catch
    (prompt <- lift (chordPrompt songInfo);;
     response <- callAzureOpenAI prompt (Some 2500%Z);;
     lift (chordAnalysisOfResponse response))%prog
    (fun error =>
       console_error (ChordsFailed error);;
       lift (getEnhancedMockChordAnalysis songInfo))%prog.

(** *** generateTutorialWithAzureAI (lines 257-342) *)

(** [[...new Set(chordAnalysis.chords.map((c) => c.chord))]] *)
Definition uniqueChords (chordAnalysis : ChordAnalysis) : list JSValue :=
  unique (map Chord.chord (Analysis.chords chordAnalysis)).

Definition tutorialPromptTexts : list string :=
  [ with_quotes "
Create a comprehensive guitar tutorial for `";
    with_quotes "` by ";
    with_quotes ".

Song Details:
- Key: ";
    with_quotes "
- Tempo: ";
    with_quotes " BPM
- Difficulty: ";
    with_quotes "
- Chords used: ";
    with_quotes "
- Capo: ";
    with_quotes "
- Strumming Pattern: ";
    with_quotes "

Please provide a detailed tutorial in JSON format:

{
  `overview`: `Comprehensive overview of the song and what makes it special to learn...`,
  `difficulty`: `";
    with_quotes "`,
  `estimatedTime`: 45,
  `requirements`: [`Basic chord knowledge`, `Strumming experience`],
  `chordDiagrams`: {
    `G`: `e|---3---|\nB|---0---|\nG|---0---|\nD|---0---|\nA|---2---|\nE|---3---|`,
    `Em`: `e|---0---|\nB|---0---|\nG|---0---|\nD|---2---|\nA|---2---|\nE|---0---|`
  },
  `steps`: [
    {
      `step`: 1,
      `title`: `Master Individual Chords`,
      `description`: `Learn each chord shape cleanly`,
      `chords`: [`G`, `Em`],
      `techniques`: [`Open chords`, `Finger placement`],
      `tips`: [`Keep thumb behind neck`, `Press firmly but don't squeeze`],
      `practiceTime`: 10,
      `commonMistakes`: [`Muted strings`, `Buzzing`]
    }
  ],
  `practiceNotes`: [`Practice daily`, `Use metronome`],
  `playingTips`: {
    `strumming`: `Focus on the down-up pattern`,
    `rhythm`: `Count along with the beat`,
    `transitions`: `Practice chord changes slowly first`
  },
  `performanceTips`: [`Start simple`, `Build confidence`, `Have fun`]
}

Requirements:
- Create 5-7 progressive learning steps
- Include specific chord diagrams for all chords
- Provide realistic time estimates
- Include common mistakes and how to avoid them
- Add performance and practice tips
- Make it suitable for the specified difficulty level
" ].

Definition tutorialPrompt (songInfo : SongInfo) (chordAnalysis : ChordAnalysis)
  : Completion string :=
  render tutorialPromptTexts
    [ ToString (Song.title songInfo);
      ToString (Song.artist songInfo);
      ToString (Analysis.key chordAnalysis);
      ToString (Analysis.tempo chordAnalysis);
      ToString (Analysis.difficulty chordAnalysis);
      join ", " (uniqueChords chordAnalysis);
      ToString (or_else (Analysis.capo chordAnalysis) (JNum 0));
      ToString (Analysis.strummingPattern chordAnalysis);
      ToString (Analysis.difficulty chordAnalysis) ].

(** [`Learn to play "${songInfo.title}" by ${songInfo.artist}`] *)
Definition learnToPlay (songInfo : SongInfo) : Completion string :=
  (title <- ToString (Song.title songInfo);;
   artist <- ToString (Song.artist songInfo);;
   Normal ("Learn to play " ++ quote_mark ++ title ++ quote_mark ++ " by " ++ artist)%string)%comp.

(** Lines 320-336: the reply turned into a tutorial, or the [throw] of
    line 336 for a falsy reply.  The default of [overview] is only built
    when it is needed. *)
Definition tutorialOfResponse (songInfo : SongInfo) (chordAnalysis : ChordAnalysis)
           (response : JSValue) : Completion GuitarTutorial :=
  if truthy response then
    (overview <- get response "overview";;
     overview' <- (if truthy overview then Normal overview
                   else s <- learnToPlay songInfo;; Normal (JStr s));;
     difficulty <- get response "difficulty";;
     estimatedTime <- get response "estimatedTime";;
     requirements <- get response "requirements";;
     chordDiagrams <- get response "chordDiagrams";;
     steps <- get response "steps";;
     practiceNotes <- get response "practiceNotes";;
     playingTips <- get response "playingTips";;
     performanceTips <- get response "performanceTips";;
     Normal {| Tutorial.overview := overview';
               Tutorial.difficulty := or_else difficulty (Analysis.difficulty chordAnalysis);
               Tutorial.estimatedTime := or_else estimatedTime (JNum 45);
               Tutorial.requirements := or_else requirements (strs ["Basic chord knowledge"]);
               Tutorial.chordDiagrams := or_else chordDiagrams (JObj []);
               Tutorial.steps := or_else steps (JArr []);
               Tutorial.practiceNotes := or_else practiceNotes (strs ["Practice regularly"]);
               Tutorial.playingTips := or_else playingTips (JObj []);
               Tutorial.performanceTips := or_else performanceTips (strs ["Have fun!"]) |})%comp
  else Throw InvalidTutorialResponse.

(** *** getEnhancedMockTutorial (lines 606-774) *)

Definition tutorialStep (step : float) (title description : string) (chords : list JSValue)
           (techniques tips : list string) (practiceTime : float) (commonMistakes : list string)
  : JSValue :=
  JObj [ ("step", JNum step);
         ("title", JStr title);
         ("description", JStr description);
         ("chords", JArr chords);
         ("techniques", strs techniques);
         ("tips", strs tips);
         ("practiceTime", JNum practiceTime);
         ("commonMistakes", strs commonMistakes) ].

Definition mockOverview (songInfo : SongInfo) (chordAnalysis : ChordAnalysis)
  : Completion string :=
  (title <- ToString (Song.title songInfo);;
   artist <- ToString (Song.artist songInfo);;
   key <- ToString (Analysis.key chordAnalysis);;
   count <- ToString (JNum (float_of_nat (List.length (uniqueChords chordAnalysis))));;
   tempo <- ToString (Analysis.tempo chordAnalysis);;
   level <- toLowerCase_of (Analysis.difficulty chordAnalysis);;
   Normal (quote_mark ++ title ++ quote_mark ++ " by " ++ artist
           ++ " is an excellent song for guitar players. This song is in the key of " ++ key
           ++ " and features " ++ count ++ " main chords. With a tempo of " ++ tempo
           ++ " BPM, it's perfect for " ++ level
           ++ " level players to practice chord transitions and develop their strumming technique.")%string)%comp.

Definition mockChordDiagrams : JSValue :=
  JObj [ ("G", JStr "e|---3---|\nB|---0---|\nG|---0---|\nD|---0---|\nA|---2---|\nE|---3---|");
         ("Em", JStr "e|---0---|\nB|---0---|\nG|---0---|\nD|---2---|\nA|---2---|\nE|---0---|");
         ("C", JStr "e|---0---|\nB|---1---|\nG|---0---|\nD|---2---|\nA|---3---|\nE|-------|");
         ("D", JStr "e|---2---|\nB|---3---|\nG|---2---|\nD|---0---|\nA|-------|\nE|-------|");
         ("Am", JStr "e|---0---|\nB|---1---|\nG|---2---|\nD|---2---|\nA|---0---|\nE|-------|");
         ("F", JStr "e|---1---|\nB|---1---|\nG|---2---|\nD|---3---|\nA|---3---|\nE|---1---|") ].

Definition mockSteps (uniqueChords : list JSValue) : JSValue :=
  JArr
    [ tutorialStep 1 "Master Individual Chord Shapes"
        "Learn to form each chord cleanly and hold it for at least 10 seconds without buzzing or muted strings."
        uniqueChords
        ["Open chords"; "Finger placement"; "Clean fretting"]
        [ "Keep your thumb positioned behind the neck for support";
          "Press strings just hard enough to get clear notes";
          "Practice forming each chord from scratch 10 times";
          "Check that each string rings clearly by plucking individually" ]
        15 ["Muted strings"; "Buzzing frets"; "Incorrect finger placement"];
      tutorialStep 2 "Practice Chord Transitions"
        "Work on smooth transitions between chord pairs, focusing on efficient finger movements."
        (firstn 2 uniqueChords)
        ["Chord transitions"; "Finger economy"; "Pivot fingers"]
        [ "Identify which fingers can stay in place during transitions";
          "Practice transitions slowly and gradually increase speed";
          "Use a metronome starting at 60 BPM";
          "Focus on accuracy over speed initially" ]
        20 ["Lifting all fingers unnecessarily"; "Rushing transitions"; "Inconsistent timing"];
      tutorialStep 3 "Learn the Strumming Pattern"
        "Master the strumming pattern that complements this song's rhythm and feel."
        [hd JUndefined uniqueChords]
        ["Down strums"; "Up strums"; "Rhythm patterns"; "Dynamics"]
        [ "Start with simple down strums on each beat";
          "Gradually add up strums for more complex patterns";
          "Keep your wrist relaxed and use arm movement";
          "Listen to the original recording for rhythm reference" ]
        15 ["Tense wrist"; "Inconsistent rhythm"; "Too much force in strumming"];
      tutorialStep 4 "Combine Chords and Strumming"
        "Put together chord changes with the strumming pattern, starting slowly."
        uniqueChords
        ["Coordination"; "Timing"; "Muscle memory"]
        [ "Practice chord changes without strumming first";
          "Add simple strumming once chord changes are smooth";
          "Use a metronome to maintain steady timing";
          "Don't rush - consistency is more important than speed" ]
        25 ["Stopping rhythm during chord changes"; "Speeding up or slowing down"; "Inconsistent volume"];
      tutorialStep 5 "Play Song Sections"
        "Learn to play through complete sections like verse and chorus."
        uniqueChords
        ["Song structure"; "Section transitions"; "Performance"]
        [ "Practice each section separately before combining";
          "Pay attention to how sections flow together";
          "Practice transitions between verse and chorus";
          "Focus on maintaining the groove throughout" ]
        20 ["Losing timing between sections"; "Forgetting chord progressions"; "Inconsistent dynamics"];
      tutorialStep 6 "Full Song Performance"
        "Play the complete song from start to finish, focusing on musical expression."
        uniqueChords
        ["Full performance"; "Dynamics"; "Expression"]
        [ "Start at a slower tempo and gradually increase";
          "Add dynamics - play some parts softer, others louder";
          "Focus on the emotional content of the lyrics";
          "Record yourself to identify areas for improvement" ]
        30 ["Playing mechanically"; "Ignoring song dynamics"; "Not listening to the overall sound"] ].

Definition getEnhancedMockTutorial (songInfo : SongInfo) (chordAnalysis : ChordAnalysis)
  : Completion GuitarTutorial :=
  (overview <- mockOverview songInfo chordAnalysis;;
   Normal
     {| Tutorial.overview := JStr overview;
        Tutorial.difficulty := Analysis.difficulty chordAnalysis;
        Tutorial.estimatedTime := JNum 45;
        Tutorial.requirements := strs ["Basic chord knowledge"; "Comfortable with chord changes"];
        Tutorial.chordDiagrams := mockChordDiagrams;
        Tutorial.steps := mockSteps (uniqueChords chordAnalysis);
        Tutorial.practiceNotes :=
          strs [ "Practice for 15-20 minutes daily for best results";
                 "Use a metronome to develop steady timing";
                 "Record yourself playing to track progress and identify issues";
                 "Try playing along with different versions of the song";
                 "Take breaks if your fingers get tired or sore";
                 "Focus on quality over quantity in your practice sessions" ];
        Tutorial.playingTips :=
          JObj [ ("strumming", JStr "Focus on the down-up pattern and keep your wrist relaxed");
                 ("rhythm", JStr "Count along with the beat: '1-2-3-4' to maintain timing");
                 ("transitions", JStr "Practice chord changes slowly first, then gradually increase speed") ];
        Tutorial.performanceTips :=
          strs [ "Start with a simplified version if the full arrangement is too challenging";
                 "Focus on playing with confidence rather than perfection";
                 "Enjoy the process and have fun with the music";
                 "Practice regularly but don't overdo it - quality over quantity" ] |})%comp.

Definition generateTutorialWithAzureAI (songInfo : SongInfo) (chordAnalysis : ChordAnalysis)
  : Prog GuitarTutorial :=
  try_catch
    (prompt <- lift (tutorialPrompt songInfo chordAnalysis);;
     response <- callAzureOpenAI prompt (Some 3000%Z);;
     lift (tutorialOfResponse songInfo chordAnalysis response))%prog
    (fun error =>
       console_error (TutorialFailed error);;
       lift (getEnhancedMockTutorial songInfo chordAnalysis))%prog.

(** *** analyzeSongByName (lines 82-103) *)

Definition analyzeSongByName (songInfo : SongInfo) : Prog FullAnalysisResult :=
  try_catch
    (chordAnalysis <- analyzeChordsWithAzureAI songInfo;;
     tutorial <- generateTutorialWithAzureAI songInfo chordAnalysis;;
     ret {| analysis := {| songInfo := songInfo; chordAnalysis := chordAnalysis |};
            tutorial := tutorial |})%prog
    (fun error =>
       console_error (AnalyzeFailed error);;
       throw AnalysisFailed)%prog.

End Service.
End EndpointVariant.

(* ================================================================== *)
(** ** The variant of lines 775-1236 *)
(* ================================================================== *)

Module DeploymentVariant.
Section Service.
Context {platform : Platform} (net : Network) (env : ProcessEnv).

Definition AZURE_OPENAI_ENDPOINT : JSValue := env_value (EXPO_PUBLIC_AZURE_OPENAI_ENDPOINT env).
Definition AZURE_OPENAI_API_KEY : JSValue := env_value (EXPO_PUBLIC_AZURE_OPENAI_API_KEY env).
Definition AZURE_OPENAI_DEPLOYMENT_NAME : string :=
  env_or (EXPO_PUBLIC_AZURE_OPENAI_DEPLOYMENT env) "gpt-4".
Definition AZURE_OPENAI_API_VERSION : string := "2024-02-15-preview".

(** [`${AZURE_OPENAI_ENDPOINT}/openai/deployments/${...}/chat/completions?api-version=${...}`] *)
Definition endpointURL : string :=
  match AZURE_OPENAI_ENDPOINT with
  | JStr s => s
  | _ => "undefined"
  end ++ "/openai/deployments/" ++ AZURE_OPENAI_DEPLOYMENT_NAME
      ++ "/chat/completions?api-version=" ++ AZURE_OPENAI_API_VERSION.

Definition callAzureOpenAI : string -> option Z -> Prog JSValue :=
  Client.callAzureOpenAI net endpointURL AZURE_OPENAI_API_KEY.

(** *** getMockSongSearchResults (lines 1093-1140) *)

Definition mockSongs : list SongInfo :=
  [ Perfect "÷ (Divide)"; Wonderwall; ShapeOfYou "÷ (Divide)" ].

Definition matchesQuery (query : string) (song : SongInfo) : Completion bool :=
  (title <- toLowerCase_of (Song.title song);;
   if includes title (toLowerCase query) then Normal true
   else
     artist <- toLowerCase_of (Song.artist song);;
     Normal (includes artist (toLowerCase query)))%comp.

Definition getMockSongSearchResults (query : string) : Completion (list SongInfo) :=
  (filtered <- cfilter (matchesQuery query) mockSongs;;
   Normal (if (0 <? List.length filtered)%nat then filtered else firstn 3 mockSongs))%comp.

(** *** searchSongs (lines 786-838) *)

Definition searchPrompt (query : string) : string :=
  (with_quotes "
Search for songs matching the query: `"
   ++ query ++
   with_quotes "`

Please provide a JSON array of the top 5 most popular and well-known songs that match this search.
Include variations, covers, and different versions if applicable.

Format as:
[
  {
    `title`: `Perfect`,
    `artist`: `Ed Sheeran`,
    `album`: `÷ (Divide)`,
    `year`: 2017,
    `genre`: `Pop`,
    `duration`: 263,
    `popularity`: `Very High`,
    `description`: `Romantic ballad, one of Ed Sheeran's biggest hits`
  }
]

Focus on popular, well-known songs that guitarists commonly play. Include accurate metadata.
")%string.

Definition searchSongs_try (query : string) : Prog (list SongInfo) :=
  (if negb (truthy AZURE_OPENAI_API_KEY)
      || strictEquals AZURE_OPENAI_API_KEY (JStr "YOUR_AZURE_OPENAI_API_KEY")
   then console_warn KeyNotConfiguredUsingMock;;
        lift (getMockSongSearchResults query)
   else
     response <- callAzureOpenAI (searchPrompt query) None;;
     match response with
     | JArr items => lift (cmap songOfItem items)
     | _ => throw NoValidResponse
     end)%prog.

Definition searchSongs (query : string) : Prog (list SongInfo) :=
  try_catch (searchSongs_try query)
    (fun error =>
       console_error (SearchFailed error);;
       lift (getMockSongSearchResults query))%prog.

(** *** getMockChordAnalysis (lines 1145-1167) *)

(** An entry of the [chords] literal: [{ time, chord, duration }]. *)
Definition mockChord (time : float) (name : string) (duration : float) : ChordProgression :=
  {| Chord.time := JNum time;
     Chord.chord := JStr name;
     Chord.duration := JNum duration;
     Chord.lyricLine := JUndefined;
     Chord.section := JUndefined |}.

Definition getMockChordAnalysis : ChordAnalysis :=
  {| Analysis.chords :=
       [ mockChord 0 "Em7" 4; mockChord 4 "G" 4; mockChord 8 "D" 4; mockChord 12 "C" 4;
         mockChord 16 "Em7" 4; mockChord 20 "G" 4; mockChord 24 "D" 4; mockChord 28 "C" 4;
         mockChord 32 "Am" 4; mockChord 36 "C" 4; mockChord 40 "D" 4; mockChord 44 "G" 4 ];
     Analysis.key := JStr "G Major";
     Analysis.tempo := JNum 87;
     Analysis.difficulty := JStr "Beginner";
     Analysis.capo := JUndefined;
     Analysis.tuning := JUndefined;
     Analysis.strummingPattern := JUndefined;
     Analysis.timeSignature := JUndefined;
     Analysis.sections := JUndefined;
     Analysis.songStructure := JUndefined;
     Analysis.alternativeCapo := JUndefined |}.

(** *** analyzeChordsWithAzureAI (lines 931-1002) *)

(** The prompt of lines 933-971 and the reading of the reply of lines
    975-999 are the text of lines 183-246; the [catch] differs: the
    fallback does not look at the song. *)
Definition analyzeChordsWithAzureAI (songInfo : SongInfo) : Prog ChordAnalysis :=
  try_catch
    (prompt <- lift (EndpointVariant.chordPrompt songInfo);;
     response <- callAzureOpenAI prompt (Some 2500%Z);;
     lift (EndpointVariant.chordAnalysisOfResponse response))%prog
    (fun error =>
       console_error (ChordsFailed error);;
       ret getMockChordAnalysis)%prog.

(** *** generateTutorialWithAzureAI (lines 1007-1088) *)

Definition tutorialPromptTexts : list string :=
  [ with_quotes "
Create a comprehensive guitar tutorial for `";
    with_quotes "` by ";
    with_quotes ".

Song Details:
- Key: ";
    with_quotes "
- Tempo: ";
    with_quotes " BPM
- Difficulty: ";
    with_quotes "
- Chords used: ";
    with_quotes "
- Capo: ";
    with_quotes "
- Strumming Pattern: ";
    with_quotes "

Please provide a detailed tutorial in JSON format:

{
  `overview`: `Comprehensive overview of the song and what makes it special to learn...`,
  `difficulty`: `";
    with_quotes "`,
  `estimatedTime`: 45,
  `requirements`: [`Basic chord knowledge`, `Strumming experience`],
  `chordDiagrams`: {
    `G`: `e|---3---|
B|---0---|
G|---0---|
D|---0---|
A|---2---|
E|---3---|`,
    `Em`: `e|---0---|
B|---0---|
G|---0---|
D|---2---|
A|---2---|
E|---0---|`
  },
  `steps`: [
    {
      `step`: 1,
      `title`: `Master Individual Chords`,
      `description`: `Learn each chord shape cleanly`,
      `chords`: [`G`, `Em`],
      `techniques`: [`Open chords`, `Finger placement`],
      `tips`: [`Keep thumb behind neck`, `Press firmly but don't squeeze`],
      `practiceTime`: 10,
      `commonMistakes`: [`Muted strings`, `Buzzing`]
    }
  ],
  `practiceNotes`: [`Practice daily`, `Use metronome`],
  `playingTips`: {
    `strumming`: `Focus on the down-up pattern`,
    `rhythm`: `Count along with the beat`,
    `transitions`: `Practice chord changes slowly first`
  },
  `performanceTips`: [`Start simple`, `Build confidence`, `Have fun`]
}

Requirements:
- Create 5-7 progressive learning steps
- Include specific chord diagrams for all chords
- Provide realistic time estimates
- Include common mistakes and how to avoid them
- Add performance and practice tips
- Make it suitable for the specified difficulty level
" ].

Definition tutorialPrompt (songInfo : SongInfo) (chordAnalysis : ChordAnalysis)
  : Completion string :=
  render tutorialPromptTexts
    [ ToString (Song.title songInfo);
      ToString (Song.artist songInfo);
      ToString (Analysis.key chordAnalysis);
      ToString (Analysis.tempo chordAnalysis);
      ToString (Analysis.difficulty chordAnalysis);
      join ", " (EndpointVariant.uniqueChords chordAnalysis);
      ToString (or_else (Analysis.capo chordAnalysis) (JNum 0));
      ToString (Analysis.strummingPattern chordAnalysis);
      ToString (Analysis.difficulty chordAnalysis) ].

(** *** getMockTutorial (lines 1172-1236) *)

(** A step of the literal: no [practiceTime], no [commonMistakes]. *)
Definition tutorialStep (step : float) (title description : string) (chords : list JSValue)
           (techniques tips : list string) : JSValue :=
  JObj [ ("step", JNum step);
         ("title", JStr title);
         ("description", JStr description);
         ("chords", JArr chords);
         ("techniques", EndpointVariant.strs techniques);
         ("tips", EndpointVariant.strs tips) ].

Definition mockOverview (chordAnalysis : ChordAnalysis) : Completion string :=
  (key <- ToString (Analysis.key chordAnalysis);;
   count <- ToString (JNum (float_of_nat (List.length (EndpointVariant.uniqueChords chordAnalysis))));;
   level <- toLowerCase_of (Analysis.difficulty chordAnalysis);;
   tempo <- ToString (Analysis.tempo chordAnalysis);;
   Normal ("This song is in " ++ key ++ " and uses " ++ count
           ++ " main chords. It's perfect for " ++ level
           ++ " players with a moderate tempo of " ++ tempo ++ " BPM.")%string)%comp.

Definition mockSteps (uniqueChords : list JSValue) : JSValue :=
  JArr
    [ tutorialStep 1 "Learn the Chord Shapes"
        "Master the basic chord fingerings before attempting to play the song."
        uniqueChords
        ["Open chords"; "Basic strumming"]
        [ "Practice each chord until you can form it cleanly";
          "Use a metronome to keep steady timing";
          "Focus on clean chord changes" ];
      tutorialStep 2 "Practice Chord Transitions"
        "Work on smooth transitions between the chord changes."
        (firstn 2 uniqueChords)
        ["Chord transitions"; "Finger positioning"]
        [ "Start slowly and gradually increase speed";
          "Keep your thumb behind the neck";
          "Minimize finger movement between chords" ];
      tutorialStep 3 "Learn the Strumming Pattern"
        "Add the strumming pattern to match the original song."
        []
        ["Down strums"; "Up strums"; "Rhythm patterns"]
        [ "Start with simple down strums";
          "Listen to the original for rhythm cues";
          "Practice with a metronome" ];
      tutorialStep 4 "Play Along with the Song"
        "Put it all together and play along with the original track."
        uniqueChords
        ["Full song performance"; "Playing along"]
        [ "Start at a slower tempo if needed";
          "Focus on staying in time with the recording";
          "Don't worry about perfection - have fun!" ] ].

Definition getMockTutorial (chordAnalysis : ChordAnalysis) : Completion GuitarTutorial :=
  (overview <- mockOverview chordAnalysis;;
   Normal
     {| Tutorial.overview := JStr overview;
        Tutorial.difficulty := Analysis.difficulty chordAnalysis;
        Tutorial.estimatedTime := JNum 30;
        Tutorial.requirements := JUndefined;
        Tutorial.chordDiagrams := JUndefined;
        Tutorial.steps := mockSteps (EndpointVariant.uniqueChords chordAnalysis);
        Tutorial.practiceNotes :=
          EndpointVariant.strs [ "Practice for 15-20 minutes daily for best results";
                 "Record yourself playing to identify areas for improvement";
                 "Try playing along with different versions of the song";
                 "Experiment with different strumming patterns once comfortable" ];
        Tutorial.playingTips := JUndefined;
        Tutorial.performanceTips := JUndefined |})%comp.

(** The reading of the reply (lines 1068-1084) is the text of lines
    320-336. *)
Definition generateTutorialWithAzureAI (songInfo : SongInfo) (chordAnalysis : ChordAnalysis)
  : Prog GuitarTutorial :=
  try_catch
    (prompt <- lift (tutorialPrompt songInfo chordAnalysis);;
     response <- callAzureOpenAI prompt (Some 3000%Z);;
     lift (EndpointVariant.tutorialOfResponse songInfo chordAnalysis response))%prog
    (fun error =>
       console_error (TutorialFailed error);;
       lift (getMockTutorial chordAnalysis))%prog.

(** *** analyzeSongByName (lines 843-862) *)

Definition analyzeSongByName (songInfo : SongInfo) : Prog FullAnalysisResult :=
  try_catch
    (chordAnalysis <- analyzeChordsWithAzureAI songInfo;;
     tutorial <- generateTutorialWithAzureAI songInfo chordAnalysis;;
     ret {| analysis := {| songInfo := songInfo; chordAnalysis := chordAnalysis |};
            tutorial := tutorial |})%prog
    (fun error =>
       console_error (AnalyzeFailed error);;
       throw AnalysisFailed)%prog.

End Service.
End DeploymentVariant.

(* ================================================================== *)
(** ** The consumer of an analysis: [ChordDisplay] of [unnamed/part_000] *)
(* ================================================================== *)

(** The component is handed [analysis.chords], [analysis.key],
    [analysis.difficulty] and [analysis.tempo] of a result.  Chord names
    and sections are compared with [===]; the embedding of [===] is that
    of values that are not arrays or objects. *)
Module ChordDisplay.

(** An entry of the array that the [reduce] of lines 350-365 builds. *)
Record SheetSection : Type := {
  sectionName : JSValue;
  chords : list ChordProgression;
  key : string
}.

(** [l[l.length - 1]] *)
Fixpoint last_opt {A} (l : list A) : option A :=
  match l with
  | [] => None
  | [x] => Some x
  | _ :: l' => last_opt l'
  end.

Section Component.
Context {platform : Platform}.

(** Line 223: [[...new Set(chords.map(c => c.chord))]] *)
Definition uniqueChords (chords : list ChordProgression) : list JSValue :=
  unique (map Chord.chord chords).

(** Lines 226-228 *)
Definition filteredChords (selectedChord : JSValue) (chords : list ChordProgression)
  : list ChordProgression :=
  if truthy selectedChord
  then filter (fun c => strictEquals (Chord.chord c) selectedChord) chords
  else chords.

(** Lines 239-241: what [setSelectedChord] is called with. *)
Definition handleChordSelect (selectedChord chord : JSValue) : JSValue :=
  if strictEquals chord selectedChord then JNull else chord.

(** Lines 230-237 *)
Definition getDifficultyColor (tintColor : string) (difficulty : JSValue) : Completion string :=
  (level <- toLowerCase_of difficulty;;
   Normal (if level =? "beginner" then "#4CAF50"
           else if level =? "intermediate" then "#FF9800"
           else if level =? "advanced" then "#F44336"
           else tintColor))%comp.

(** [chordItem.section || 'main'] *)
Definition sectionOf (chordItem : ChordProgression) : JSValue :=
  or_else (Chord.section chordItem) (JStr "main").

(** The callback of the [reduce] (lines 350-364).  [sections.push] adds
    at the end; [lastSection.chords.push] changes the last entry where it
    stands. *)
Definition sheetStep (sections : list SheetSection) (chordItem : ChordProgression) (index : nat)
  : Completion (list SheetSection) :=
  let section := sectionOf chordItem in
  let pushed :=
    (name <- ToString section;;
     Normal (sections
               ++ [ {| sectionName := section;
                       chords := [chordItem];
                       key := "section-" ++ name ++ "-"
                                ++ Number_toString (float_of_nat index) |} ]))%comp in
  match last_opt sections with
  | None => pushed
  | Some lastSection =>
      if negb (strictEquals (sectionName lastSection) section) then pushed
      else Normal (removelast sections
                     ++ [ {| sectionName := sectionName lastSection;
                             chords := chords lastSection ++ [chordItem];
                             key := key lastSection |} ])
  end.

(** [l.reduce(callback, sections)], from [index] on. *)
Fixpoint reduce_from (index : nat) (sections : list SheetSection) (l : list ChordProgression)
  : Completion (list SheetSection) :=
  match l with
  | [] => Normal sections
  | chordItem :: rest =>
      (sections' <- sheetStep sections chordItem index;;
       reduce_from (S index) sections' rest)%comp
  end.

(** The sections of the chord sheet (lines 350-365). *)
Definition chordSheet (filtered : list ChordProgression) : Completion (list SheetSection) :=
  reduce_from 0 [] filtered.

End Component.
End ChordDisplay.

(* ================================================================== *)
(** ** The callers: [app/(tabs)/index.tsx] and the input box of [unnamed/part_001] *)
(* ================================================================== *)

(** The home screen calls [searchSongs] and [analyzeSongByName] from its
    two handlers, and the input box calls the first handler.  What a
    handler does is a log of the state setters it calls, the animations
    it starts and the events of the service, in order. *)
Module Screen.

Inductive Easing : Type :=
| EaseOutCubic      (* Easing.out(Easing.cubic) *)
| EaseInCubic       (* Easing.in(Easing.cubic) *)
| EaseInOutCubic.   (* Easing.inOut(Easing.cubic) *)

(** [Animated.timing(value, { toValue, duration, easing, useNativeDriver: true })] *)
Record Timing : Type := {
  toValue : float;
  duration : Z;
  easing : Easing
}.

Inductive AnimatedValue : Type := resultsAnim | buttonScale.

(** The callback handed to [start]: [() => { setSearchResults([]) }].
    It runs when the animation ends, after the handler has gone on. *)
Inductive Callback : Type := ClearSearchResults.

Inductive UIEvent : Type :=
| Effect (ev : Event)                               (* the service, and Alert.alert *)
| SetAnalysisResult (value : FullAnalysisResult)
| SetIsLoading (value : bool)
| SetError (value : option string)                  (* null, or a message *)
| SetSearchResults (value : option (list SongInfo)) (* None: undefined *)
| SetIsSearching (value : bool)
| SetValue (target : AnimatedValue) (value : float) (* target.setValue(value) *)
| Start (target : AnimatedValue) (timings : list Timing) (onEnd : option Callback).

Definition Log : Type := list UIEvent.

Definition UI (A : Type) : Type := Log -> Completion A * Log.

Definition ui_ret {A} (a : A) : UI A := fun log => (Normal a, log).
Definition ui_throw {A} (e : Exn) : UI A := fun log => (Throw e, log).
Definition ui_emit (ev : UIEvent) : UI unit := fun log => (Normal tt, log ++ [ev]).

Definition ui_bind {A B} (m : UI A) (k : A -> UI B) : UI B :=
  fun log =>
    match m log with
    | (Normal a, log') => k a log'
    | (Throw e, log') => (Throw e, log')
    end.

(** [try { body } catch (err) { handler } finally { finalizer }] *)
Definition try_catch_finally {A} (body : UI A) (handler : Exn -> UI A) (finalizer : UI unit)
  : UI A :=
  fun log =>
    let '(c, log1) := match body log with
                      | (Normal a, log') => (Normal a, log')
                      | (Throw e, log') => handler e log'
                      end in
    match finalizer log1 with
    | (Normal _, log2) => (c, log2)
    | (Throw e, log2) => (Throw e, log2)
    end.

(** The events of the service in a log: what the network has seen. *)
Definition effects (log : Log) : Trace :=
  flat_map (fun ev => match ev with Effect e => [e] | _ => [] end) log.

(** [await m], for a function [m] of the service. *)
Definition call {A} (m : Prog A) : UI A :=
  fun log =>
    let tr := effects log in
    let '(c, tr') := m tr in
    (c, log ++ map Effect (skipn (List.length tr) tr')).

Declare Scope ui_scope.
Delimit Scope ui_scope with ui.
Notation "x <- m ;; k" := (ui_bind m (fun x => k))
  (at level 61, m at next level, right associativity) : ui_scope.
Notation "m ;; k" := (ui_bind m (fun _ => k))
  (at level 61, right associativity) : ui_scope.

Definition Alert_alert (title message : string) : UI unit := ui_emit (Effect (AlertShown title message)).

(** [err.message] of an [Error], [None] for a thrown value that is not
    one.  The texts of the errors that the engine makes are the ones they
    carry. *)
Definition Error_message {platform : Platform} (err : Exn) : option string :=
  match err with
  | NetworkFailure reason => Some reason
  | ApiError status statusText =>
      Some ("Azure OpenAI API error: "
              ++ Number_toString (PrimFloat.of_uint63 (Uint63.of_Z status)) ++ " - " ++ statusText)%string
  | BodyError reason => Some reason
  | NoContent => Some "No content in Azure OpenAI response"
  | TypeError what => Some what
  | SyntaxError what => Some what
  | URIError => Some "URI malformed"
  | InvalidResponse => Some "Invalid response from Azure OpenAI"
  | InvalidTutorialResponse => Some "Invalid tutorial response"
  | NoValidResponse => Some "No valid response from Azure OpenAI"
  | AnalysisFailed => Some "Failed to analyze the song. Please try again."
  | ThrownUndefined => None
  end.

(** [err instanceof Error ? err.message : fallback] *)
Definition message_or {platform : Platform} (err : Exn) (fallback : string) : string :=
  match Error_message err with
  | Some message => message
  | None => fallback
  end.

Section HomeScreen.
Context {platform : Platform}.
(** The two functions imported from the service.  [searchSongs] answers
    with [None] when it returns [undefined]. *)
Variable searchSongs : string -> Prog (option (list SongInfo)).
Variable analyzeSongByName : SongInfo -> Prog FullAnalysisResult.

(** *** handleSearchSongs (index.tsx, lines 75-106) *)

(** [query.trim()] is [trim], the trimming of ASCII white space: the
    handlers are those of the source on ASCII queries, and that is where
    their properties are stated. *)

Definition handleSearchSongs (query : string) : UI unit :=
  if trim query =? "" then
    Alert_alert "Empty Search" "Please enter a song name or artist"
  else
    (ui_emit (SetIsSearching true);;
     ui_emit (SetError None);;
     ui_emit (SetValue resultsAnim 0);;
     try_catch_finally
       (results <- call (searchSongs query);;
        ui_emit (SetSearchResults results);;
        match results with
        | None => ui_throw (TypeError "Cannot read property 'length' of undefined")
        | Some found =>
            if (0 <? List.length found)%nat
            then ui_emit (Start resultsAnim
                            [{| toValue := 1; duration := 500; easing := EaseOutCubic |}] None)
            else ui_ret tt
        end)
       (fun err =>
          let errorMessage := message_or err "Search failed" in
          ui_emit (SetError (Some errorMessage));;
          Alert_alert "Search Failed" errorMessage)
       (ui_emit (SetIsSearching false)))%ui.

(** *** handleAnalyzeSong (index.tsx, lines 108-132) *)

Definition handleAnalyzeSong (songInfo : SongInfo) : UI unit :=
  (ui_emit (SetIsLoading true);;
   ui_emit (SetError None);;
   ui_emit (Start resultsAnim [{| toValue := 0; duration := 300; easing := EaseInCubic |}]
              (Some ClearSearchResults));;
   try_catch_finally
     (result <- call (analyzeSongByName songInfo);;
      ui_emit (SetAnalysisResult result))
     (fun err =>
        let errorMessage := message_or err "Analysis failed" in
        ui_emit (SetError (Some errorMessage));;
        Alert_alert "Analysis Failed" errorMessage)
     (ui_emit (SetIsLoading false)))%ui.

(** *** handleSearch of [UserInput] (unnamed/part_001, lines 218-238),
    with [handleSearchSongs] as its [onAnalyze] *)

Definition handleSearch (query : string) : UI unit :=
  if negb (trim query =? "") then
    (ui_emit (Start buttonScale
                [ {| toValue := 0.95; duration := 100; easing := EaseInOutCubic |};
                  {| toValue := 1; duration := 200; easing := EaseOutCubic |} ] None);;
     handleSearchSongs (trim query))%ui
  else ui_ret tt.

End HomeScreen.

(** The screen on the service of lines 1-774. *)
Definition endpointSearch {platform : Platform} (net : Network) (env : ProcessEnv)
  : string -> Prog (option (list SongInfo)) :=
  EndpointVariant.searchSongs net env.


End Screen.


(* ================================================================== *)
(** ** A reference platform and test doubles *)
(* ================================================================== *)

(** An executable platform for running the service on concrete inputs.
    Its JSON reader knows [null], [true], [false], whole numbers, strings
    with the one-letter escapes, arrays and objects; its number printer is
    exact on whole numbers.  That is all the runs below ask of it. *)
Module Reference.

Definition is_json_space (c : ascii) : bool :=
  let n := nat_of_ascii c in
  (n =? 32)%nat || (n =? 9)%nat || (n =? 10)%nat || (n =? 13)%nat.

Fixpoint skip_space (s : string) : string :=
  match s with
  | String c r => if is_json_space c then skip_space r else s
  | EmptyString => EmptyString
  end.

Definition is_digit (c : ascii) : bool :=
  let n := nat_of_ascii c in (48 <=? n)%nat && (n <=? 57)%nat.

Fixpoint read_digits (acc : Z) (s : string) : Z * string :=
  match s with
  | String c r =>
      if is_digit c then read_digits (10 * acc + Z.of_nat (nat_of_ascii c - 48))%Z r
      else (acc, s)
  | EmptyString => (acc, s)
  end.

Definition starts_number_tail (s : string) : bool :=
  match s with
  | String c _ => Ascii.eqb c "." || Ascii.eqb c "e" || Ascii.eqb c "E"
  | EmptyString => false
  end.

Definition float_of_Z (z : Z) : float :=
  match z with
  | Z0 => 0%float
  | Zpos _ => PrimFloat.of_uint63 (Uint63.of_Z z)
  | Zneg p => PrimFloat.opp (PrimFloat.of_uint63 (Uint63.of_Z (Zpos p)))
  end.

Definition unescape (c : ascii) : option ascii :=
  if Ascii.eqb c "034" then Some "034"%char
  else if Ascii.eqb c "\" then Some "\"%char
  else if Ascii.eqb c "/" then Some "/"%char
  else if Ascii.eqb c "n" then Some "010"%char
  else if Ascii.eqb c "t" then Some "009"%char
  else if Ascii.eqb c "r" then Some "013"%char
  else None.

(** The characters of a string literal after its opening quote. *)
Fixpoint read_string (s : string) : option (string * string) :=
  match s with
  | EmptyString => None
  | String c r =>
      if Ascii.eqb c "034" then Some (EmptyString, r)
      else if Ascii.eqb c "\" then
        match r with
        | String e r' =>
            match unescape e, read_string r' with
            | Some c', Some (x, rest) => Some (String c' x, rest)
            | _, _ => None
            end
        | EmptyString => None
        end
      else
        match read_string r with
        | Some (x, rest) => Some (String c x, rest)
        | None => None
        end
  end.

Definition expect (word : string) (v : JSValue) (s : string) : option (JSValue * string) :=
  if prefix word s then Some (v, substring (String.length word) (String.length s) s) else None.

(** A later member with the same key replaces the value of the earlier
    one, in its place. *)
Fixpoint set_field (k : string) (v : JSValue) (fields : list (string * JSValue))
  : list (string * JSValue) :=
  match fields with
  | [] => [(k, v)]
  | (k', v') :: rest => if k =? k' then (k', v) :: rest else (k', v') :: set_field k v rest
  end.

Section Readers.
Variable read_value : string -> option (JSValue * string).

(** After [[] or a comma: a value, then a comma or []]. *)
Fixpoint read_elements (n : nat) (s : string) : option (list JSValue * string) :=
  match n with
  | O => None
  | S n' =>
      match read_value s with
      | Some (v, r) =>
          match skip_space r with
          | String c r' =>
              if Ascii.eqb c "," then
                match read_elements n' r' with
                | Some (vs, rest) => Some (v :: vs, rest)
                | None => None
                end
              else if Ascii.eqb c "]" then Some ([v], r')
              else None
          | EmptyString => None
          end
      | None => None
      end
  end.

(** After [{] or a comma: a key, a colon, a value, then a comma or [}]. *)
Fixpoint read_members (n : nat) (acc : list (string * JSValue)) (s : string)
  : option (list (string * JSValue) * string) :=
  match n with
  | O => None
  | S n' =>
      match skip_space s with
      | String q r =>
          if Ascii.eqb q "034" then
            match read_string r with
            | Some (k, r1) =>
                match skip_space r1 with
                | String colon r2 =>
                    if Ascii.eqb colon ":" then
                      match read_value r2 with
                      | Some (v, r3) =>
                          match skip_space r3 with
                          | String c r4 =>
                              if Ascii.eqb c "," then read_members n' (set_field k v acc) r4
                              else if Ascii.eqb c "}" then Some (set_field k v acc, r4)
                              else None
                          | EmptyString => None
                          end
                      | None => None
                      end
                    else None
                | EmptyString => None
                end
            | None => None
            end
          else None
      | EmptyString => None
      end
  end.
End Readers.

Fixpoint read_value (fuel : nat) (s : string) : option (JSValue * string) :=
  match fuel with
  | O => None
  | S fuel' =>
      match skip_space s with
      | EmptyString => None
      | String c r as s' =>
          if Ascii.eqb c "n" then expect "null" JNull s'
          else if Ascii.eqb c "t" then expect "true" (JBool true) s'
          else if Ascii.eqb c "f" then expect "false" (JBool false) s'
          else if Ascii.eqb c "034" then
            match read_string r with
            | Some (x, rest) => Some (JStr x, rest)
            | None => None
            end
          else if Ascii.eqb c "[" then
            match skip_space r with
            | String c' r' as inner =>
                if Ascii.eqb c' "]" then Some (JArr [], r')
                else match read_elements (read_value fuel') (String.length s) inner with
                     | Some (vs, rest) => Some (JArr vs, rest)
                     | None => None
                     end
            | EmptyString => None
            end
          else if Ascii.eqb c "{" then
            match skip_space r with
            | String c' r' as inner =>
                if Ascii.eqb c' "}" then Some (JObj [], r')
                else match read_members (read_value fuel') (String.length s) [] inner with
                     | Some (fields, rest) => Some (JObj fields, rest)
                     | None => None
                     end
            | EmptyString => None
            end
          else if Ascii.eqb c "-" then
            match r with
            | String d _ =>
                if is_digit d then
                  let '(z, rest) := read_digits 0 r in
                  if starts_number_tail rest then None
                  else Some (JNum (PrimFloat.opp (float_of_Z z)), rest)
                else None
            | EmptyString => None
            end
          else if is_digit c then
            let '(z, rest) := read_digits 0 s' in
            if starts_number_tail rest then None else Some (JNum (float_of_Z z), rest)
          else None
      end
  end.

Definition parse_JSON (s : string) : Completion JSValue :=
  match read_value (S (String.length s)) s with
  | Some (v, rest) =>
      match skip_space rest with
      | EmptyString => Normal v
      | _ => Throw (SyntaxError "Unexpected non-whitespace character after JSON")
      end
  | None => Throw (SyntaxError "Unexpected token or end of JSON input")
  end.

Definition string_of_Z (z : Z) : string := DecimalString.NilZero.string_of_int (Z.to_int z).

Definition print_number (x : float) : string :=
  match FloatOps.Prim2SF x with
  | SpecFloat.S754_zero _ => "0"
  | SpecFloat.S754_infinity false => "Infinity"
  | SpecFloat.S754_infinity true => "-Infinity"
  | SpecFloat.S754_nan => "NaN"
  | SpecFloat.S754_finite s m e =>
      let magnitude := (if 0 <=? e then Zpos m * 2 ^ e else Zpos m / 2 ^ (- e))%Z in
      string_of_Z (if s then - magnitude else magnitude)%Z
  end.

(** Arrays print their elements between commas; an object without a
    [toString] of its own prints as [[object Object]]. *)
Fixpoint print_value (v : JSValue) : string :=
  match v with
  | JUndefined => "undefined"
  | JNull => "null"
  | JBool true => "true"
  | JBool false => "false"
  | JNum x => print_number x
  | JStr s => s
  | JArr items =>
      (fix elements (l : list JSValue) : string :=
         match l with
         | [] => ""
         | v :: rest =>
             let s := match v with JUndefined | JNull => "" | _ => print_value v end in
             match rest with
             | [] => s
             | _ => (s ++ "," ++ elements rest)%string
             end
         end) items
  | JObj _ => "[object Object]"
  end.

Definition hex_digit (n : nat) : ascii :=
  if (n <? 10)%nat then ascii_of_nat (48 + n) else ascii_of_nat (55 + n).

Definition is_unreserved (c : ascii) : bool :=
  let n := nat_of_ascii c in
  ((65 <=? n)%nat && (n <=? 90)%nat) || ((97 <=? n)%nat && (n <=? 122)%nat)
  || ((48 <=? n)%nat && (n <=? 57)%nat)
  || existsb (Ascii.eqb c) ["-"; "_"; "."; "!"; "~"; "*"; "'"; "("; ")"]%char.

Fixpoint percent_encode (s : string) : string :=
  match s with
  | EmptyString => EmptyString
  | String c r =>
      if is_unreserved c then String c (percent_encode r)
      else
        let n := nat_of_ascii c in
        String "%" (String (hex_digit (n / 16)) (String (hex_digit (n mod 16)) (percent_encode r)))
  end.

#[export] Instance platform : Platform := {|
  toLowerCase := ascii_toLowerCase;
  toLowerCase_ascii := fun s _ => eq_refl;
  JSON_parse := parse_JSON;
  Number_toString := print_number;
  Object_toString := fun v => Normal (print_value v);
  encodeURI_string := fun s => Normal (percent_encode s)
|}.

(** No variable of the environment is set. *)
Definition unset : ProcessEnv :=
  {| EXPO_PUBLIC_AZURE_OPENAI_ENDPOINT := None;
     EXPO_PUBLIC_AZURE_OPENAI_API_KEY := None;
     EXPO_PUBLIC_AZURE_OPENAI_DEPLOYMENT := None |}.

Definition configured : ProcessEnv :=
  {| EXPO_PUBLIC_AZURE_OPENAI_ENDPOINT := Some "https://chords.openai.azure.com/";
     EXPO_PUBLIC_AZURE_OPENAI_API_KEY := Some "0123456789abcdef";
     EXPO_PUBLIC_AZURE_OPENAI_DEPLOYMENT := Some "gpt-4" |}.

(** A network that is down. *)
Definition offline : Network := fun _ _ => Rejected (NetworkFailure "Network request failed").

(** The body of a chat completion whose first choice says [content]. *)
Definition completion (content : string) : JSValue :=
  JObj [("choices", JArr [JObj [("message", JObj [("role", JStr "assistant");
                                                  ("content", JStr content)])]])].

Definition ok_response (body : JSValue) : Response :=
  {| ok := true; status := 200; statusText := "OK"; json := Normal body |}.

(** A network whose model always says [content]. *)
Definition replying (content : string) : Network :=
  fun _ _ => Responded (ok_response (completion content)).

(** A network that is down for the chord analysis (the requests with
    [max_tokens: 2500]) and says [content] to every other request. *)
Definition chords_down (content : string) : Network :=
  fun _ req =>
    if (max_tokens req =? 2500)%Z then Rejected (NetworkFailure "Network request failed")
    else Responded (ok_response (completion content)).

(** [key], quoted, as it stands in a JSON text. *)
Definition quoted (key : string) : string := (quote_mark ++ key ++ quote_mark)%string.

(** [[{"title":"Perfect","artist":"Ed Sheeran","duration":-5}]] *)
Definition reply_negative_duration : string :=
  ("[{" ++ quoted "title" ++ ":" ++ quoted "Perfect" ++ "," ++ quoted "artist" ++ ":"
        ++ quoted "Ed Sheeran" ++ "," ++ quoted "duration" ++ ":-5}]")%string.

(** [{"chords":5}] *)
Definition reply_chords_five : string := ("{" ++ quoted "chords" ++ ":5}")%string.

(** [{"overview":"Three chords and the truth"}] *)
Definition reply_overview : string :=
  ("{" ++ quoted "overview" ++ ":" ++ quoted "Three chords and the truth" ++ "}")%string.

(** A song as the caller of [analyzeSongByName] hands it over. *)
Definition song (title artist : string) : SongInfo :=
  mockSong title artist 200 "" "" "" 2000 "" "" "".

End Reference.

(* ================================================================== *)
(** ** The specification's words, to compare the code with *)
(* ================================================================== *)

Module Spec.

(** A case-insensitive substring match of the query against one field. *)
Definition field_matches {platform : Platform} (query : string) (field : JSValue) : bool :=
  match field with
  | JStr s => includes (toLowerCase s) (toLowerCase query)
  | _ => false
  end.

(** The search fallback over [catalog], matching against [fields]: the
    matching entries, or the first three entries when nothing matches. *)
Definition searchFallback {platform : Platform} (fields : list (SongInfo -> JSValue))
           (catalog : list SongInfo) (query : string) : list SongInfo :=
  match filter (fun song => existsb (fun field => field_matches query (field song)) fields) catalog with
  | [] => firstn 3 catalog
  | matching => matching
  end.

(** A non-empty string. *)
Definition nonEmpty (v : JSValue) : bool :=
  match v with
  | JStr s => negb (s =? "")
  | _ => false
  end.

(** A number that is not positive, or no number at all where one is due:
    what the specification calls an absent or non-positive duration. *)
Definition absentOrNonPositive (v : JSValue) : bool :=
  match v with
  | JUndefined => true
  | JNum x => PrimFloat.leb x 0
  | _ => false
  end.

(** A candidate with a non-empty title and a non-empty artist. *)
Definition wellNamed (song : SongInfo) : bool :=
  nonEmpty (Song.title song) && nonEmpty (Song.artist song).

(** A chord item with every absent or falsy field replaced by its default. *)
Definition defaultedChord (item : JSValue) : ChordProgression :=
  {| Chord.time := or_else (get_opt item "time") (JNum 0);
     Chord.chord := or_else (get_opt item "chord") (JStr "C");
     Chord.duration := or_else (get_opt item "duration") (JNum 4);
     Chord.lyricLine := or_else (get_opt item "lyricLine") (JStr "");
     Chord.section := or_else (get_opt item "section") (JStr "verse") |}.

(** The elements of the reply's [chords], none when that field is absent
    or falsy. *)
Definition chordItems (response : JSValue) : list JSValue :=
  match or_else (get_opt response "chords") (JArr []) with
  | JArr items => items
  | _ => []
  end.

(** A reply with every absent or falsy field replaced by its default. *)
Definition defaultedAnalysis (response : JSValue) : ChordAnalysis :=
  {| Analysis.chords := map defaultedChord (chordItems response);
     Analysis.key := or_else (get_opt response "key") (JStr "C Major");
     Analysis.tempo := or_else (get_opt response "tempo") (JNum 120);
     Analysis.difficulty := or_else (get_opt response "difficulty") (JStr "Beginner");
     Analysis.capo := or_else (get_opt response "capo") (JNum 0);
     Analysis.tuning := or_else (get_opt response "tuning") (JStr "Standard (E-A-D-G-B-E)");
     Analysis.strummingPattern := or_else (get_opt response "strummingPattern") (JStr "D-D-U-U-D-U");
     Analysis.timeSignature := or_else (get_opt response "timeSignature") (JStr "4/4");
     Analysis.sections :=
       or_else (get_opt response "sections")
               (JObj [("verse", JArr [JStr "C"; JStr "G"; JStr "Am"; JStr "F"])]);
     Analysis.songStructure :=
       or_else (get_opt response "songStructure") (JArr [JStr "verse"; JStr "chorus"]);
     Analysis.alternativeCapo := get_opt response "alternativeCapo" |}.

Definition notNull (v : JSValue) : bool :=
  match v with
  | JNull | JUndefined => false
  | _ => true
  end.

(** The replies that lines 222-243 can read through: truthy, with a
    [chords] that is falsy or an array, and no [null] in that array. *)
Definition readable (response : JSValue) : bool :=
  truthy response
  && match or_else (get_opt response "chords") (JArr []) with
     | JArr items => forallb notNull items
     | _ => false
     end.

(** The progression of the first keyword of the table, in its order, that
    the lowered title contains; the default one when it contains none. *)
Definition chordFallback (lowered : string) : ChordAnalysis :=
  if includes lowered "perfect" then EndpointVariant.perfectProgression
  else if includes lowered "wonderwall" then EndpointVariant.wonderwallProgression
  else EndpointVariant.defaultProgression.

(** A tutorial reply with every absent or falsy field replaced by its
    default, for a song whose title and artist are strings. *)
Definition defaultedTutorial (title artist : string) (chordAnalysis : ChordAnalysis)
           (response : JSValue) : GuitarTutorial :=
  {| Tutorial.overview :=
       or_else (get_opt response "overview")
               (JStr ("Learn to play " ++ quote_mark ++ title ++ quote_mark ++ " by " ++ artist)%string);
     Tutorial.difficulty := or_else (get_opt response "difficulty") (Analysis.difficulty chordAnalysis);
     Tutorial.estimatedTime := or_else (get_opt response "estimatedTime") (JNum 45);
     Tutorial.requirements :=
       or_else (get_opt response "requirements") (JArr [JStr "Basic chord knowledge"]);
     Tutorial.chordDiagrams := or_else (get_opt response "chordDiagrams") (JObj []);
     Tutorial.steps := or_else (get_opt response "steps") (JArr []);
     Tutorial.practiceNotes :=
       or_else (get_opt response "practiceNotes") (JArr [JStr "Practice regularly"]);
     Tutorial.playingTips := or_else (get_opt response "playingTips") (JObj []);
     Tutorial.performanceTips :=
       or_else (get_opt response "performanceTips") (JArr [JStr "Have fun!"]) |}.

End Spec.

(** [Array.isArray(v)] *)
Definition isArray (v : JSValue) : bool :=
  match v with
  | JArr _ => true
  | _ => false
  end.

(** What [searchSongs] of lines 19-77 logs and shows before its request
    when the key is empty or the placeholder. *)
Definition keyWarnings (env : ProcessEnv) : list Event :=
  if (EndpointVariant.AZURE_OPENAI_API_KEY env =? "")
     || (EndpointVariant.AZURE_OPENAI_API_KEY env =? "YOUR_AZURE_OPENAI_API_KEY")
  then [ConsoleWarn KeyNotConfigured; AlertShown "Warning" "Azure OpenAI API key not configured"]
  else [].

(** The [catch] of lines 247-251, run at trace [tr]. *)
Definition chordsCaught {platform : Platform} (song : SongInfo) (e : Exn) (tr : Trace)
  : Completion ChordAnalysis * Trace :=
  (EndpointVariant.getEnhancedMockChordAnalysis song, tr ++ [ConsoleError (ChordsFailed e)]).

(** The [catch] of lines 337-341, run at trace [tr]. *)
Definition tutorialCaught {platform : Platform} (song : SongInfo) (chordAnalysis : ChordAnalysis)
           (e : Exn) (tr : Trace) : Completion GuitarTutorial * Trace :=
  (EndpointVariant.getEnhancedMockTutorial song chordAnalysis,
   tr ++ [ConsoleError (TutorialFailed e)]).

(* ================================================================== *)
(** ** Reading a trace, and more test doubles *)
(* ================================================================== *)

(** The requests of a trace, in order. *)
Definition requests (tr : Trace) : list Request :=
  flat_map (fun ev => match ev with Fetch req => [req] | _ => [] end) tr.

(** The milliseconds a trace spends in [setTimeout]. *)
Definition waited (tr : Trace) : Z :=
  fold_right (fun ev total => match ev with Sleep ms => (ms + total)%Z | _ => total end) 0%Z tr.

(** What a trace writes with [console.warn]. *)
Definition warnings (tr : Trace) : list Message :=
  flat_map (fun ev => match ev with ConsoleWarn m => [m] | _ => [] end) tr.

Definition is_string (v : JSValue) : bool :=
  match v with
  | JStr _ => true
  | _ => false
  end.

(** A value that ToString converts without calling into an object. *)
Definition is_primitive (v : JSValue) : bool :=
  match v with
  | JArr _ | JObj _ => false
  | _ => true
  end.

(** A chord event that names its chord, its length and its section. *)
Definition chordComplete (c : ChordProgression) : bool :=
  truthy (Chord.chord c) && truthy (Chord.duration c) && truthy (Chord.section c).

(** An analysis in which every field that lines 225-241 default to a
    truthy value is truthy. *)
Definition analysisComplete (a : ChordAnalysis) : bool :=
  truthy (Analysis.key a) && truthy (Analysis.tempo a) && truthy (Analysis.difficulty a)
  && truthy (Analysis.tuning a) && truthy (Analysis.strummingPattern a)
  && truthy (Analysis.timeSignature a) && truthy (Analysis.sections a)
  && forallb chordComplete (Analysis.chords a).


(** No two neighbours of a list are equal. *)
Fixpoint no_repeat {A} (l : list A) : Prop :=
  match l with
  | a :: (b :: _) as rest => a <> b /\ no_repeat rest
  | _ => True
  end.

(** A chord sheet in the making: every section has a string for its
    name, holds at least one chord event and only events of its name, and
    no two neighbouring sections have the same name. *)
Definition sheet_ok (sections : list ChordDisplay.SheetSection) : Prop :=
  Forall (fun s =>
            is_string (ChordDisplay.sectionName s) = true
            /\ ChordDisplay.chords s <> []
            /\ Forall (fun c => ChordDisplay.sectionOf c = ChordDisplay.sectionName s)
                      (ChordDisplay.chords s))
         sections
  /\ no_repeat (map ChordDisplay.sectionName sections).

(** The key of the environment is not set, is empty, or is the
    placeholder of the sources. *)
Definition keyMissing (env : ProcessEnv) : bool :=
  match EXPO_PUBLIC_AZURE_OPENAI_API_KEY env with
  | None => true
  | Some key => (key =? "") || (key =? "YOUR_AZURE_OPENAI_API_KEY")
  end.

Module Doubles.

(** A network that rejects the first [failures] requests of a run and
    then has the model say [content]. *)
Definition failing_first (failures : nat) (content : string) : Network :=
  fun tr _ =>
    if (List.length (requests tr) <? failures)%nat
    then Rejected (NetworkFailure "Network request failed")
    else Responded (Reference.ok_response (Reference.completion content)).

(** A network whose model says [content] to the chord analysis (the
    requests with [max_tokens: 2500]) and that is down for every other
    request. *)
Definition chords_only (content : string) : Network :=
  fun _ req =>
    if (max_tokens req =? 2500)%Z then Responded (Reference.ok_response (Reference.completion content))
    else Rejected (NetworkFailure "Network request failed").

(** [{"difficulty":3}] *)
Definition reply_difficulty_three : string := ("{" ++ Reference.quoted "difficulty" ++ ":3}")%string.

(** [[{"title":"Perfect","artist":"Ed Sheeran"},null]] *)
Definition reply_song_and_null : string :=
  ("[{" ++ Reference.quoted "title" ++ ":" ++ Reference.quoted "Perfect" ++ ","
        ++ Reference.quoted "artist" ++ ":" ++ Reference.quoted "Ed Sheeran" ++ "},null]")%string.

(** [{"chords":[{},{"chord":"Em","time":8}],"tempo":90}] *)
Definition reply_two_chords : string :=
  ("{" ++ Reference.quoted "chords" ++ ":[{},{" ++ Reference.quoted "chord" ++ ":"
       ++ Reference.quoted "Em" ++ "," ++ Reference.quoted "time" ++ ":8}],"
       ++ Reference.quoted "tempo" ++ ":90}")%string.

End Doubles.


(* ================================================================== *)
(** ** The definitions at work *)
(* ================================================================== *)

Example clean_strips_fences :
  clean (JStr ("```json" ++ String newline "[1]" ++ String newline "```" ++ String newline "  "))
  = Normal "[1]"
  /\ clean (JStr "  {}  ") = Normal "{}"
  /\ clean (JNum 5) = Throw (TypeError "content.replace is not a function").
Proof. repeat split. Qed.

Example includes_is_substring :
  includes "wonderwall (live)" "wall" = true
  /\ includes "abc" "" = true
  /\ includes "abc" "abd" = false.
Proof. repeat split. Qed.

Example truthiness :
  map truthy [JUndefined; JNull; JBool false; JNum 0; JNum (-0); JNum nan; JStr "";
              JNum (-5); JStr "0"; JArr []; JObj []]
  = [false; false; false; false; false; false; false; true; true; true; true].
Proof. reflexivity. Qed.

Example reference_reads_JSON :
  Reference.parse_JSON Reference.reply_negative_duration
  = Normal (JArr [JObj [("title", JStr "Perfect"); ("artist", JStr "Ed Sheeran");
                        ("duration", JNum (-5))]])
  /\ Reference.parse_JSON " [ null , true , [ ] , { } ] "
     = Normal (JArr [JNull; JBool true; JArr []; JObj []])
  /\ Reference.parse_JSON "[1,]" = Throw (SyntaxError "Unexpected token or end of JSON input")
  /\ Reference.parse_JSON "{} x"
     = Throw (SyntaxError "Unexpected non-whitespace character after JSON").
Proof. repeat split. Qed.

Example backoff_doubles :
  map Client.backoff [1; 2; 3]%Z = [1000; 2000; 4000]%Z.
Proof. reflexivity. Qed.

(** A search that the model answers with one song: one candidate, with
    the artist and the title percent-encoded in its thumbnail and URL. *)
Example search_with_one_model_song :
  let reply := ("[{" ++ Reference.quoted "title" ++ ":" ++ Reference.quoted "Perfect" ++ ","
                     ++ Reference.quoted "artist" ++ ":" ++ Reference.quoted "Ed Sheeran" ++ "}]")%string in
  fst (EndpointVariant.searchSongs (platform := Reference.platform)
         (Reference.replying reply) Reference.configured "Perfect Ed Sheeran" [])
  = Normal
      (Some
         [ {| Song.title := JStr "Perfect";
              Song.artist := JStr "Ed Sheeran";
              Song.duration := JNum 180;
              Song.thumbnail :=
                "https://via.placeholder.com/480x360/1e293b/white?text=Ed%20Sheeran+-+Perfect";
              Song.url := "song://Ed%20Sheeran-Perfect";
              Song.album := JUndefined;
              Song.year := JUndefined;
              Song.genre := JUndefined;
              Song.popularity := JUndefined;
              Song.description := JUndefined |} ]).
Proof. vm_compute. reflexivity. Qed.

(* ================================================================== *)
(** ** Running computations *)
(* ================================================================== *)

Ltac run_prog :=
  unfold bind, try_catch, ret, lift, throw, console_warn, console_error, console_log,
    Alert_alert, sleep, emit.

Lemma app_one_assoc {A} (l : list A) (x : A) (l' : list A) : (l ++ [x]) ++ l' = l ++ x :: l'.
Proof. now rewrite <- app_assoc. Qed.

Lemma cfilter_normal {A} (p : A -> Completion bool) (q : A -> bool) (l : list A) :
  (forall x, In x l -> p x = Normal (q x)) -> cfilter p l = Normal (filter q l).
Proof.
  induction l as [| x l IH]; intros H; simpl; [reflexivity |].
  rewrite (H x (or_introl eq_refl)). simpl.
  rewrite IH by (intros y Hy; apply H; now right). simpl.
  now destruct (q x).
Qed.

Lemma get_normal_inv (v : JSValue) (k : string) (x : JSValue) :
  get v k = Normal x -> x = get_opt v k /\ forall k', get v k' = Normal (get_opt v k').
Proof. destruct v; simpl; intros H; try discriminate; injection H as <-; split; reflexivity. Qed.

(* ================================================================== *)
(** ** Properties of the completion client *)
(* ================================================================== *)

Section ClientProperties.
Context {platform : Platform} (net : Network) (endpointURL : string) (apiKeyHeader : JSValue).

Local Abbreviation attempt_once := (Client.attempt_once net endpointURL apiKeyHeader).
Local Abbreviation request := (Client.request endpointURL apiKeyHeader).
Local Abbreviation callAzureOpenAI := (Client.callAzureOpenAI net endpointURL apiKeyHeader).

(** One attempt sends one request and does nothing else that shows. *)
Lemma attempt_once_trace prompt maxTokens tr :
  snd (attempt_once prompt maxTokens tr) = tr ++ [Fetch (request prompt maxTokens)].
Proof.
  unfold Client.attempt_once, bind, fetch, lift, throw.
  destruct (net tr _) as [e | r]; simpl; [reflexivity |].
  destruct (ok r); simpl; [| reflexivity].
  destruct (json r) as [data | e]; simpl; [| reflexivity].
  destruct (Client.content_of data) as [content | e]; simpl; [| reflexivity].
  destruct (truthy content); simpl; [| reflexivity].
  destruct (clean content); reflexivity.
Qed.

Lemma attempt_once_run prompt maxTokens tr :
  attempt_once prompt maxTokens tr
  = (fst (attempt_once prompt maxTokens tr), tr ++ [Fetch (request prompt maxTokens)]).
Proof. rewrite <- attempt_once_trace. apply surjective_pairing. Qed.

(** The first thing a call does is to send its request. *)
Lemma callAzureOpenAI_sends_first prompt maxTokens tr :
  exists rest,
    snd (callAzureOpenAI prompt maxTokens tr)
    = tr ++ Fetch (request prompt (match maxTokens with Some n => n | None => 2000%Z end)) :: rest.
Proof.
  unfold Client.callAzureOpenAI.
  set (n := match maxTokens with Some n => n | None => 2000%Z end).
  change (Z.to_nat Client.maxRetries) with 3%nat.
  cbn [Client.attempts_from]. unfold try_catch at 1.
  rewrite (attempt_once_run prompt n tr).
  destruct (fst (attempt_once prompt n tr)) as [v | e1].
  - exists []. reflexivity.
  - run_prog. cbn [Z.ltb Z.compare Client.maxRetries Pos.compare Pos.compare_cont].
    rewrite (attempt_once_run prompt n _).
    destruct (fst (attempt_once prompt n _)) as [v | e2].
    + eexists. cbn [snd]. rewrite !app_one_assoc. reflexivity.
    + cbn [Z.ltb Z.compare Client.maxRetries Pos.compare Pos.compare_cont Z.add Pos.add Pos.succ].
      rewrite (attempt_once_run prompt n _).
      destruct (fst (attempt_once prompt n _)) as [v | e3].
      * eexists. cbn [snd]. rewrite !app_one_assoc. reflexivity.
      * eexists. cbn [snd Z.ltb Z.compare Client.maxRetries Pos.compare Pos.compare_cont Z.add Pos.add Pos.succ].
        rewrite !app_one_assoc. reflexivity.
Qed.

(** A call throws only when its three attempts have thrown, and then it
    throws what the third attempt threw. *)
Lemma callAzureOpenAI_throws_only_after_three_failures prompt maxTokens tr e tr' :
  callAzureOpenAI prompt maxTokens tr = (Throw e, tr') ->
  let n := match maxTokens with Some n => n | None => 2000%Z end in
  let req := request prompt n in
  exists e1 e2,
    let tr1 := tr ++ [Fetch req; ConsoleWarn (AttemptFailed 1 e1); Sleep 1000] in
    let tr2 := tr1 ++ [Fetch req; ConsoleWarn (AttemptFailed 2 e2); Sleep 2000] in
    fst (attempt_once prompt n tr) = Throw e1
    /\ fst (attempt_once prompt n tr1) = Throw e2
    /\ fst (attempt_once prompt n tr2) = Throw e
    /\ tr' = tr2 ++ [Fetch req; ConsoleWarn (AttemptFailed 3 e)].
Proof.
  intros H n req. revert H.
  unfold Client.callAzureOpenAI. fold n.
  change (Z.to_nat Client.maxRetries) with 3%nat.
  cbn [Client.attempts_from]. unfold try_catch at 1.
  rewrite (attempt_once_run prompt n tr).
  destruct (fst (attempt_once prompt n tr)) as [v | e1] eqn:H1; [discriminate |].
  run_prog. cbn [Z.ltb Z.compare Client.maxRetries Pos.compare Pos.compare_cont].
  change (Client.backoff 1) with 1000%Z. rewrite !app_one_assoc.
  change (tr ++ Fetch (request prompt n) :: ConsoleWarn (AttemptFailed 1 e1) :: [Sleep 1000])
    with (tr ++ [Fetch req; ConsoleWarn (AttemptFailed 1 e1); Sleep 1000]).
  set (tr1 := tr ++ [Fetch req; ConsoleWarn (AttemptFailed 1 e1); Sleep 1000]).
  rewrite (attempt_once_run prompt n tr1).
  destruct (fst (attempt_once prompt n tr1)) as [v | e2] eqn:H2; [discriminate |].
  cbn [Z.ltb Z.compare Client.maxRetries Pos.compare Pos.compare_cont Z.add Pos.add Pos.succ].
  change (Client.backoff 2) with 2000%Z. rewrite !app_one_assoc.
  change (tr1 ++ Fetch (request prompt n) :: ConsoleWarn (AttemptFailed 2 e2) :: [Sleep 2000])
    with (tr1 ++ [Fetch req; ConsoleWarn (AttemptFailed 2 e2); Sleep 2000]).
  set (tr2 := tr1 ++ [Fetch req; ConsoleWarn (AttemptFailed 2 e2); Sleep 2000]).
  rewrite (attempt_once_run prompt n tr2).
  destruct (fst (attempt_once prompt n tr2)) as [v | e3] eqn:H3; [discriminate |].
  cbn [Z.ltb Z.compare Client.maxRetries Pos.compare Pos.compare_cont Z.add Pos.add Pos.succ].
  rewrite !app_one_assoc. intros H. injection H as <- <-.
  exists e1, e2. repeat split; assumption.
Qed.

(** C1.  When each of the three attempts throws, [callAzureOpenAI] sends
    exactly three requests, sleeps 1000 ms after the first failure and
    2000 ms after the second, does not sleep after the third, and throws
    the error of the third attempt.  Every failure is logged as a warning
    with its attempt number. *)
Theorem callAzureOpenAI_exhausts_three_attempts :
  forall (prompt : string) (maxTokens : option Z) (tr : Trace) (e1 e2 e3 : Exn),
    let n := match maxTokens with Some n => n | None => 2000%Z end in
    let req := request prompt n in
    let tr1 := tr ++ [Fetch req; ConsoleWarn (AttemptFailed 1 e1); Sleep 1000] in
    let tr2 := tr1 ++ [Fetch req; ConsoleWarn (AttemptFailed 2 e2); Sleep 2000] in
    fst (attempt_once prompt n tr) = Throw e1 ->
    fst (attempt_once prompt n tr1) = Throw e2 ->
    fst (attempt_once prompt n tr2) = Throw e3 ->
    callAzureOpenAI prompt maxTokens tr
    = (Throw e3, tr2 ++ [Fetch req; ConsoleWarn (AttemptFailed 3 e3)]).
Proof.
  intros prompt maxTokens tr e1 e2 e3 n req tr1 tr2 H1 H2 H3.
  unfold Client.callAzureOpenAI. fold n.
  change (Z.to_nat Client.maxRetries) with 3%nat.
  cbn [Client.attempts_from]. unfold try_catch at 1.
  rewrite (attempt_once_run prompt n tr), H1.
  run_prog. cbn [Z.ltb Z.compare Client.maxRetries Pos.compare Pos.compare_cont].
  change (Client.backoff 1) with 1000%Z.
  replace (((tr ++ [Fetch (request prompt n)]) ++ [ConsoleWarn (AttemptFailed 1 e1)]) ++ [Sleep 1000])
    with tr1 by (unfold tr1, req; now rewrite !app_one_assoc).
  rewrite (attempt_once_run prompt n tr1), H2.
  cbn [Z.ltb Z.compare Client.maxRetries Pos.compare Pos.compare_cont Z.add Pos.add Pos.succ].
  change (Client.backoff 2) with 2000%Z.
  replace (((tr1 ++ [Fetch (request prompt n)]) ++ [ConsoleWarn (AttemptFailed 2 e2)]) ++ [Sleep 2000])
    with tr2 by (unfold tr2, req; now rewrite !app_one_assoc).
  rewrite (attempt_once_run prompt n tr2), H3.
  cbn [Z.ltb Z.compare Client.maxRetries Pos.compare Pos.compare_cont Z.add Pos.add Pos.succ].
  unfold req. now rewrite !app_one_assoc.
Qed.

End ClientProperties.

(** Both variants call this one client, each with its URL and its key. *)
Lemma variants_share_the_client {platform : Platform} (net : Network) (env : ProcessEnv) :
  EndpointVariant.callAzureOpenAI net env
  = Client.callAzureOpenAI net (EndpointVariant.AZURE_OPENAI_ENDPOINT env)
                           (JStr (EndpointVariant.AZURE_OPENAI_API_KEY env))
  /\ DeploymentVariant.callAzureOpenAI net env
     = Client.callAzureOpenAI net (DeploymentVariant.endpointURL env)
                              (DeploymentVariant.AZURE_OPENAI_API_KEY env).
Proof. split; reflexivity. Qed.

Lemma callAzureOpenAI_exhausts_three_attempts_witness :
  let down := NetworkFailure "Network request failed" in
  let prompt := EndpointVariant.searchPrompt "Wonderwall" in
  let req := Client.request "https://chords.openai.azure.com/" (JStr "0123456789abcdef") prompt 2000 in
  EndpointVariant.callAzureOpenAI (platform := Reference.platform)
    Reference.offline Reference.configured prompt None []
  = (Throw down,
     [ Fetch req; ConsoleWarn (AttemptFailed 1 down); Sleep 1000;
       Fetch req; ConsoleWarn (AttemptFailed 2 down); Sleep 2000;
       Fetch req; ConsoleWarn (AttemptFailed 3 down) ]).
Proof.
  intros down prompt req.
  apply (callAzureOpenAI_exhausts_three_attempts (platform := Reference.platform) Reference.offline
           "https://chords.openai.azure.com/" (JStr "0123456789abcdef") prompt None [] down down down);
    reflexivity.
Defined.

(* ================================================================== *)
(** ** Properties of the search fallback *)
(* ================================================================== *)

Section FallbackProperties.
Context {platform : Platform}.

Lemma firstn_sublist {A} (n : nat) (l : list A) (x : A) : In x (firstn n l) -> In x l.
Proof.
  revert l. induction n as [| n IH]; intros [| y l]; simpl; try tauto.
  intros [H | H]; [now left | right; now apply IH].
Qed.

Lemma searchFallback_sublist fields catalog query song :
  In song (Spec.searchFallback fields catalog query) -> In song catalog.
Proof.
  unfold Spec.searchFallback.
  destruct (filter _ catalog) as [| x l] eqn:E.
  - apply firstn_sublist.
  - rewrite <- E. intros H. apply filter_In in H. tauto.
Qed.

Lemma searchFallback_nonempty fields x catalog query :
  Spec.searchFallback fields (x :: catalog) query <> [].
Proof.
  unfold Spec.searchFallback.
  destruct (filter _ (x :: catalog)); simpl; discriminate.
Qed.

Lemma pick_filtered_or_first_three (filtered catalog : list SongInfo) :
  (if (0 <? List.length filtered)%nat then filtered else firstn 3 catalog)
  = match filtered with [] => firstn 3 catalog | x :: l => x :: l end.
Proof. now destruct filtered. Qed.

Lemma endpoint_matchesQuery query song :
  In song EndpointVariant.mockSongs ->
  EndpointVariant.matchesQuery query song
  = Normal (existsb (fun field => Spec.field_matches query (field song))
                    [Song.title; Song.artist; Song.genre]).
Proof.
  intros Hin. unfold EndpointVariant.mockSongs in Hin. simpl in Hin.
  repeat (destruct Hin as [<- | Hin]; [| ]); try contradiction;
    unfold EndpointVariant.matchesQuery; simpl;
    repeat (destruct (includes _ _); simpl; try reflexivity).
Qed.

Lemma deployment_matchesQuery query song :
  In song DeploymentVariant.mockSongs ->
  DeploymentVariant.matchesQuery query song
  = Normal (existsb (fun field => Spec.field_matches query (field song))
                    [Song.title; Song.artist]).
Proof.
  intros Hin. unfold DeploymentVariant.mockSongs in Hin. simpl in Hin.
  repeat (destruct Hin as [<- | Hin]; [| ]); try contradiction;
    unfold DeploymentVariant.matchesQuery; simpl;
    repeat (destruct (includes _ _); simpl; try reflexivity).
Qed.

Lemma endpoint_fallback_is_searchFallback query :
  EndpointVariant.getMockSongSearchResults query
  = Normal (Spec.searchFallback [Song.title; Song.artist; Song.genre]
                                EndpointVariant.mockSongs query).
Proof.
  unfold EndpointVariant.getMockSongSearchResults.
  rewrite (cfilter_normal _ _ _ (endpoint_matchesQuery query)). unfold cbind.
  unfold Spec.searchFallback. f_equal. apply pick_filtered_or_first_three.
Qed.

Lemma deployment_fallback_is_searchFallback query :
  DeploymentVariant.getMockSongSearchResults query
  = Normal (Spec.searchFallback [Song.title; Song.artist]
                                DeploymentVariant.mockSongs query).
Proof.
  unfold DeploymentVariant.getMockSongSearchResults.
  rewrite (cfilter_normal _ _ _ (deployment_matchesQuery query)). unfold cbind.
  unfold Spec.searchFallback. f_equal. apply pick_filtered_or_first_three.
Qed.

(** On ASCII text the platform lowers as [ascii_toLowerCase] does, so a
    match of two literals can be computed. *)
Lemma no_song_matches_zzz song :
  In song EndpointVariant.mockSongs ->
  existsb (fun field => Spec.field_matches "zzz-no-match-xyz" (field song))
          [Song.title; Song.artist; Song.genre] = false.
Proof.
  intros Hin. unfold EndpointVariant.mockSongs in Hin. simpl in Hin.
  repeat (destruct Hin as [<- | Hin]; [| ]); try contradiction;
    simpl; rewrite !toLowerCase_ascii by reflexivity; reflexivity.
Qed.

Lemma filter_none {A} (p : A -> bool) (l : list A) :
  (forall x, In x l -> p x = false) -> filter p l = [].
Proof.
  induction l as [| x l IH]; intros H; simpl; [reflexivity |].
  rewrite (H x (or_introl eq_refl)). apply IH. intros y Hy. apply H. now right.
Qed.

(** C6, as the code has it.  The fallback of lines 347-425 keeps the
    entries of its five-song catalog whose title, artist or genre contains
    the query, case-insensitively; the fallback of lines 1093-1140 keeps
    the entries of its three-song catalog whose title or artist does, and
    does not look at the genre.  Each returns the first three entries of
    its catalog when nothing matches, so neither is ever empty, and both
    return exactly three candidates for "zzz-no-match-xyz". *)
Theorem search_fallback_filters_or_first_three :
  forall query : string,
    EndpointVariant.getMockSongSearchResults query
    = Normal (Spec.searchFallback [Song.title; Song.artist; Song.genre]
                                  EndpointVariant.mockSongs query)
    /\ DeploymentVariant.getMockSongSearchResults query
       = Normal (Spec.searchFallback [Song.title; Song.artist]
                                     DeploymentVariant.mockSongs query)
    /\ Spec.searchFallback [Song.title; Song.artist; Song.genre]
                           EndpointVariant.mockSongs query <> []
    /\ Spec.searchFallback [Song.title; Song.artist]
                           DeploymentVariant.mockSongs query <> []
    /\ EndpointVariant.getMockSongSearchResults "zzz-no-match-xyz"
       = Normal [Perfect "รท (Divide)"; Wonderwall; ShapeOfYou "รท (Divide)"]
    /\ DeploymentVariant.getMockSongSearchResults "zzz-no-match-xyz"
       = Normal [Perfect "÷ (Divide)"; Wonderwall; ShapeOfYou "÷ (Divide)"].
Proof.
  intros query. repeat split.
  - apply endpoint_fallback_is_searchFallback.
  - apply deployment_fallback_is_searchFallback.
  - apply searchFallback_nonempty.
  - apply searchFallback_nonempty.
  - rewrite endpoint_fallback_is_searchFallback. unfold Spec.searchFallback.
    now rewrite (filter_none _ _ no_song_matches_zzz).
  - rewrite deployment_fallback_is_searchFallback. unfold Spec.searchFallback.
    rewrite filter_none; [reflexivity |].
    intros song Hin. unfold DeploymentVariant.mockSongs in Hin. simpl in Hin.
    repeat (destruct Hin as [<- | Hin]; [| ]); try contradiction;
      simpl; rewrite !toLowerCase_ascii by reflexivity; reflexivity.
Qed.

End FallbackProperties.

(** C6, as the claim has it, fails on the three-song fallback: for the
    query "pop" a match against the genre would keep Perfect and Shape of
    You, but lines 1134-1137 match title and artist only, find nothing,
    and return all three songs, Wonderwall included. *)
Lemma deployment_fallback_ignores_genre :
  DeploymentVariant.getMockSongSearchResults (platform := Reference.platform) "pop"
  = Normal [Perfect "÷ (Divide)"; Wonderwall; ShapeOfYou "÷ (Divide)"]
  /\ Spec.searchFallback (platform := Reference.platform) [Song.title; Song.artist; Song.genre]
                         DeploymentVariant.mockSongs "pop"
     = [Perfect "÷ (Divide)"; ShapeOfYou "÷ (Divide)"]
  /\ DeploymentVariant.getMockSongSearchResults (platform := Reference.platform) "pop"
     <> Normal (Spec.searchFallback (platform := Reference.platform) [Song.title; Song.artist; Song.genre]
                                    DeploymentVariant.mockSongs "pop").
Proof.
  assert (E1 : DeploymentVariant.getMockSongSearchResults (platform := Reference.platform) "pop"
               = Normal [Perfect "÷ (Divide)"; Wonderwall; ShapeOfYou "÷ (Divide)"])
    by (vm_compute; reflexivity).
  assert (E2 : Spec.searchFallback (platform := Reference.platform) [Song.title; Song.artist; Song.genre]
                                   DeploymentVariant.mockSongs "pop"
               = [Perfect "÷ (Divide)"; ShapeOfYou "÷ (Divide)"])
    by (vm_compute; reflexivity).
  repeat split; trivial.
  rewrite E1, E2. intros H.
  apply (f_equal (fun c => match c with Normal l => List.length l | Throw _ => 0%nat end)) in H.
  discriminate H.
Qed.

(* ================================================================== *)
(** ** Properties of the candidates built from a model reply *)
(* ================================================================== *)

Section CandidateProperties.
Context {platform : Platform}.

(** What [songOfItem] returns when it returns. *)
Lemma songOfItem_fields item song :
  songOfItem item = Normal song ->
  Song.title song = get_opt item "title"
  /\ Song.artist song = get_opt item "artist"
  /\ Song.duration song = or_else (get_opt item "duration") (JNum 180).
Proof.
  unfold songOfItem. intros H.
  destruct (get item "title") as [title |] eqn:Et; [| discriminate].
  apply get_normal_inv in Et. destruct Et as [-> Hget].
  rewrite !Hget in H. simpl in H.
  destruct (encodeURIComponent (get_opt item "artist")); [| discriminate]. simpl in H.
  destruct (encodeURIComponent (get_opt item "title")); [| discriminate]. simpl in H.
  injection H as <-. repeat split.
Qed.

(** A number above or below zero is truthy. *)
Lemma nonzero_number_truthy (x : float) :
  (0 <? x)%float = true \/ (x <? 0)%float = true -> truthy (JNum x) = true.
Proof.
  unfold truthy, PrimFloat.is_zero, PrimFloat.is_nan.
  rewrite !FloatAxioms.ltb_spec, !FloatAxioms.eqb_spec.
  change (FloatOps.Prim2SF 0) with (SpecFloat.S754_zero false).
  change (FloatOps.Prim2SF zero) with (SpecFloat.S754_zero false).
  destruct (FloatOps.Prim2SF x) as [s | s | | s m e]; simpl.
  all: try destruct s; intros [H | H]; try discriminate H.
  all: unfold SpecFloat.SFeqb, SpecFloat.SFcompare; simpl; try reflexivity.
  all: now rewrite Z.compare_refl, Pos.compare_cont_refl.
Qed.

(** C8, as the code has it.  The candidate's duration is the item's
    [duration] whenever that value is truthy, and 180 otherwise.  So a
    positive duration is kept and an absent, null or zero duration becomes
    180; a negative duration is truthy too, and is kept as it is. *)
Theorem candidate_duration_defaults_when_falsy :
  forall (item : JSValue) (song : SongInfo),
    songOfItem item = Normal song ->
    let duration := get_opt item "duration" in
    Song.duration song = (if truthy duration then duration else JNum 180)
    /\ (forall x, duration = JNum x -> (0 <? x)%float = true -> Song.duration song = JNum x)
    /\ (forall x, duration = JNum x -> (x <? 0)%float = true -> Song.duration song = JNum x)
    /\ (forall x, duration = JNum x -> PrimFloat.is_zero x = true -> Song.duration song = JNum 180)
    /\ (duration = JUndefined \/ duration = JNull -> Song.duration song = JNum 180).
Proof.
  intros item song H duration.
  destruct (songOfItem_fields item song H) as (_ & _ & Hd).
  fold duration in Hd. unfold or_else in Hd. rewrite Hd.
  repeat split.
  - intros x -> Hx. now rewrite nonzero_number_truthy by now left.
  - intros x -> Hx. now rewrite nonzero_number_truthy by now right.
  - intros x -> Hx. simpl. now rewrite Hx.
  - intros [-> | ->]; reflexivity.
Qed.

End CandidateProperties.

Lemma candidate_duration_defaults_when_falsy_witness :
  let item := JObj [("title", JStr "Perfect"); ("artist", JStr "Ed Sheeran"); ("duration", JNum 263)] in
  let song :=
    {| Song.title := JStr "Perfect";
       Song.artist := JStr "Ed Sheeran";
       Song.duration := JNum 263;
       Song.thumbnail := "https://via.placeholder.com/480x360/1e293b/white?text=Ed%20Sheeran+-+Perfect";
       Song.url := "song://Ed%20Sheeran-Perfect";
       Song.album := JUndefined;
       Song.year := JUndefined;
       Song.genre := JUndefined;
       Song.popularity := JUndefined;
       Song.description := JUndefined |} in
  songOfItem (platform := Reference.platform) item = Normal song
  /\ Song.duration song = JNum 263.
Proof.
  intros item song.
  assert (H : songOfItem (platform := Reference.platform) item = Normal song) by reflexivity.
  split; [exact H |].
  exact (proj1 (candidate_duration_defaults_when_falsy (platform := Reference.platform) item song H)).
Defined.

(* ================================================================== *)
(** ** Properties of searchSongs *)
(* ================================================================== *)

Section SearchProperties.
Context {platform : Platform} (net : Network) (env : ProcessEnv).

Local Abbreviation callA := (EndpointVariant.callAzureOpenAI net env).
Local Abbreviation callB := (DeploymentVariant.callAzureOpenAI net env).

(** The prologue of lines 21-27 logs and goes on. *)
Lemma endpoint_searchSongs_try_run query tr :
  EndpointVariant.searchSongs_try net env query tr
  = match callA (EndpointVariant.searchPrompt query) None (tr ++ keyWarnings env) with
    | (Normal (JArr items), tr') =>
        match cmap songOfItem items with
        | Normal result => (Normal (Some result), tr' ++ [ConsoleLog (ResponseDump (JArr items))])
        | Throw e => (Throw e, tr')
        end
    | (Normal _, tr') => (Normal None, tr')
    | (Throw e, tr') => (Throw e, tr')
    end.
Proof.
  unfold EndpointVariant.searchSongs_try, keyWarnings.
  destruct ((EndpointVariant.AZURE_OPENAI_API_KEY env =? "")
            || (EndpointVariant.AZURE_OPENAI_API_KEY env =? "YOUR_AZURE_OPENAI_API_KEY")).
  - run_prog. rewrite app_one_assoc.
    destruct (callA _ None _) as [[response | e] tr']; [| reflexivity].
    destruct response; reflexivity.
  - run_prog. rewrite app_nil_r.
    destruct (callA _ None _) as [[response | e] tr']; [| reflexivity].
    destruct response; reflexivity.
Qed.

Lemma endpoint_searchSongs_catches query tr e tr' :
  EndpointVariant.searchSongs_try net env query tr = (Throw e, tr') ->
  EndpointVariant.searchSongs net env query tr
  = (Normal (Some (Spec.searchFallback [Song.title; Song.artist; Song.genre]
                                       EndpointVariant.mockSongs query)),
     tr' ++ [ConsoleError (SearchFailed e)]).
Proof.
  intros H. unfold EndpointVariant.searchSongs, try_catch. rewrite H.
  run_prog. now rewrite endpoint_fallback_is_searchFallback.
Qed.

Lemma deployment_searchSongs_catches query tr e tr' :
  DeploymentVariant.searchSongs_try net env query tr = (Throw e, tr') ->
  DeploymentVariant.searchSongs net env query tr
  = (Normal (Spec.searchFallback [Song.title; Song.artist] DeploymentVariant.mockSongs query),
     tr' ++ [ConsoleError (SearchFailed e)]).
Proof.
  intros H. unfold DeploymentVariant.searchSongs, try_catch. rewrite H.
  run_prog. now rewrite deployment_fallback_is_searchFallback.
Qed.

(** The test of line 788, read on the environment. *)
Lemma deployment_key_test :
  negb (truthy (DeploymentVariant.AZURE_OPENAI_API_KEY env))
  || strictEquals (DeploymentVariant.AZURE_OPENAI_API_KEY env) (JStr "YOUR_AZURE_OPENAI_API_KEY")
  = keyMissing env.
Proof.
  unfold DeploymentVariant.AZURE_OPENAI_API_KEY, keyMissing.
  destruct (EXPO_PUBLIC_AZURE_OPENAI_API_KEY env) as [key |]; [| reflexivity].
  cbn [env_value truthy strictEquals]. now rewrite negb_involutive.
Qed.

(** What the [try] block of lines 786-838 does once the key has passed
    the test of line 788. *)
Lemma deployment_searchSongs_try_run query tr :
  keyMissing env = false ->
  DeploymentVariant.searchSongs_try net env query tr
  = match callB (DeploymentVariant.searchPrompt query) None tr with
    | (Normal (JArr items), tr') =>
        match cmap songOfItem items with
        | Normal result => (Normal result, tr')
        | Throw e => (Throw e, tr')
        end
    | (Normal _, tr') => (Throw NoValidResponse, tr')
    | (Throw e, tr') => (Throw e, tr')
    end.
Proof.
  intros Hkey. unfold DeploymentVariant.searchSongs_try. rewrite deployment_key_test, Hkey.
  run_prog.
  destruct (callB _ None tr) as [[response | e] tr']; [| reflexivity].
  destruct response; try reflexivity.
  now destruct (cmap songOfItem items).
Qed.

(** C4.  In both variants, an exception that arises in the [try] block of
    [searchSongs] is logged with [console.error] and answered with the
    result of [getMockSongSearchResults] for the query: when the
    completion call throws (after its third failed attempt), when an item
    of the reply cannot be turned into a candidate, and, in lines 786-838,
    when the reply is not an array.  The prompt is built from the query
    alone and cannot throw.  Whatever happens, [searchSongs] completes
    normally.  (In lines 786-838 a missing key returns the fallback before
    anything can throw.) *)
Theorem searchSongs_falls_back_and_never_raises :
  forall (query : string) (tr : Trace),
    (* lines 19-77 *)
    (forall e tr',
        callA (EndpointVariant.searchPrompt query) None (tr ++ keyWarnings env) = (Throw e, tr') ->
        exists fallback,
          EndpointVariant.getMockSongSearchResults query = Normal fallback
          /\ EndpointVariant.searchSongs net env query tr
             = (Normal (Some fallback), tr' ++ [ConsoleError (SearchFailed e)]))
    /\ (forall items e tr',
           callA (EndpointVariant.searchPrompt query) None (tr ++ keyWarnings env)
           = (Normal (JArr items), tr') ->
           cmap songOfItem items = Throw e ->
           exists fallback,
             EndpointVariant.getMockSongSearchResults query = Normal fallback
             /\ EndpointVariant.searchSongs net env query tr
                = (Normal (Some fallback), tr' ++ [ConsoleError (SearchFailed e)]))
    /\ (forall e tr',
           EndpointVariant.searchSongs_try net env query tr = (Throw e, tr') ->
           exists fallback,
             EndpointVariant.getMockSongSearchResults query = Normal fallback
             /\ EndpointVariant.searchSongs net env query tr
                = (Normal (Some fallback), tr' ++ [ConsoleError (SearchFailed e)]))
    /\ (exists result tr', EndpointVariant.searchSongs net env query tr = (Normal result, tr'))
    (* lines 786-838 *)
    /\ (keyMissing env = false ->
        (forall e tr',
            callB (DeploymentVariant.searchPrompt query) None tr = (Throw e, tr') ->
            exists fallback,
              DeploymentVariant.getMockSongSearchResults query = Normal fallback
              /\ DeploymentVariant.searchSongs net env query tr
                 = (Normal fallback, tr' ++ [ConsoleError (SearchFailed e)]))
        /\ (forall items e tr',
               callB (DeploymentVariant.searchPrompt query) None tr = (Normal (JArr items), tr') ->
               cmap songOfItem items = Throw e ->
               exists fallback,
                 DeploymentVariant.getMockSongSearchResults query = Normal fallback
                 /\ DeploymentVariant.searchSongs net env query tr
                    = (Normal fallback, tr' ++ [ConsoleError (SearchFailed e)]))
        /\ (forall response tr',
               callB (DeploymentVariant.searchPrompt query) None tr = (Normal response, tr') ->
               isArray response = false ->
               exists fallback,
                 DeploymentVariant.getMockSongSearchResults query = Normal fallback
                 /\ DeploymentVariant.searchSongs net env query tr
                    = (Normal fallback, tr' ++ [ConsoleError (SearchFailed NoValidResponse)])))
    /\ (forall e tr',
           DeploymentVariant.searchSongs_try net env query tr = (Throw e, tr') ->
           exists fallback,
             DeploymentVariant.getMockSongSearchResults query = Normal fallback
             /\ DeploymentVariant.searchSongs net env query tr
                = (Normal fallback, tr' ++ [ConsoleError (SearchFailed e)]))
    /\ (exists result tr', DeploymentVariant.searchSongs net env query tr = (Normal result, tr')).
Proof.
  intros query tr.
  assert (HA : forall e tr',
             EndpointVariant.searchSongs_try net env query tr = (Throw e, tr') ->
             exists fallback,
               EndpointVariant.getMockSongSearchResults query = Normal fallback
               /\ EndpointVariant.searchSongs net env query tr
                  = (Normal (Some fallback), tr' ++ [ConsoleError (SearchFailed e)])).
  { intros e tr' H. eexists. split; [apply endpoint_fallback_is_searchFallback |].
    now apply endpoint_searchSongs_catches. }
  assert (HB : forall e tr',
             DeploymentVariant.searchSongs_try net env query tr = (Throw e, tr') ->
             exists fallback,
               DeploymentVariant.getMockSongSearchResults query = Normal fallback
               /\ DeploymentVariant.searchSongs net env query tr
                  = (Normal fallback, tr' ++ [ConsoleError (SearchFailed e)])).
  { intros e tr' H. eexists. split; [apply deployment_fallback_is_searchFallback |].
    now apply deployment_searchSongs_catches. }
  split; [| split; [| split; [exact HA | split; [| split; [| split; [exact HB |]]]]]].
  - intros e tr' Hcall. apply HA. now rewrite endpoint_searchSongs_try_run, Hcall.
  - intros items e tr' Hcall Hmap. apply HA.
    now rewrite endpoint_searchSongs_try_run, Hcall, Hmap.
  - destruct (EndpointVariant.searchSongs_try net env query tr) as [[r | e] tr'] eqn:E.
    + exists r, tr'. unfold EndpointVariant.searchSongs, try_catch. now rewrite E.
    + rewrite (endpoint_searchSongs_catches _ _ _ _ E). eauto.
  - intros Hkey. split; [| split].
    + intros e tr' Hcall. apply HB.
      now rewrite (deployment_searchSongs_try_run query tr Hkey), Hcall.
    + intros items e tr' Hcall Hmap. apply HB.
      now rewrite (deployment_searchSongs_try_run query tr Hkey), Hcall, Hmap.
    + intros response tr' Hcall Harr. apply HB.
      rewrite (deployment_searchSongs_try_run query tr Hkey), Hcall.
      destruct response; try reflexivity. discriminate Harr.
  - destruct (DeploymentVariant.searchSongs_try net env query tr) as [[r | e] tr'] eqn:E.
    + exists r, tr'. unfold DeploymentVariant.searchSongs, try_catch. now rewrite E.
    + rewrite (deployment_searchSongs_catches _ _ _ _ E). eauto.
Qed.

(** C10.  When the completion call of [searchSongs] (lines 19-77) returns
    a value that is not an array, the function neither returns a list nor
    throws: it runs off its end, and the caller receives [undefined]. *)
Theorem searchSongs_returns_undefined_for_non_array :
  forall (query : string) (tr : Trace) (response : JSValue) (tr' : Trace),
    callA (EndpointVariant.searchPrompt query) None (tr ++ keyWarnings env)
    = (Normal response, tr') ->
    isArray response = false ->
    EndpointVariant.searchSongs net env query tr = (Normal None, tr').
Proof.
  intros query tr response tr' Hcall Harr.
  unfold EndpointVariant.searchSongs, try_catch.
  rewrite endpoint_searchSongs_try_run, Hcall.
  destruct response; try reflexivity. discriminate Harr.
Qed.

(** The model path: the candidates are the items mapped by [songOfItem]. *)
Lemma endpoint_searchSongs_maps_items query tr items tr' songs :
  callA (EndpointVariant.searchPrompt query) None (tr ++ keyWarnings env)
  = (Normal (JArr items), tr') ->
  cmap songOfItem items = Normal songs ->
  EndpointVariant.searchSongs net env query tr
  = (Normal (Some songs), tr' ++ [ConsoleLog (ResponseDump (JArr items))]).
Proof.
  intros Hcall Hmap. unfold EndpointVariant.searchSongs, try_catch.
  now rewrite endpoint_searchSongs_try_run, Hcall, Hmap.
Qed.

Lemma deployment_searchSongs_maps_items query tr items tr' songs :
  negb (truthy (DeploymentVariant.AZURE_OPENAI_API_KEY env))
  || strictEquals (DeploymentVariant.AZURE_OPENAI_API_KEY env) (JStr "YOUR_AZURE_OPENAI_API_KEY")
  = false ->
  callB (DeploymentVariant.searchPrompt query) None tr = (Normal (JArr items), tr') ->
  cmap songOfItem items = Normal songs ->
  DeploymentVariant.searchSongs net env query tr = (Normal songs, tr').
Proof.
  intros Hkey Hcall Hmap.
  unfold DeploymentVariant.searchSongs, DeploymentVariant.searchSongs_try, try_catch.
  rewrite Hkey. run_prog. now rewrite Hcall, Hmap.
Qed.

(** C5, on lines 19-77.  With the key left unset the check of lines 21-27
    warns and shows an alert, and then the request is sent all the same:
    the trace of [searchSongs] goes on with a [Fetch] to the placeholder
    endpoint, carrying the placeholder key. *)
Theorem unset_key_still_sends_request :
  forall (query : string) (tr : Trace),
    EXPO_PUBLIC_AZURE_OPENAI_API_KEY env = None ->
    exists rest,
      snd (EndpointVariant.searchSongs net env query tr)
      = tr ++ [ ConsoleWarn KeyNotConfigured;
                AlertShown "Warning" "Azure OpenAI API key not configured";
                Fetch (Client.request (EndpointVariant.AZURE_OPENAI_ENDPOINT env)
                                      (JStr "YOUR_AZURE_OPENAI_API_KEY")
                                      (EndpointVariant.searchPrompt query) 2000) ]
           ++ rest.
Proof.
  intros query tr Hkey.
  assert (Hk : EndpointVariant.AZURE_OPENAI_API_KEY env = "YOUR_AZURE_OPENAI_API_KEY")
    by (unfold EndpointVariant.AZURE_OPENAI_API_KEY; now rewrite Hkey).
  assert (Hw : keyWarnings env
               = [ConsoleWarn KeyNotConfigured; AlertShown "Warning" "Azure OpenAI API key not configured"])
    by (unfold keyWarnings; now rewrite Hk).
  unfold EndpointVariant.searchSongs, try_catch.
  rewrite endpoint_searchSongs_try_run, Hw.
  destruct (callAzureOpenAI_sends_first net (EndpointVariant.AZURE_OPENAI_ENDPOINT env)
              (JStr (EndpointVariant.AZURE_OPENAI_API_KEY env))
              (EndpointVariant.searchPrompt query) None
              (tr ++ [ConsoleWarn KeyNotConfigured; AlertShown "Warning" "Azure OpenAI API key not configured"]))
    as [rest Hrest].
  rewrite Hk in Hrest. unfold EndpointVariant.callAzureOpenAI. rewrite Hk.
  destruct (Client.callAzureOpenAI _ _ _ _ None _) as [[response | e] tr1].
  - cbn [snd] in Hrest. subst tr1.
    destruct response;
      try (exists rest; cbn [snd]; now rewrite <- app_assoc).
    destruct (cmap songOfItem items) as [songs | e].
    + exists (rest ++ [ConsoleLog (ResponseDump (JArr items))]). cbn [snd].
      rewrite <- !app_assoc. reflexivity.
    + run_prog. rewrite endpoint_fallback_is_searchFallback.
      exists (rest ++ [ConsoleError (SearchFailed e)]). cbn [snd].
      rewrite <- !app_assoc. reflexivity.
  - cbn [snd] in Hrest. subst tr1. run_prog. rewrite endpoint_fallback_is_searchFallback.
    exists (rest ++ [ConsoleError (SearchFailed e)]). cbn [snd].
    rewrite <- !app_assoc. reflexivity.
Qed.

(** Lines 788-791 do what lines 21-27 do not: with the key unset they
    warn once and return the fallback, and nothing is sent. *)
Lemma deployment_unset_key_short_circuits query tr :
  EXPO_PUBLIC_AZURE_OPENAI_API_KEY env = None ->
  DeploymentVariant.searchSongs net env query tr
  = (Normal (Spec.searchFallback [Song.title; Song.artist] DeploymentVariant.mockSongs query),
     tr ++ [ConsoleWarn KeyNotConfiguredUsingMock]).
Proof.
  intros Hkey.
  unfold DeploymentVariant.searchSongs, DeploymentVariant.searchSongs_try,
    DeploymentVariant.AZURE_OPENAI_API_KEY.
  rewrite Hkey. cbn [env_value truthy negb orb]. run_prog.
  now rewrite deployment_fallback_is_searchFallback.
Qed.

End SearchProperties.

(* ================================================================== *)
(** ** Runs of searchSongs on the reference platform *)
(* ================================================================== *)

Lemma searchSongs_falls_back_and_never_raises_witness :
  let down := NetworkFailure "Network request failed" in
  let failed req :=
    [ Fetch req; ConsoleWarn (AttemptFailed 1 down); Sleep 1000;
      Fetch req; ConsoleWarn (AttemptFailed 2 down); Sleep 2000;
      Fetch req; ConsoleWarn (AttemptFailed 3 down) ] in
  EndpointVariant.searchSongs (platform := Reference.platform)
    Reference.offline Reference.configured "wonderwall" []
  = (Normal (Some [Wonderwall]),
     failed (Client.request "https://chords.openai.azure.com/" (JStr "0123456789abcdef")
                            (EndpointVariant.searchPrompt "wonderwall") 2000)
       ++ [ConsoleError (SearchFailed down)])
  /\ DeploymentVariant.searchSongs (platform := Reference.platform)
       Reference.offline Reference.configured "wonderwall" []
     = (Normal [Wonderwall],
        failed (Client.request
                  "https://chords.openai.azure.com//openai/deployments/gpt-4/chat/completions?api-version=2024-02-15-preview"
                  (JStr "0123456789abcdef")
                  (DeploymentVariant.searchPrompt "wonderwall") 2000)
          ++ [ConsoleError (SearchFailed down)]).
Proof.
  intros down failed.
  destruct (searchSongs_falls_back_and_never_raises (platform := Reference.platform)
              Reference.offline Reference.configured "wonderwall" [])
    as (HA & _ & _ & _ & HB & _).
  split.
  - edestruct HA as (fallback & Hfallback & Hrun); [vm_compute; reflexivity |].
    apply (f_equal (fun c => match c with Normal l => l | Throw _ => [] end)) in Hfallback.
    vm_compute in Hfallback. subst fallback. exact Hrun.
  - edestruct (proj1 (HB eq_refl)) as (fallback & Hfallback & Hrun); [vm_compute; reflexivity |].
    apply (f_equal (fun c => match c with Normal l => l | Throw _ => [] end)) in Hfallback.
    vm_compute in Hfallback. subst fallback. exact Hrun.
Defined.

Lemma searchSongs_returns_undefined_for_non_array_witness :
  EndpointVariant.searchSongs (platform := Reference.platform)
    (Reference.replying "{}") Reference.unset "Perfect Ed Sheeran" []
  = (Normal None,
     [ ConsoleWarn KeyNotConfigured;
       AlertShown "Warning" "Azure OpenAI API key not configured";
       Fetch (Client.request "https://your-resource.openai.azure.com/"
                             (JStr "YOUR_AZURE_OPENAI_API_KEY")
                             (EndpointVariant.searchPrompt "Perfect Ed Sheeran") 2000) ]).
Proof.
  apply (searchSongs_returns_undefined_for_non_array (platform := Reference.platform)
           (Reference.replying "{}") Reference.unset "Perfect Ed Sheeran" []
           (JObj [])); reflexivity.
Defined.

Lemma unset_key_still_sends_request_witness :
  exists rest,
    snd (EndpointVariant.searchSongs (platform := Reference.platform)
           Reference.offline Reference.unset "Perfect" [])
    = [] ++ [ ConsoleWarn KeyNotConfigured;
              AlertShown "Warning" "Azure OpenAI API key not configured";
              Fetch (Client.request "https://your-resource.openai.azure.com/"
                                    (JStr "YOUR_AZURE_OPENAI_API_KEY")
                                    (EndpointVariant.searchPrompt "Perfect") 2000) ]
         ++ rest.
Proof.
  exact (unset_key_still_sends_request (platform := Reference.platform)
           Reference.offline Reference.unset "Perfect" [] eq_refl).
Defined.

(** The whole run of lines 19-77 with the key unset and the network down:
    one warning and an alert for the key, three requests and their three
    warnings, the error, and only then the fallback. *)
Example unset_key_offline_run :
  let req := Client.request "https://your-resource.openai.azure.com/"
                            (JStr "YOUR_AZURE_OPENAI_API_KEY")
                            (EndpointVariant.searchPrompt "zzz") 2000 in
  let down := NetworkFailure "Network request failed" in
  EndpointVariant.searchSongs (platform := Reference.platform)
    Reference.offline Reference.unset "zzz" []
  = (Normal (Some [Perfect "รท (Divide)"; Wonderwall; ShapeOfYou "รท (Divide)"]),
     [ ConsoleWarn KeyNotConfigured;
       AlertShown "Warning" "Azure OpenAI API key not configured";
       Fetch req; ConsoleWarn (AttemptFailed 1 down); Sleep 1000;
       Fetch req; ConsoleWarn (AttemptFailed 2 down); Sleep 2000;
       Fetch req; ConsoleWarn (AttemptFailed 3 down);
       ConsoleError (SearchFailed down) ]).
Proof. vm_compute. reflexivity. Qed.

Lemma number_differs (x y : float) :
  (x <? 0)%float <> (y <? 0)%float -> JNum x <> JNum y.
Proof. intros H E. apply H. now injection E as ->. Qed.

(** C8, as the claim has it, fails for a negative duration: the item
    [{"title":"Perfect","artist":"Ed Sheeran","duration":-5}] becomes a
    candidate of duration -5, not 180, in both variants. *)
Lemma negative_duration_is_kept :
  exists song tr tr',
    EndpointVariant.searchSongs (platform := Reference.platform)
      (Reference.replying Reference.reply_negative_duration)
      Reference.configured "Perfect" []
    = (Normal (Some [song]), tr)
    /\ DeploymentVariant.searchSongs (platform := Reference.platform)
         (Reference.replying Reference.reply_negative_duration)
         Reference.configured "Perfect" []
       = (Normal [song], tr')
    /\ Spec.absentOrNonPositive (JNum (-5)) = true
    /\ Song.duration song = JNum (-5)
    /\ Song.duration song <> JNum 180.
Proof.
  eexists _, _, _. split; [vm_compute; reflexivity |].
  split; [vm_compute; reflexivity |].
  split; [reflexivity |]. split; [reflexivity |].
  apply number_differs. vm_compute. discriminate.
Qed.

Section NamedCandidates.
Context {platform : Platform}.

(** C9, as the code has it.  Every candidate of either search fallback
    has a non-empty title and a non-empty artist.  A candidate built from
    a model reply has the title and the artist of its item, whatever they
    are: nothing checks them. *)
Theorem candidates_title_and_artist :
  (forall query, exists songs,
      EndpointVariant.getMockSongSearchResults query = Normal songs
      /\ Forall (fun song => Spec.wellNamed song = true) songs)
  /\ (forall query, exists songs,
         DeploymentVariant.getMockSongSearchResults query = Normal songs
         /\ Forall (fun song => Spec.wellNamed song = true) songs)
  /\ (forall item song,
         songOfItem item = Normal song ->
         Song.title song = get_opt item "title" /\ Song.artist song = get_opt item "artist").
Proof.
  repeat split.
  - intros query. eexists. split; [apply endpoint_fallback_is_searchFallback |].
    apply Forall_forall. intros song Hin. apply searchFallback_sublist in Hin.
    unfold EndpointVariant.mockSongs in Hin. simpl in Hin.
    repeat (destruct Hin as [<- | Hin]; [reflexivity |]). contradiction.
  - intros query. eexists. split; [apply deployment_fallback_is_searchFallback |].
    apply Forall_forall. intros song Hin. apply searchFallback_sublist in Hin.
    unfold DeploymentVariant.mockSongs in Hin. simpl in Hin.
    repeat (destruct Hin as [<- | Hin]; [reflexivity |]). contradiction.
  - now destruct (songOfItem_fields item song H) as (Ht & _ & _).
  - now destruct (songOfItem_fields item song H) as (_ & Ha & _).
Qed.

End NamedCandidates.

Lemma candidates_title_and_artist_witness :
  let item := JObj [("title", JStr "Perfect"); ("artist", JStr "Ed Sheeran"); ("duration", JNum 263)] in
  exists song,
    songOfItem (platform := Reference.platform) item = Normal song
    /\ Song.title song = JStr "Perfect" /\ Song.artist song = JStr "Ed Sheeran".
Proof.
  intros item. eexists. split; [reflexivity |].
  exact (proj2 (proj2 (candidates_title_and_artist (platform := Reference.platform))) item _ eq_refl).
Defined.

(** C9, as the claim has it, fails on the model path: for the reply [[{}]]
    [searchSongs] returns one candidate whose title and artist are
    [undefined]. *)
Lemma model_candidate_without_title :
  exists song tr,
    EndpointVariant.searchSongs (platform := Reference.platform)
      (Reference.replying "[{}]") Reference.configured "Perfect" []
    = (Normal (Some [song]), tr)
    /\ Song.title song = JUndefined
    /\ Song.artist song = JUndefined
    /\ Spec.wellNamed song = false.
Proof.
  eexists _, _. split; [vm_compute; reflexivity |]. repeat split.
Qed.

(* ================================================================== *)
(** ** Properties of the chord fallback *)
(* ================================================================== *)

Section ChordFallbackProperties.
Context {platform : Platform}.

Lemma chord_fallback_of_title song title :
  Song.title song = JStr title ->
  EndpointVariant.getEnhancedMockChordAnalysis song
  = Normal (Spec.chordFallback (toLowerCase title)).
Proof.
  intros H. unfold EndpointVariant.getEnhancedMockChordAnalysis, Spec.chordFallback.
  rewrite H. simpl.
  destruct (includes (toLowerCase title) "perfect"); [reflexivity |].
  destruct (includes (toLowerCase title) "wonderwall"); reflexivity.
Qed.

(** C7.  The chord fallback is a function of the title alone.  For a
    song whose title is a string it is the hand-written progression of a
    keyword that the lowered title contains (of "perfect" when it is
    there, else of "wonderwall"), and the default progression, in
    C Major, when the title contains neither; two songs of the same title
    get the same result. *)
Theorem chord_fallback_selects_first_keyword :
  forall (song : SongInfo) (title : string),
    Song.title song = JStr title ->
    let lowered := toLowerCase title in
    EndpointVariant.getEnhancedMockChordAnalysis song
    = Normal (if includes lowered "perfect" then EndpointVariant.perfectProgression
              else if includes lowered "wonderwall" then EndpointVariant.wonderwallProgression
              else EndpointVariant.defaultProgression)
    /\ Analysis.key EndpointVariant.defaultProgression = JStr "C Major"
    /\ (forall song',
           Song.title song' = Song.title song ->
           EndpointVariant.getEnhancedMockChordAnalysis song'
           = EndpointVariant.getEnhancedMockChordAnalysis song).
Proof.
  intros song title H lowered. repeat split.
  - now apply chord_fallback_of_title.
  - intros song' H'. rewrite H in H'.
    now rewrite (chord_fallback_of_title song title H), (chord_fallback_of_title song' title H').
Qed.

End ChordFallbackProperties.

Lemma chord_fallback_selects_first_keyword_witness :
  EndpointVariant.getEnhancedMockChordAnalysis (platform := Reference.platform)
    (Reference.song "Wonderwall - Remastered" "Oasis")
  = Normal EndpointVariant.wonderwallProgression.
Proof.
  exact (proj1 (chord_fallback_selects_first_keyword (platform := Reference.platform)
                  (Reference.song "Wonderwall - Remastered" "Oasis")
                  "Wonderwall - Remastered" eq_refl)).
Defined.

(** A title with both keywords gets the progression of "perfect", the
    first key of the table: [Object.keys(...).find] stops at the first
    key that matches. *)
Lemma perfect_shadows_wonderwall :
  includes (ascii_toLowerCase "Perfect Wonderwall") "wonderwall" = true
  /\ EndpointVariant.getEnhancedMockChordAnalysis (platform := Reference.platform)
       (Reference.song "Perfect Wonderwall" "Studio Band")
     = Normal EndpointVariant.perfectProgression
  /\ EndpointVariant.getEnhancedMockChordAnalysis (platform := Reference.platform)
       (Reference.song "Perfect Wonderwall" "Studio Band")
     <> Normal EndpointVariant.wonderwallProgression.
Proof.
  repeat split.
  intros H.
  apply (f_equal (fun c => match c with
                           | Normal a => List.length (Analysis.chords a)
                           | Throw _ => 0%nat
                           end)) in H.
  discriminate H.
Qed.

(* ================================================================== *)
(** ** Properties of the chord analysis *)
(* ================================================================== *)

Section NormalizerProperties.
Context {platform : Platform}.

Lemma get_of_truthy (v : JSValue) (k : string) :
  truthy v = true -> get v k = Normal (get_opt v k).
Proof. destruct v; simpl; intros H; try reflexivity; discriminate. Qed.

Lemma get_of_notNull (v : JSValue) (k : string) :
  Spec.notNull v = true -> get v k = Normal (get_opt v k).
Proof. destruct v; simpl; intros H; try reflexivity; discriminate. Qed.

Lemma chordOfItem_defaulted item :
  Spec.notNull item = true ->
  EndpointVariant.chordOfItem item = Normal (Spec.defaultedChord item).
Proof.
  intros H. unfold EndpointVariant.chordOfItem.
  now rewrite !(get_of_notNull item _ H).
Qed.

Lemma chordOfItem_null item :
  Spec.notNull item = false -> exists e, EndpointVariant.chordOfItem item = Throw e.
Proof. destruct item; simpl; intros H; try discriminate; eexists; reflexivity. Qed.

Lemma map_chords_defaulted items :
  forallb Spec.notNull items = true ->
  cmap EndpointVariant.chordOfItem items = Normal (map Spec.defaultedChord items).
Proof.
  induction items as [| item items IH]; simpl; [reflexivity |].
  intros H. apply andb_true_iff in H. destruct H as [H1 H2].
  now rewrite (chordOfItem_defaulted item H1), (IH H2).
Qed.

Lemma map_chords_null items :
  forallb Spec.notNull items = false ->
  exists e, cmap EndpointVariant.chordOfItem items = Throw e.
Proof.
  induction items as [| item items IH]; simpl; [discriminate |].
  destruct (Spec.notNull item) eqn:E; simpl; intros H.
  - rewrite (chordOfItem_defaulted item E). simpl.
    destruct (IH H) as [e ->]. now exists e.
  - destruct (chordOfItem_null item E) as [e ->]. now exists e.
Qed.

Lemma readable_reply_is_defaulted response :
  Spec.readable response = true ->
  EndpointVariant.chordAnalysisOfResponse response = Normal (Spec.defaultedAnalysis response).
Proof.
  unfold Spec.readable, EndpointVariant.chordAnalysisOfResponse, Spec.defaultedAnalysis,
    Spec.chordItems.
  intros H. apply andb_true_iff in H. destruct H as [Ht Hc].
  rewrite Ht, !(get_of_truthy response _ Ht). cbn [cbind].
  destruct (or_else (get_opt response "chords") (JArr [])); try discriminate.
  cbn [EndpointVariant.mapChords]. now rewrite (map_chords_defaulted items Hc).
Qed.

Lemma unreadable_reply_throws response :
  Spec.readable response = false ->
  exists e, EndpointVariant.chordAnalysisOfResponse response = Throw e.
Proof.
  unfold Spec.readable, EndpointVariant.chordAnalysisOfResponse.
  destruct (truthy response) eqn:Ht; [| intros _; now eexists].
  rewrite (get_of_truthy response _ Ht). cbn [cbind andb].
  destruct (or_else (get_opt response "chords") (JArr [])); intros H;
    try (eexists; reflexivity); try discriminate.
  cbn [EndpointVariant.mapChords].
  destruct (map_chords_null items H) as [e ->]. now exists e.
Qed.

End NormalizerProperties.

Section AnalyzeChordsProperties.
Context {platform : Platform} (net : Network) (env : ProcessEnv).

Local Abbreviation callA := (EndpointVariant.callAzureOpenAI net env).
Local Abbreviation analyzeChordsWithAzureAI := (EndpointVariant.analyzeChordsWithAzureAI net env).

Lemma analyzeChords_run song prompt tr :
  EndpointVariant.chordPrompt song = Normal prompt ->
  analyzeChordsWithAzureAI song tr
  = match callA prompt (Some 2500%Z) tr with
    | (Normal response, tr') =>
        match EndpointVariant.chordAnalysisOfResponse response with
        | Normal a => (Normal a, tr')
        | Throw e => chordsCaught song e tr'
        end
    | (Throw e, tr') => chordsCaught song e tr'
    end.
Proof.
  intros Hp. unfold EndpointVariant.analyzeChordsWithAzureAI, chordsCaught. rewrite Hp. run_prog.
  destruct (callA prompt (Some 2500%Z) tr) as [[response | e] tr']; [| reflexivity].
  now destruct (EndpointVariant.chordAnalysisOfResponse response).
Qed.

Lemma chordPrompt_of_strings song title artist :
  Song.title song = JStr title -> Song.artist song = JStr artist ->
  exists prompt, EndpointVariant.chordPrompt song = Normal prompt.
Proof.
  intros Ht Ha. unfold EndpointVariant.chordPrompt. rewrite Ht, Ha.
  eexists. reflexivity.
Qed.

Lemma analyzeChords_never_raises song title tr :
  Song.title song = JStr title ->
  exists a tr', analyzeChordsWithAzureAI song tr = (Normal a, tr').
Proof.
  intros Ht.
  assert (Hc : forall e tr', exists a tr'', chordsCaught song e tr' = (Normal a, tr'')).
  { intros e tr'. unfold chordsCaught. rewrite (chord_fallback_of_title song title Ht). eauto. }
  destruct (EndpointVariant.chordPrompt song) as [prompt | e] eqn:Hp.
  - rewrite (analyzeChords_run song prompt tr Hp).
    destruct (callA prompt (Some 2500%Z) tr) as [[response | e] tr']; [| apply Hc].
    destruct (EndpointVariant.chordAnalysisOfResponse response); [eauto | apply Hc].
  - unfold EndpointVariant.analyzeChordsWithAzureAI. rewrite Hp. run_prog.
    rewrite (chord_fallback_of_title song title Ht). eauto.
Qed.

(** C3, as the code has it.  A reply that is truthy, whose [chords] is
    falsy or an array, and whose array holds no [null], is turned into an
    analysis in which every absent or falsy field has its default and
    every truthy field is kept as it is, of whatever type: the item [{}]
    becomes [{time: 0, chord: "C", duration: 4, lyricLine: "", section:
    "verse"}], and an absent [chords] becomes the empty sequence; that
    analysis is what [analyzeChordsWithAzureAI] returns, and nothing is
    logged.  Any other reply makes lines 222-246 throw; the [catch] of
    the function logs the error and returns the chord fallback of the
    song.  So for a song whose title is a string
    [analyzeChordsWithAzureAI] never raises. *)
Theorem chord_reply_is_defaulted_or_replaced :
  (forall response,
      Spec.readable response = true ->
      EndpointVariant.chordAnalysisOfResponse response = Normal (Spec.defaultedAnalysis response))
  /\ (forall response,
         Spec.readable response = false ->
         exists e, EndpointVariant.chordAnalysisOfResponse response = Throw e)
  /\ Spec.defaultedChord (JObj [])
     = {| Chord.time := JNum 0;
          Chord.chord := JStr "C";
          Chord.duration := JNum 4;
          Chord.lyricLine := JStr "";
          Chord.section := JStr "verse" |}
  /\ (forall response,
         truthy (get_opt response "chords") = false ->
         Analysis.chords (Spec.defaultedAnalysis response) = [])
  /\ (forall song prompt tr response tr',
         EndpointVariant.chordPrompt song = Normal prompt ->
         callA prompt (Some 2500%Z) tr = (Normal response, tr') ->
         Spec.readable response = true ->
         analyzeChordsWithAzureAI song tr = (Normal (Spec.defaultedAnalysis response), tr'))
  /\ (forall song title tr,
         Song.title song = JStr title ->
         exists a tr', analyzeChordsWithAzureAI song tr = (Normal a, tr'))
  /\ (forall song title prompt tr response tr',
         Song.title song = JStr title ->
         EndpointVariant.chordPrompt song = Normal prompt ->
         callA prompt (Some 2500%Z) tr = (Normal response, tr') ->
         Spec.readable response = false ->
         exists e,
           analyzeChordsWithAzureAI song tr
           = (Normal (Spec.chordFallback (toLowerCase title)),
              tr' ++ [ConsoleError (ChordsFailed e)])).
Proof.
  split; [exact readable_reply_is_defaulted |].
  split; [exact unreadable_reply_throws |].
  split; [reflexivity |].
  split.
  { intros response H. unfold Spec.defaultedAnalysis, Spec.chordItems, or_else. now rewrite H. }
  split.
  { intros song prompt tr response tr' Hp Hcall Hr.
    now rewrite (analyzeChords_run song prompt tr Hp), Hcall, (readable_reply_is_defaulted response Hr). }
  split; [exact analyzeChords_never_raises |].
  intros song title prompt tr response tr' Ht Hp Hcall Hr.
  destruct (unreadable_reply_throws response Hr) as [e He].
  exists e. rewrite (analyzeChords_run song prompt tr Hp), Hcall, He.
  unfold chordsCaught. now rewrite (chord_fallback_of_title song title Ht).
Qed.

End AnalyzeChordsProperties.

Lemma chord_reply_is_defaulted_or_replaced_witness :
  let reply := JObj [("chords", JArr [JObj []; JObj [("chord", JStr "Em"); ("time", JNum 8)]]);
                     ("tempo", JNum 90)] in
  let song := Reference.song "Yesterday" "The Beatles" in
  exists prompt,
    EndpointVariant.chordPrompt (platform := Reference.platform) song = Normal prompt
    /\ EndpointVariant.analyzeChordsWithAzureAI (platform := Reference.platform)
         (Reference.replying Doubles.reply_two_chords) Reference.configured song []
       = (Normal (Spec.defaultedAnalysis reply),
          [Fetch (Client.request "https://chords.openai.azure.com/" (JStr "0123456789abcdef")
                                 prompt 2500)])
    /\ Analysis.chords (Spec.defaultedAnalysis reply)
       = [ EndpointVariant.chordAt 0 "C" 4 "" "verse";
           EndpointVariant.chordAt 8 "Em" 4 "" "verse" ].
Proof.
  intros reply song.
  destruct (chordPrompt_of_strings (platform := Reference.platform) song
              "Yesterday" "The Beatles" eq_refl eq_refl) as [prompt Hp].
  exists prompt. split; [exact Hp |]. split; [| reflexivity].
  apply (proj1 (proj2 (proj2 (proj2 (proj2
           (chord_reply_is_defaulted_or_replaced (platform := Reference.platform)
              (Reference.replying Doubles.reply_two_chords) Reference.configured)))))
           song prompt [] reply _ Hp); reflexivity.
Defined.

(** C3, as the claim has it, fails where [chords] is there and is not an
    array: for the reply [{"chords":5}] lines 224-226 throw a TypeError,
    and what comes back is the fallback with its four chords, not an empty
    sequence.  And a malformed field that is truthy keeps its value: the
    time "soon" is not replaced by 0. *)
Lemma non_array_chords_are_not_emptied :
  EndpointVariant.chordAnalysisOfResponse (JObj [("chords", JNum 5)])
  = Throw (TypeError "chords.map is not a function")
  /\ (exists tr,
         EndpointVariant.analyzeChordsWithAzureAI (platform := Reference.platform)
           (Reference.replying Reference.reply_chords_five)
           Reference.configured (Reference.song "Yesterday" "The Beatles") []
         = (Normal EndpointVariant.defaultProgression, tr)
         /\ In (ConsoleError (ChordsFailed (TypeError "chords.map is not a function"))) tr)
  /\ List.length (Analysis.chords EndpointVariant.defaultProgression) = 4%nat
  /\ exists chord,
       EndpointVariant.chordOfItem (JObj [("time", JStr "soon")]) = Normal chord
       /\ Chord.time chord = JStr "soon".
Proof.
  split; [reflexivity |]. split.
  - eexists. split; [vm_compute; reflexivity |]. simpl. tauto.
  - split; [reflexivity |]. eexists. split; reflexivity.
Qed.

(** A run of the analysis on a well-formed reply. *)
Example chord_reply_is_defaulted_example :
  EndpointVariant.chordAnalysisOfResponse
    (JObj [("chords", JArr [JObj []; JObj [("chord", JStr "Em"); ("time", JNum 8)]]);
           ("tempo", JNum 90)])
  = Normal
      {| Analysis.chords :=
           [ EndpointVariant.chordAt 0 "C" 4 "" "verse";
             EndpointVariant.chordAt 8 "Em" 4 "" "verse" ];
         Analysis.key := JStr "C Major";
         Analysis.tempo := JNum 90;
         Analysis.difficulty := JStr "Beginner";
         Analysis.capo := JNum 0;
         Analysis.tuning := JStr "Standard (E-A-D-G-B-E)";
         Analysis.strummingPattern := JStr "D-D-U-U-D-U";
         Analysis.timeSignature := JStr "4/4";
         Analysis.sections := JObj [("verse", JArr [JStr "C"; JStr "G"; JStr "Am"; JStr "F"])];
         Analysis.songStructure := JArr [JStr "verse"; JStr "chorus"];
         Analysis.alternativeCapo := JUndefined |}.
Proof. reflexivity. Qed.

(* ================================================================== *)
(** ** Properties of analyzeSongByName *)
(* ================================================================== *)

Section AnalyzeProperties.
Context {platform : Platform} (net : Network) (env : ProcessEnv).

Local Abbreviation callA := (EndpointVariant.callAzureOpenAI net env).
Local Abbreviation analyzeSongByName := (EndpointVariant.analyzeSongByName net env).

Lemma generateTutorial_run song chordAnalysis prompt tr :
  EndpointVariant.tutorialPrompt song chordAnalysis = Normal prompt ->
  EndpointVariant.generateTutorialWithAzureAI net env song chordAnalysis tr
  = match callA prompt (Some 3000%Z) tr with
    | (Normal response, tr') =>
        match EndpointVariant.tutorialOfResponse song chordAnalysis response with
        | Normal tutorial => (Normal tutorial, tr')
        | Throw e => tutorialCaught song chordAnalysis e tr'
        end
    | (Throw e, tr') => tutorialCaught song chordAnalysis e tr'
    end.
Proof.
  intros Hp. unfold EndpointVariant.generateTutorialWithAzureAI, tutorialCaught.
  rewrite Hp. run_prog.
  destruct (callA prompt (Some 3000%Z) tr) as [[response | e] tr']; [| reflexivity].
  now destruct (EndpointVariant.tutorialOfResponse song chordAnalysis response).
Qed.

Lemma tutorialPrompt_of_fallback song title artist lowered :
  Song.title song = JStr title -> Song.artist song = JStr artist ->
  exists prompt,
    EndpointVariant.tutorialPrompt song (Spec.chordFallback lowered) = Normal prompt.
Proof.
  intros Ht Ha. unfold EndpointVariant.tutorialPrompt, Spec.chordFallback. rewrite Ht, Ha.
  destruct (includes lowered "perfect"); [eexists; reflexivity |].
  destruct (includes lowered "wonderwall"); eexists; reflexivity.
Qed.

Lemma truthy_reply_is_defaulted song title artist chordAnalysis response :
  Song.title song = JStr title -> Song.artist song = JStr artist ->
  truthy response = true ->
  EndpointVariant.tutorialOfResponse song chordAnalysis response
  = Normal (Spec.defaultedTutorial title artist chordAnalysis response).
Proof.
  intros Ht Ha Hr.
  unfold EndpointVariant.tutorialOfResponse, Spec.defaultedTutorial, EndpointVariant.learnToPlay.
  rewrite Hr, Ht, Ha, !(get_of_truthy response _ Hr). cbn [cbind ToString].
  unfold or_else. now destruct (truthy (get_opt response "overview")).
Qed.

(** The same for a song whose artist is not a string but converts to
    one: a number, a boolean, [null], [undefined]. *)
Lemma chordPrompt_of_texts song title artist :
  Song.title song = JStr title -> ToString (Song.artist song) = Normal artist ->
  exists prompt, EndpointVariant.chordPrompt song = Normal prompt.
Proof.
  intros Ht Ha. unfold EndpointVariant.chordPrompt. rewrite Ht, Ha.
  eexists. reflexivity.
Qed.

Lemma tutorialPrompt_of_fallback_texts song title artist lowered :
  Song.title song = JStr title -> ToString (Song.artist song) = Normal artist ->
  exists prompt,
    EndpointVariant.tutorialPrompt song (Spec.chordFallback lowered) = Normal prompt.
Proof.
  intros Ht Ha. unfold EndpointVariant.tutorialPrompt, Spec.chordFallback. rewrite Ht, Ha.
  destruct (includes lowered "perfect"); [eexists; reflexivity |].
  destruct (includes lowered "wonderwall"); eexists; reflexivity.
Qed.

Lemma truthy_reply_is_defaulted_texts song title artist chordAnalysis response :
  Song.title song = JStr title -> ToString (Song.artist song) = Normal artist ->
  truthy response = true ->
  EndpointVariant.tutorialOfResponse song chordAnalysis response
  = Normal (Spec.defaultedTutorial title artist chordAnalysis response).
Proof.
  intros Ht Ha Hr.
  unfold EndpointVariant.tutorialOfResponse, Spec.defaultedTutorial, EndpointVariant.learnToPlay.
  rewrite Hr, Ht, Ha, !(get_of_truthy response _ Hr). cbn [cbind ToString].
  unfold or_else. now destruct (truthy (get_opt response "overview")).
Qed.

Lemma falsy_reply_is_refused song chordAnalysis response :
  truthy response = false ->
  EndpointVariant.tutorialOfResponse song chordAnalysis response = Throw InvalidTutorialResponse.
Proof. intros Hr. unfold EndpointVariant.tutorialOfResponse. now rewrite Hr. Qed.

Lemma mock_tutorial_of_fallback_texts song title artist lowered :
  Song.title song = JStr title -> ToString (Song.artist song) = Normal artist ->
  exists t, EndpointVariant.getEnhancedMockTutorial song (Spec.chordFallback lowered) = Normal t.
Proof.
  intros Ht Ha.
  unfold EndpointVariant.getEnhancedMockTutorial, EndpointVariant.mockOverview, Spec.chordFallback.
  rewrite Ht, Ha.
  destruct (includes lowered "perfect"); [eexists; reflexivity |].
  destruct (includes lowered "wonderwall"); eexists; reflexivity.
Qed.

(** C2, as the code has it.  For a song whose title is a string and
    whose artist converts to a string: when the completion call of the
    chord analysis throws (which it does after its third failed attempt)
    and the completion call of the tutorial returns, [analyzeSongByName]
    returns a result whose analysis is the song with the chord fallback
    of its title.  Its tutorial is built from the reply of the model,
    field by field, when that reply is truthy; when the reply is falsy
    ([null], [false], [0], the empty string), line 320 takes it for no
    reply, the error of line 336 is logged, and the tutorial is the
    tutorial fallback. *)
Theorem analyze_recovers_chords_and_keeps_model_tutorial :
  forall (song : SongInfo) (title artist : string),
    Song.title song = JStr title ->
    ToString (Song.artist song) = Normal artist ->
    let fallback := Spec.chordFallback (toLowerCase title) in
    exists chordPrompt tutorialPrompt mock,
      EndpointVariant.chordPrompt song = Normal chordPrompt
      /\ EndpointVariant.getEnhancedMockChordAnalysis song = Normal fallback
      /\ EndpointVariant.tutorialPrompt song fallback = Normal tutorialPrompt
      /\ EndpointVariant.getEnhancedMockTutorial song fallback = Normal mock
      /\ forall tr e tr1 response tr2,
          callA chordPrompt (Some 2500%Z) tr = (Throw e, tr1) ->
          callA tutorialPrompt (Some 3000%Z) (tr1 ++ [ConsoleError (ChordsFailed e)])
          = (Normal response, tr2) ->
          (truthy response = true ->
           analyzeSongByName song tr
           = (Normal {| analysis := {| songInfo := song; chordAnalysis := fallback |};
                        tutorial := Spec.defaultedTutorial title artist fallback response |},
              tr2))
          /\ (truthy response = false ->
              analyzeSongByName song tr
              = (Normal {| analysis := {| songInfo := song; chordAnalysis := fallback |};
                           tutorial := mock |},
                 tr2 ++ [ConsoleError (TutorialFailed InvalidTutorialResponse)])).
Proof.
  intros song title artist Ht Ha fallback.
  destruct (tutorialPrompt_of_fallback_texts song title artist (toLowerCase title) Ht Ha) as [p2 Hp2].
  destruct (chordPrompt_of_texts song title artist Ht Ha) as [p1 Hp1].
  destruct (mock_tutorial_of_fallback_texts song title artist (toLowerCase title) Ht Ha)
    as [mock Hmock].
  exists p1, p2, mock. split; [exact Hp1 |].
  split; [apply (chord_fallback_of_title song title Ht) |].
  split; [exact Hp2 |].
  split; [exact Hmock |].
  intros tr e tr1 response tr2 Hchords Htutorial.
  assert (Hrun : analyzeSongByName song tr
                 = match EndpointVariant.tutorialOfResponse song fallback response with
                   | Normal t =>
                       (Normal {| analysis := {| songInfo := song; chordAnalysis := fallback |};
                                  tutorial := t |}, tr2)
                   | Throw e' =>
                       match EndpointVariant.getEnhancedMockTutorial song fallback with
                       | Normal t =>
                           (Normal {| analysis := {| songInfo := song; chordAnalysis := fallback |};
                                      tutorial := t |},
                            tr2 ++ [ConsoleError (TutorialFailed e')])
                       | Throw e'' =>
                           (Throw AnalysisFailed,
                            (tr2 ++ [ConsoleError (TutorialFailed e')])
                              ++ [ConsoleError (AnalyzeFailed e'')])
                       end
                   end).
  { unfold EndpointVariant.analyzeSongByName, try_catch, bind at 1.
    rewrite (analyzeChords_run net env song p1 tr Hp1).
    rewrite Hchords. unfold chordsCaught.
    rewrite (chord_fallback_of_title song title Ht). fold fallback.
    unfold bind at 1.
    rewrite (generateTutorial_run song fallback p2 _ Hp2), Htutorial.
    destruct (EndpointVariant.tutorialOfResponse song fallback response); [reflexivity |].
    unfold tutorialCaught.
    destruct (EndpointVariant.getEnhancedMockTutorial song fallback); reflexivity. }
  split; intros Hr; rewrite Hrun.
  - now rewrite (truthy_reply_is_defaulted_texts song title artist fallback response Ht Ha Hr).
  - rewrite (falsy_reply_is_refused song fallback response Hr).
    unfold fallback. now rewrite Hmock.
Qed.

End AnalyzeProperties.

Lemma analyze_recovers_chords_and_keeps_model_tutorial_witness :
  let song := Reference.song "Yesterday" "The Beatles" in
  exists tr,
    EndpointVariant.analyzeSongByName (platform := Reference.platform)
      (Reference.chords_down Reference.reply_overview) Reference.configured song []
    = (Normal
         {| analysis := {| songInfo := song; chordAnalysis := EndpointVariant.defaultProgression |};
            tutorial :=
              Spec.defaultedTutorial "Yesterday" "The Beatles" EndpointVariant.defaultProgression
                (JObj [("overview", JStr "Three chords and the truth")]) |},
       tr).
Proof.
  intros song.
  destruct (analyze_recovers_chords_and_keeps_model_tutorial (platform := Reference.platform)
              (Reference.chords_down Reference.reply_overview) Reference.configured
              song "Yesterday" "The Beatles" eq_refl eq_refl)
    as (p1 & p2 & mock & H1 & _ & H2 & _ & H).
  vm_compute in H1. injection H1 as <-.
  vm_compute in H2. injection H2 as <-.
  eexists.
  edestruct (H []) as [Htruthy _]; [vm_compute; reflexivity | vm_compute; reflexivity |].
  exact (Htruthy eq_refl).
Defined.

(** C2, as the claim has it, fails when the model answers the tutorial
    request with [null]: the completion call succeeds and returns [null],
    line 320 takes it for no reply, and the tutorial of the result is the
    tutorial fallback. *)
Lemma null_tutorial_reply_gets_fallback_tutorial :
  let song := Reference.song "Yesterday" "The Beatles" in
  let net := Reference.chords_down "null" in
  exists prompt result tr mock,
    EndpointVariant.tutorialPrompt (platform := Reference.platform) song
      EndpointVariant.defaultProgression = Normal prompt
    /\ (forall tr1,
           fst (EndpointVariant.callAzureOpenAI (platform := Reference.platform)
                  net Reference.configured prompt (Some 3000%Z) tr1)
           = Normal JNull)
    /\ EndpointVariant.analyzeSongByName (platform := Reference.platform)
         net Reference.configured song []
       = (Normal result, tr)
    /\ chordAnalysis (analysis result) = EndpointVariant.defaultProgression
    /\ EndpointVariant.getEnhancedMockTutorial (platform := Reference.platform) song
         EndpointVariant.defaultProgression = Normal mock
    /\ tutorial result = mock
    /\ In (ConsoleError (TutorialFailed InvalidTutorialResponse)) tr.
Proof.
  intros song net.
  eexists _, _, _, _.
  split; [vm_compute; reflexivity |].
  split; [intros tr1; reflexivity |].
  split; [vm_compute; reflexivity |].
  split; [reflexivity |].
  split; [vm_compute; reflexivity |].
  split; [reflexivity |].
  simpl. tauto.
Qed.
(* ================================================================== *)
(** ** More on the completion client *)
(* ================================================================== *)

Section ClientOutcomes.
Context {platform : Platform} (net : Network) (endpointURL : string) (apiKeyHeader : JSValue).

Local Abbreviation attempt_once := (Client.attempt_once net endpointURL apiKeyHeader).
Local Abbreviation request := (Client.request endpointURL apiKeyHeader).
Local Abbreviation callAzureOpenAI := (Client.callAzureOpenAI net endpointURL apiKeyHeader).

(** The four ways a call can go: the first, second or third attempt
    returns, or all three throw. *)
Lemma callAzureOpenAI_outcomes prompt maxTokens tr :
  let n := match maxTokens with Some n => n | None => 2000%Z end in
  let req := request prompt n in
  let run := callAzureOpenAI prompt maxTokens tr in
  (exists v, fst (attempt_once prompt n tr) = Normal v /\ run = (Normal v, tr ++ [Fetch req]))
  \/ exists e1,
       let tr1 := tr ++ [Fetch req; ConsoleWarn (AttemptFailed 1 e1); Sleep 1000] in
       fst (attempt_once prompt n tr) = Throw e1
       /\ ((exists v, fst (attempt_once prompt n tr1) = Normal v
                      /\ run = (Normal v, tr1 ++ [Fetch req]))
           \/ exists e2,
                let tr2 := tr1 ++ [Fetch req; ConsoleWarn (AttemptFailed 2 e2); Sleep 2000] in
                fst (attempt_once prompt n tr1) = Throw e2
                /\ ((exists v, fst (attempt_once prompt n tr2) = Normal v
                               /\ run = (Normal v, tr2 ++ [Fetch req]))
                    \/ exists e3,
                         fst (attempt_once prompt n tr2) = Throw e3
                         /\ run = (Throw e3, tr2 ++ [Fetch req; ConsoleWarn (AttemptFailed 3 e3)]))).
Proof.
  intros n req run.
  assert (Hrun : run = callAzureOpenAI prompt maxTokens tr) by reflexivity. clearbody run.
  unfold Client.callAzureOpenAI in Hrun. fold n in Hrun.
  change (Z.to_nat Client.maxRetries) with 3%nat in Hrun.
  cbn [Client.attempts_from] in Hrun. unfold try_catch at 1 in Hrun.
  rewrite (attempt_once_run net endpointURL apiKeyHeader prompt n tr) in Hrun.
  destruct (fst (attempt_once prompt n tr)) as [v | e1] eqn:H1.
  { left. exists v. split; [reflexivity | exact Hrun]. }
  right. exists e1. cbv zeta. split; [reflexivity |].
  revert Hrun. run_prog. cbn [Z.ltb Z.compare Client.maxRetries Pos.compare Pos.compare_cont].
  change (Client.backoff 1) with 1000%Z. rewrite !app_one_assoc.
  change (tr ++ Fetch (request prompt n) :: ConsoleWarn (AttemptFailed 1 e1) :: [Sleep 1000])
    with (tr ++ [Fetch req; ConsoleWarn (AttemptFailed 1 e1); Sleep 1000]).
  set (tr1 := tr ++ [Fetch req; ConsoleWarn (AttemptFailed 1 e1); Sleep 1000]).
  rewrite (attempt_once_run net endpointURL apiKeyHeader prompt n tr1).
  destruct (fst (attempt_once prompt n tr1)) as [v | e2] eqn:H2.
  { intros Hrun. left. exists v. split; [reflexivity | exact Hrun]. }
  intros Hrun. right. exists e2. split; [reflexivity |]. revert Hrun.
  cbn [Z.ltb Z.compare Client.maxRetries Pos.compare Pos.compare_cont Z.add Pos.add Pos.succ].
  change (Client.backoff 2) with 2000%Z. rewrite !app_one_assoc.
  change (tr1 ++ Fetch (request prompt n) :: ConsoleWarn (AttemptFailed 2 e2) :: [Sleep 2000])
    with (tr1 ++ [Fetch req; ConsoleWarn (AttemptFailed 2 e2); Sleep 2000]).
  set (tr2 := tr1 ++ [Fetch req; ConsoleWarn (AttemptFailed 2 e2); Sleep 2000]).
  rewrite (attempt_once_run net endpointURL apiKeyHeader prompt n tr2).
  destruct (fst (attempt_once prompt n tr2)) as [v | e3] eqn:H3.
  { intros Hrun. left. exists v. split; [reflexivity | exact Hrun]. }
  intros Hrun. right. exists e3. split; [reflexivity |]. revert Hrun.
  cbn [Z.ltb Z.compare Client.maxRetries Pos.compare Pos.compare_cont Z.add Pos.add Pos.succ].
  now rewrite !app_one_assoc.
Qed.

(** X1.  [callAzureOpenAI] returns the value of the first attempt that
    succeeds and sends nothing after it: one request when the first
    attempt succeeds; a warning, 1000 ms and a second request when the
    first fails; a second warning, 2000 ms and a third request when the
    second fails too.  A success is not logged. *)
Theorem callAzureOpenAI_stops_at_first_success :
  forall (prompt : string) (maxTokens : option Z) (tr : Trace),
    let n := match maxTokens with Some n => n | None => 2000%Z end in
    let req := request prompt n in
    (forall v,
        fst (attempt_once prompt n tr) = Normal v ->
        callAzureOpenAI prompt maxTokens tr = (Normal v, tr ++ [Fetch req]))
    /\ (forall e1 v,
           let tr1 := tr ++ [Fetch req; ConsoleWarn (AttemptFailed 1 e1); Sleep 1000] in
           fst (attempt_once prompt n tr) = Throw e1 ->
           fst (attempt_once prompt n tr1) = Normal v ->
           callAzureOpenAI prompt maxTokens tr = (Normal v, tr1 ++ [Fetch req]))
    /\ (forall e1 e2 v,
           let tr1 := tr ++ [Fetch req; ConsoleWarn (AttemptFailed 1 e1); Sleep 1000] in
           let tr2 := tr1 ++ [Fetch req; ConsoleWarn (AttemptFailed 2 e2); Sleep 2000] in
           fst (attempt_once prompt n tr) = Throw e1 ->
           fst (attempt_once prompt n tr1) = Throw e2 ->
           fst (attempt_once prompt n tr2) = Normal v ->
           callAzureOpenAI prompt maxTokens tr = (Normal v, tr2 ++ [Fetch req])).
Proof.
  intros prompt maxTokens tr n req.
  pose proof (callAzureOpenAI_outcomes prompt maxTokens tr) as H. cbv zeta in H.
  fold n in H. fold req in H.
  repeat split.
  - intros v H1.
    destruct H as [(v' & Hv & Hrun) | (e1 & He1 & _)]; [| congruence].
    rewrite Hrun. congruence.
  - intros e1 v tr1 H1 H2.
    destruct H as [(v' & Hv & _) | (e1' & He1 & H)]; [congruence |].
    assert (e1' = e1) as -> by congruence. fold tr1 in H.
    destruct H as [(v' & Hv & Hrun) | (e2 & He2 & _)]; [| congruence].
    rewrite Hrun. congruence.
  - intros e1 e2 v tr1 tr2 H1 H2 H3.
    destruct H as [(v' & Hv & _) | (e1' & He1 & H)]; [congruence |].
    assert (e1' = e1) as -> by congruence. fold tr1 in H.
    destruct H as [(v' & Hv & _) | (e2' & He2 & H)]; [congruence |].
    assert (e2' = e2) as -> by congruence. fold tr2 in H.
    destruct H as [(v' & Hv & Hrun) | (e3 & He3 & _)]; [| congruence].
    rewrite Hrun. congruence.
Qed.

Lemma requests_app tr tr' : requests (tr ++ tr') = requests tr ++ requests tr'.
Proof. unfold requests. apply flat_map_app. Qed.

Lemma waited_app tr tr' : waited (tr ++ tr') = (waited tr + waited tr')%Z.
Proof.
  induction tr as [| ev tr IH]; simpl; [reflexivity |].
  destruct ev; rewrite ?IH; lia.
Qed.

Lemma warnings_app tr tr' : warnings (tr ++ tr') = warnings tr ++ warnings tr'.
Proof. unfold warnings. apply flat_map_app. Qed.

(** X2.  Whatever the network does, one call of [callAzureOpenAI] sends
    its one request at least once and at most three times, waits 0, 1000
    or 3000 ms in all, and logs one warning for every request but a
    successful last one.  It throws only after three requests and
    3000 ms. *)
Theorem callAzureOpenAI_is_bounded :
  forall (prompt : string) (maxTokens : option Z) (tr : Trace),
    let n := match maxTokens with Some n => n | None => 2000%Z end in
    let req := request prompt n in
    exists added,
      snd (callAzureOpenAI prompt maxTokens tr) = tr ++ added
      /\ (1 <= List.length (requests added) <= 3)%nat
      /\ Forall (eq req) (requests added)
      /\ (waited added = 0 \/ waited added = 1000 \/ waited added = 3000)%Z
      /\ match fst (callAzureOpenAI prompt maxTokens tr) with
         | Normal _ => S (List.length (warnings added)) = List.length (requests added)
         | Throw _ =>
             List.length (warnings added) = 3%nat
             /\ List.length (requests added) = 3%nat
             /\ waited added = 3000%Z
         end.
Proof.
  intros prompt maxTokens tr n req.
  pose proof (callAzureOpenAI_outcomes prompt maxTokens tr) as H. cbv zeta in H.
  fold n in H. fold req in H.
  destruct H as [(v & _ & Hrun) | (e1 & _ & [(v & _ & Hrun) | (e2 & _ & [(v & _ & Hrun) | (e3 & _ & Hrun)])])];
    rewrite Hrun; cbn [fst snd]; rewrite <- ?app_assoc;
    eexists; (split; [reflexivity |]); cbn;
    repeat split; try lia; repeat constructor; tauto.
Qed.

End ClientOutcomes.

Lemma callAzureOpenAI_stops_at_first_success_witness :
  let down := NetworkFailure "Network request failed" in
  let prompt := EndpointVariant.searchPrompt "Wonderwall" in
  let req := Client.request "https://chords.openai.azure.com/" (JStr "0123456789abcdef") prompt 2000 in
  EndpointVariant.callAzureOpenAI (platform := Reference.platform)
    (Doubles.failing_first 2 "[]") Reference.configured prompt None []
  = (Normal (JArr []),
     [ Fetch req; ConsoleWarn (AttemptFailed 1 down); Sleep 1000;
       Fetch req; ConsoleWarn (AttemptFailed 2 down); Sleep 2000;
       Fetch req ]).
Proof.
  intros down prompt req.
  apply (proj2 (proj2 (callAzureOpenAI_stops_at_first_success (platform := Reference.platform)
                         (Doubles.failing_first 2 "[]")
                         "https://chords.openai.azure.com/" (JStr "0123456789abcdef") prompt None []))
           down down (JArr []));
    reflexivity.
Defined.

(* ================================================================== *)
(** ** Code fences around a reply *)
(* ================================================================== *)

Lemma trimEnd_newline (s : string) : trimEnd (s ++ String newline "") = trimEnd s.
Proof.
  induction s as [| c s IH]; [reflexivity |].
  cbn [append trimEnd]. now rewrite IH.
Qed.

Lemma trim_newline (s : string) : trim (s ++ String newline "") = trim s.
Proof.
  unfold trim. induction s as [| c s IH]; [reflexivity |].
  cbn [append trimStart]. destruct (isWhiteSpace c); [exact IH |].
  apply (trimEnd_newline (String c s)).
Qed.

(** A text without a backquote holds no fence: it is copied, and what
    follows it is read from a fresh start. *)
Lemma remove_fence_copies (mark : string) (s rest : string) :
  includes s "`" = false ->
  remove_fence (String "`" mark) 0 false (s ++ rest)
  = (s ++ remove_fence (String "`" mark) 0 false rest)%string.
Proof.
  induction s as [| c s IH]; intros H; [reflexivity |].
  cbn [includes prefix] in H. cbn [append remove_fence andb prefix].
  destruct (ascii_dec "`" c) as [Heq | Hne]; [destruct s; discriminate H |].
  now rewrite (IH H).
Qed.

Lemma append_empty (s : string) : (s ++ "")%string = s.
Proof. induction s as [| c s IH]; [reflexivity | cbn [append]; now rewrite IH]. Qed.

Lemma remove_fence_json_opening (t : string) :
  remove_fence fence_json 0 false ("```json" ++ String newline t) = remove_fence fence_json 0 false t.
Proof. vm_compute. reflexivity. Qed.

Lemma remove_fence_opening (t : string) :
  remove_fence fence 0 false ("```" ++ String newline t) = remove_fence fence 0 false t.
Proof. vm_compute. reflexivity. Qed.

Lemma remove_fence_json_skips_plain (t : string) :
  remove_fence fence_json 0 false ("```" ++ String newline t)
  = ("```" ++ String newline (remove_fence fence_json 0 false t))%string.
Proof. vm_compute. reflexivity. Qed.

(** X3.  A reply wrapped in a Markdown code fence, tagged [json] or not,
    is read as the bare reply: for an ASCII text without a backquote,
    lines 155-158 (and line 911) leave the trimmed text in all three
    cases. *)
Theorem clean_unwraps_a_fenced_reply :
  forall s : string,
    is_ascii s = true ->
    includes s "`" = false ->
    let nl := String newline "" in
    clean (JStr ("```json" ++ nl ++ s ++ nl ++ "```")) = Normal (trim s)
    /\ clean (JStr ("```" ++ nl ++ s ++ nl ++ "```")) = Normal (trim s)
    /\ clean (JStr s) = Normal (trim s).
Proof.
  intros s _ H nl. unfold clean.
  pose proof (remove_fence_copies "``json" s) as Hjson.
  pose proof (remove_fence_copies "``" s) as Hplain.
  change (String "`" "``json") with fence_json in Hjson.
  change (String "`" "``") with fence in Hplain.
  assert (Hclose_json : remove_fence fence_json 0 false (nl ++ "```") = (nl ++ "```")%string)
    by (vm_compute; reflexivity).
  assert (Hclose : remove_fence fence 0 false (nl ++ "```") = nl) by (vm_compute; reflexivity).
  repeat split; f_equal.
  - change (nl ++ s ++ nl ++ "```")%string with (String newline (s ++ nl ++ "```")).
    rewrite remove_fence_json_opening, (Hjson _ H), Hclose_json, (Hplain _ H), Hclose.
    apply trim_newline.
  - change (nl ++ s ++ nl ++ "```")%string with (String newline (s ++ nl ++ "```")).
    rewrite remove_fence_json_skips_plain, (Hjson _ H), Hclose_json.
    rewrite remove_fence_opening, (Hplain _ H), Hclose.
    apply trim_newline.
  - rewrite <- (append_empty s) at 1.
    rewrite (Hjson "" H). cbn [remove_fence].
    rewrite (Hplain "" H). cbn [remove_fence].
    now rewrite append_empty.
Qed.

Lemma clean_unwraps_a_fenced_reply_witness :
  clean (JStr ("```json" ++ String newline "" ++ " [] " ++ String newline "" ++ "```"))
  = Normal "[]".
Proof.
  exact (proj1 (clean_unwraps_a_fenced_reply " [] " eq_refl eq_refl)).
Defined.

(* ================================================================== *)
(** ** More on the search *)
(* ================================================================== *)

Lemma cmap_Forall2 {A B} (f : A -> Completion B) (l : list A) (l' : list B) :
  cmap f l = Normal l' -> Forall2 (fun x y => f x = Normal y) l l'.
Proof.
  revert l'. induction l as [| x l IH]; intros l' H; simpl in H.
  - injection H as <-. constructor.
  - destruct (f x) as [y | e] eqn:Hx; [| discriminate]. simpl in H.
    destruct (cmap f l) as [ys | e]; [| discriminate]. simpl in H.
    injection H as <-. constructor; [exact Hx | now apply IH].
Qed.

Lemma cmap_throws {A B} (f : A -> Completion B) (l : list A) (e : Exn) :
  cmap f l = Throw e -> exists x, In x l /\ f x = Throw e.
Proof.
  induction l as [| x l IH]; intros H; simpl in H; [discriminate |].
  destruct (f x) as [y | e'] eqn:Hx; simpl in H.
  - destruct (cmap f l) as [ys | e'] eqn:Hl; simpl in H; [discriminate |].
    injection H as ->. destruct (IH eq_refl) as (x' & Hin & Hx'). exists x'. split; [now right | exact Hx'].
  - injection H as ->. exists x. split; [now left | exact Hx].
Qed.

Lemma cmap_of_failing_item {A B} (f : A -> Completion B) (l : list A) (x : A) (e : Exn) :
  In x l -> f x = Throw e -> exists e', cmap f l = Throw e'.
Proof.
  induction l as [| y l IH]; intros Hin Hx; [contradiction |]. simpl.
  destruct (f y) as [z | e'] eqn:Hy; simpl; [| eauto].
  destruct Hin as [-> | Hin]; [congruence |].
  destruct (IH Hin Hx) as [e' ->]. simpl. eauto.
Qed.

Section SearchReplies.
Context {platform : Platform} (net : Network) (env : ProcessEnv).

Local Abbreviation callA := (EndpointVariant.callAzureOpenAI net env).
Local Abbreviation callB := (DeploymentVariant.callAzureOpenAI net env).

(** X4.  The search of lines 19-77 takes a reply that is an array whole
    or not at all.  When every item converts, the result is one candidate
    per item, in the order of the reply, however many there are; when one
    item does not (a [null] among the items is enough), the error is
    logged and the result is the fallback for the query: no candidate of
    the reply is returned. *)
Theorem endpoint_search_takes_a_reply_whole_or_not_at_all :
  forall (query : string) (tr : Trace) (items : list JSValue) (tr' : Trace),
    callA (EndpointVariant.searchPrompt query) None (tr ++ keyWarnings env)
    = (Normal (JArr items), tr') ->
    ((exists songs,
         Forall2 (fun item song => songOfItem item = Normal song) items songs
         /\ EndpointVariant.searchSongs net env query tr
            = (Normal (Some songs), tr' ++ [ConsoleLog (ResponseDump (JArr items))]))
     \/ (exists item e fallback,
            In item items
            /\ songOfItem item = Throw e
            /\ EndpointVariant.getMockSongSearchResults query = Normal fallback
            /\ EndpointVariant.searchSongs net env query tr
               = (Normal (Some fallback), tr' ++ [ConsoleError (SearchFailed e)])))
    /\ (In JNull items ->
        exists e fallback,
          EndpointVariant.getMockSongSearchResults query = Normal fallback
          /\ EndpointVariant.searchSongs net env query tr
             = (Normal (Some fallback), tr' ++ [ConsoleError (SearchFailed e)])).
Proof.
  intros query tr items tr' Hcall.
  assert (Hthrow : forall e, cmap songOfItem items = Throw e ->
                             exists fallback,
                               EndpointVariant.getMockSongSearchResults query = Normal fallback
                               /\ EndpointVariant.searchSongs net env query tr
                                  = (Normal (Some fallback), tr' ++ [ConsoleError (SearchFailed e)])).
  { intros e He. eexists. split; [apply endpoint_fallback_is_searchFallback |].
    apply endpoint_searchSongs_catches.
    now rewrite endpoint_searchSongs_try_run, Hcall, He. }
  split.
  - destruct (cmap songOfItem items) as [songs | e] eqn:Hmap.
    + left. exists songs. split; [now apply cmap_Forall2 |].
      now apply endpoint_searchSongs_maps_items.
    + right. destruct (cmap_throws _ _ _ Hmap) as (item & Hin & Hitem).
      destruct (Hthrow e eq_refl) as (fallback & Hf & Hrun).
      exists item, e, fallback. repeat split; assumption.
  - intros Hnull.
    destruct (cmap_of_failing_item songOfItem items JNull _ Hnull eq_refl) as [e He].
    destruct (Hthrow e He) as (fallback & Hf & Hrun).
    exists e, fallback. split; assumption.
Qed.

(** X5.  Where lines 19-77 return [undefined], lines 786-838 fall back:
    with a usable key, a reply that is not an array makes [searchSongs]
    throw 'No valid response from Azure OpenAI' into its own [catch],
    which logs it and returns the fallback for the query. *)
Theorem deployment_search_falls_back_on_a_non_array :
  forall (query : string) (tr : Trace) (response : JSValue) (tr' : Trace),
    keyMissing env = false ->
    callB (DeploymentVariant.searchPrompt query) None tr = (Normal response, tr') ->
    isArray response = false ->
    exists fallback,
      DeploymentVariant.getMockSongSearchResults query = Normal fallback
      /\ fallback <> []
      /\ DeploymentVariant.searchSongs net env query tr
         = (Normal fallback, tr' ++ [ConsoleError (SearchFailed NoValidResponse)]).
Proof.
  intros query tr response tr' Hkey Hcall Harr.
  eexists. split; [apply deployment_fallback_is_searchFallback |].
  split; [apply searchFallback_nonempty |].
  apply deployment_searchSongs_catches.
  unfold DeploymentVariant.searchSongs_try. rewrite deployment_key_test, Hkey.
  run_prog. rewrite Hcall. destruct response; try reflexivity. discriminate Harr.
Qed.

(** X6.  The search of lines 786-838 sends a request exactly when it has
    a key: with the key unset, empty or left at the placeholder it warns
    once and returns the fallback, and nothing is sent; with any other
    key the first thing it does is to send its request, to the deployment
    URL and with that key. *)
Theorem deployment_search_sends_only_with_a_key :
  forall (query : string) (tr : Trace),
    if keyMissing env
    then exists fallback,
           DeploymentVariant.getMockSongSearchResults query = Normal fallback
           /\ DeploymentVariant.searchSongs net env query tr
              = (Normal fallback, tr ++ [ConsoleWarn KeyNotConfiguredUsingMock])
    else exists key rest,
           EXPO_PUBLIC_AZURE_OPENAI_API_KEY env = Some key
           /\ snd (DeploymentVariant.searchSongs net env query tr)
              = tr ++ Fetch (Client.request (DeploymentVariant.endpointURL env) (JStr key)
                                            (DeploymentVariant.searchPrompt query) 2000)
                   :: rest.
Proof.
  intros query tr.
  destruct (keyMissing env) eqn:Hkey.
  - eexists. split; [apply deployment_fallback_is_searchFallback |].
    unfold DeploymentVariant.searchSongs, DeploymentVariant.searchSongs_try, try_catch.
    rewrite deployment_key_test, Hkey. run_prog.
    now rewrite deployment_fallback_is_searchFallback.
  - assert (Hsome : exists key, EXPO_PUBLIC_AZURE_OPENAI_API_KEY env = Some key).
    { unfold keyMissing in Hkey. destruct (EXPO_PUBLIC_AZURE_OPENAI_API_KEY env); [eauto | discriminate]. }
    destruct Hsome as [key Hsome]. exists key.
    destruct (callAzureOpenAI_sends_first net (DeploymentVariant.endpointURL env) (JStr key)
                (DeploymentVariant.searchPrompt query) None tr) as [rest Hrest].
    unfold DeploymentVariant.searchSongs, DeploymentVariant.searchSongs_try, try_catch.
    rewrite deployment_key_test, Hkey. run_prog.
    unfold DeploymentVariant.callAzureOpenAI, DeploymentVariant.AZURE_OPENAI_API_KEY.
    rewrite Hsome. cbn [env_value].
    destruct (Client.callAzureOpenAI _ _ _ _ None tr) as [[response | e] tr1];
      cbn [snd] in Hrest; subst tr1.
    + destruct response;
        try (exists (rest ++ [ConsoleError (SearchFailed NoValidResponse)]);
             rewrite deployment_fallback_is_searchFallback; cbn [snd];
             split; [reflexivity | now rewrite <- app_assoc]).
      destruct (cmap songOfItem items) as [songs | e].
      * exists rest. split; reflexivity.
      * exists (rest ++ [ConsoleError (SearchFailed e)]).
        rewrite deployment_fallback_is_searchFallback. cbn [snd].
        split; [reflexivity | now rewrite <- app_assoc].
    + exists (rest ++ [ConsoleError (SearchFailed e)]).
      rewrite deployment_fallback_is_searchFallback. cbn [snd].
      split; [reflexivity | now rewrite <- app_assoc].
Qed.

End SearchReplies.

Lemma endpoint_search_takes_a_reply_whole_or_not_at_all_witness :
  exists fallback tr,
    EndpointVariant.searchSongs (platform := Reference.platform)
      (Reference.replying Doubles.reply_song_and_null) Reference.configured "Perfect" []
    = (Normal (Some fallback), tr)
    /\ fallback = [Perfect "รท (Divide)"].
Proof.
  destruct (proj2 (endpoint_search_takes_a_reply_whole_or_not_at_all
                     (platform := Reference.platform)
                     (Reference.replying Doubles.reply_song_and_null) Reference.configured
                     "Perfect" []
                     [JObj [("title", JStr "Perfect"); ("artist", JStr "Ed Sheeran")]; JNull]
                     _ eq_refl)
                  (or_intror (or_introl eq_refl)))
    as (e & fallback & Hfallback & Hrun).
  exists fallback. eexists. split; [exact Hrun |].
  apply (f_equal (fun c => match c with Normal l => l | Throw _ => [] end)) in Hfallback.
  rewrite <- Hfallback. vm_compute. reflexivity.
Defined.

Lemma deployment_search_falls_back_on_a_non_array_witness :
  exists fallback tr,
    DeploymentVariant.searchSongs (platform := Reference.platform)
      (Reference.replying "{}") Reference.configured "Wonderwall" []
    = (Normal fallback, tr ++ [ConsoleError (SearchFailed NoValidResponse)])
    /\ fallback <> [].
Proof.
  destruct (deployment_search_falls_back_on_a_non_array (platform := Reference.platform)
              (Reference.replying "{}") Reference.configured "Wonderwall" [] (JObj []) _
              eq_refl eq_refl eq_refl)
    as (fallback & _ & Hne & Hrun).
  exists fallback. eexists. split; [exact Hrun | exact Hne].
Defined.

Section FallbackCase.
Context {platform : Platform}.

(** X7.  Both search fallbacks ignore the case of an ASCII query: two
    queries that differ only in the case of their letters get the same
    candidates. *)
Theorem search_fallback_ignores_case :
  forall q1 q2 : string,
    is_ascii q1 = true ->
    is_ascii q2 = true ->
    ascii_toLowerCase q1 = ascii_toLowerCase q2 ->
    EndpointVariant.getMockSongSearchResults q1 = EndpointVariant.getMockSongSearchResults q2
    /\ DeploymentVariant.getMockSongSearchResults q1 = DeploymentVariant.getMockSongSearchResults q2.
Proof.
  intros q1 q2 H1 H2 H.
  unfold EndpointVariant.getMockSongSearchResults, DeploymentVariant.getMockSongSearchResults,
    EndpointVariant.matchesQuery, DeploymentVariant.matchesQuery.
  rewrite (toLowerCase_ascii q1 H1), (toLowerCase_ascii q2 H2), H.
  split; reflexivity.
Qed.

End FallbackCase.

Lemma search_fallback_ignores_case_witness :
  EndpointVariant.getMockSongSearchResults (platform := Reference.platform) "OASIS"
  = EndpointVariant.getMockSongSearchResults (platform := Reference.platform) "oasis".
Proof.
  exact (proj1 (search_fallback_ignores_case (platform := Reference.platform)
                  "OASIS" "oasis" eq_refl eq_refl eq_refl)).
Defined.

(* ================================================================== *)
(** ** More on the chord analysis *)
(* ================================================================== *)

Lemma truthy_or_else (a d : JSValue) : truthy d = true -> truthy (or_else a d) = true.
Proof. intros H. unfold or_else. now destruct (truthy a) eqn:Ha. Qed.

Lemma chordOfItem_complete (item : JSValue) :
  match EndpointVariant.chordOfItem item with
  | Normal c => chordComplete c = true
  | Throw _ => True
  end.
Proof.
  unfold EndpointVariant.chordOfItem.
  destruct (get item "time") as [time | e] eqn:H; [| exact I].
  destruct (get_normal_inv _ _ _ H) as [_ Hget]. rewrite !Hget. cbn [cbind].
  unfold chordComplete. cbn [Chord.chord Chord.duration Chord.section].
  now rewrite !truthy_or_else.
Qed.

Lemma mapped_chords_complete (items : list JSValue) :
  match cmap EndpointVariant.chordOfItem items with
  | Normal mapped => forallb chordComplete mapped = true
  | Throw _ => True
  end.
Proof.
  induction items as [| item items IH]; [reflexivity |]. cbn [cmap].
  pose proof (chordOfItem_complete item) as Hc.
  destruct (EndpointVariant.chordOfItem item) as [c | e]; [| exact I]. cbn [cbind].
  destruct (cmap EndpointVariant.chordOfItem items) as [mapped | e]; [| exact I].
  cbn [cbind forallb]. now rewrite Hc, IH.
Qed.

(** What lines 222-246 return has every defaulted field in place. *)
Lemma chordAnalysisOfResponse_complete (response : JSValue) :
  match EndpointVariant.chordAnalysisOfResponse response with
  | Normal a => analysisComplete a = true
  | Throw _ => True
  end.
Proof.
  unfold EndpointVariant.chordAnalysisOfResponse.
  destruct (truthy response) eqn:Hr; [| exact I].
  rewrite !(get_of_truthy response _ Hr). cbn [cbind].
  unfold EndpointVariant.mapChords.
  destruct (or_else (get_opt response "chords") (JArr [])) as [| | | | | items |]; try exact I.
  pose proof (mapped_chords_complete items) as Hm.
  destruct (cmap EndpointVariant.chordOfItem items) as [mapped | e]; [| exact I].
  cbn [cbind]. unfold analysisComplete.
  cbn [Analysis.key Analysis.tempo Analysis.difficulty Analysis.tuning Analysis.strummingPattern
       Analysis.timeSignature Analysis.sections Analysis.chords].
  now rewrite !truthy_or_else, Hm.
Qed.

Lemma chordFallback_complete (lowered : string) : analysisComplete (Spec.chordFallback lowered) = true.
Proof.
  unfold Spec.chordFallback.
  destruct (includes lowered "perfect"); [reflexivity |].
  destruct (includes lowered "wonderwall"); reflexivity.
Qed.

Section AnalysisInvariants.
Context {platform : Platform} (net : Network) (env : ProcessEnv).

Local Abbreviation callA := (EndpointVariant.callAzureOpenAI net env).
Local Abbreviation callB := (DeploymentVariant.callAzureOpenAI net env).

(** X8.  Whatever the network and the model do, the chord analysis of
    lines 179-252 of a song whose title is a string returns an analysis
    with a truthy key, tempo, difficulty, tuning, strumming pattern, time
    signature and section table, in which every chord event has a truthy
    chord name, duration and section: the defaults of lines 225-241 and
    the literals of the fallback leave no gap. *)
Theorem analyzeChords_result_is_complete :
  forall (song : SongInfo) (title : string) (tr : Trace),
    Song.title song = JStr title ->
    exists a tr',
      EndpointVariant.analyzeChordsWithAzureAI net env song tr = (Normal a, tr')
      /\ analysisComplete a = true.
Proof.
  intros song title tr Ht.
  assert (Hc : forall e tr', exists a tr'',
               chordsCaught song e tr' = (Normal a, tr'') /\ analysisComplete a = true).
  { intros e tr'. unfold chordsCaught. rewrite (chord_fallback_of_title song title Ht).
    eexists _, _. split; [reflexivity | apply chordFallback_complete]. }
  destruct (EndpointVariant.chordPrompt song) as [prompt | e] eqn:Hp.
  - rewrite (analyzeChords_run net env song prompt tr Hp).
    destruct (callA prompt (Some 2500%Z) tr) as [[response | e] tr']; [| apply Hc].
    pose proof (chordAnalysisOfResponse_complete response) as Hr.
    destruct (EndpointVariant.chordAnalysisOfResponse response) as [a | e]; [eauto | apply Hc].
  - unfold EndpointVariant.analyzeChordsWithAzureAI. rewrite Hp. run_prog.
    rewrite (chord_fallback_of_title song title Ht).
    eexists _, _. split; [reflexivity | apply chordFallback_complete].
Qed.


End AnalysisInvariants.

Lemma analyzeChords_result_is_complete_witness :
  exists a tr',
    EndpointVariant.analyzeChordsWithAzureAI (platform := Reference.platform)
      (Reference.replying Doubles.reply_difficulty_three) Reference.configured
      (Reference.song "Yesterday" "The Beatles") []
    = (Normal a, tr')
    /\ analysisComplete a = true.
Proof.
  exact (analyzeChords_result_is_complete (platform := Reference.platform)
           (Reference.replying Doubles.reply_difficulty_three) Reference.configured
           (Reference.song "Yesterday" "The Beatles") "Yesterday" [] eq_refl).
Defined.

(* ================================================================== *)
(** ** More on analyzeSongByName *)
(* ================================================================== *)

Section FailingClient.
Context {platform : Platform} (net : Network) (endpointURL : string) (apiKeyHeader : JSValue).

Local Abbreviation attempt_once := (Client.attempt_once net endpointURL apiKeyHeader).
Local Abbreviation callAzureOpenAI := (Client.callAzureOpenAI net endpointURL apiKeyHeader).

(** When no attempt succeeds, a call throws after three requests and
    3000 ms. *)
Lemma callAzureOpenAI_fails_when_attempts_fail prompt maxTokens tr :
  (forall prompt n tr', exists e, fst (attempt_once prompt n tr') = Throw e) ->
  exists e added,
    callAzureOpenAI prompt maxTokens tr = (Throw e, tr ++ added)
    /\ List.length (requests added) = 3%nat
    /\ waited added = 3000%Z.
Proof.
  intros Hfail.
  assert (Hno : forall n tr' v, fst (attempt_once prompt n tr') = Normal v -> False).
  { intros n tr' v Hv. destruct (Hfail prompt n tr') as [e He]. congruence. }
  pose proof (callAzureOpenAI_outcomes net endpointURL apiKeyHeader prompt maxTokens tr) as H.
  cbv zeta in H.
  destruct H as [(v & Hv & _) | (e1 & _ & [(v & Hv & _) | (e2 & _ & [(v & Hv & _) | (e3 & _ & Hrun)])])];
    try (exfalso; exact (Hno _ _ _ Hv)).
  exists e3. eexists. rewrite Hrun, <- !app_assoc. split; [reflexivity |].
  split; reflexivity.
Qed.

Lemma callAzureOpenAI_extends prompt maxTokens tr :
  exists added, snd (callAzureOpenAI prompt maxTokens tr) = tr ++ added.
Proof.
  destruct (callAzureOpenAI_sends_first net endpointURL apiKeyHeader prompt maxTokens tr) as [rest H].
  rewrite H. eauto.
Qed.

End FailingClient.

Section Pipeline.
Context {platform : Platform} (net : Network) (env : ProcessEnv).

Local Abbreviation callA := (EndpointVariant.callAzureOpenAI net env).
Local Abbreviation callB := (DeploymentVariant.callAzureOpenAI net env).

Lemma mock_tutorial_of_fallback song title artist lowered :
  Song.title song = JStr title -> Song.artist song = JStr artist ->
  exists t, EndpointVariant.getEnhancedMockTutorial song (Spec.chordFallback lowered) = Normal t.
Proof.
  intros Ht Ha.
  unfold EndpointVariant.getEnhancedMockTutorial, EndpointVariant.mockOverview, Spec.chordFallback.
  rewrite Ht, Ha.
  destruct (includes lowered "perfect"); [eexists; reflexivity |].
  destruct (includes lowered "wonderwall"); eexists; reflexivity.
Qed.

(** The tutorial fallback of lines 606-774 lowers the difficulty of the
    analysis, and throws when it is not a string. *)
Lemma mock_tutorial_needs_a_string_difficulty song a :
  is_string (Analysis.difficulty a) = false ->
  exists e, EndpointVariant.getEnhancedMockTutorial song a = Throw e.
Proof.
  intros Hd. unfold EndpointVariant.getEnhancedMockTutorial, EndpointVariant.mockOverview.
  destruct (ToString (Song.title song)); [| eexists; reflexivity].
  destruct (ToString (Song.artist song)); [| eexists; reflexivity].
  destruct (ToString (Analysis.key a)); [| eexists; reflexivity].
  cbn [cbind ToString].
  destruct (ToString (Analysis.tempo a)); [| eexists; reflexivity].
  cbn [cbind].
  destruct (Analysis.difficulty a); try discriminate Hd; eexists; reflexivity.
Qed.

(** X10.  The fallback chain of lines 82-103 has a hole.  When the chord
    analysis returns an analysis whose difficulty is not a string (the
    defaulting of line 235 keeps any truthy value, a number for one) and
    the completion call of the tutorial throws, the tutorial fallback
    throws in its turn at [difficulty.toLowerCase()], and
    [analyzeSongByName] raises 'Failed to analyze the song. Please try
    again.' after logging both errors. *)
Theorem analyze_fails_when_the_tutorial_fallback_throws :
  forall (song : SongInfo) (tr : Trace) (a : ChordAnalysis) (tr1 : Trace)
         (prompt : string) (e : Exn) (tr2 : Trace),
    EndpointVariant.analyzeChordsWithAzureAI net env song tr = (Normal a, tr1) ->
    is_string (Analysis.difficulty a) = false ->
    EndpointVariant.tutorialPrompt song a = Normal prompt ->
    callA prompt (Some 3000%Z) tr1 = (Throw e, tr2) ->
    exists e',
      EndpointVariant.getEnhancedMockTutorial song a = Throw e'
      /\ EndpointVariant.analyzeSongByName net env song tr
         = (Throw AnalysisFailed,
            tr2 ++ [ConsoleError (TutorialFailed e); ConsoleError (AnalyzeFailed e')]).
Proof.
  intros song tr a tr1 prompt e tr2 Hchords Hd Hp Hcall.
  destruct (mock_tutorial_needs_a_string_difficulty song a Hd) as [e' He'].
  exists e'. split; [exact He' |].
  unfold EndpointVariant.analyzeSongByName, try_catch, bind at 1.
  rewrite Hchords. unfold bind at 1.
  rewrite (generateTutorial_run net env song a prompt tr1 Hp), Hcall.
  unfold tutorialCaught. rewrite He'. run_prog. now rewrite app_one_assoc.
Qed.

(** X11.  When no attempt of the completion client succeeds (the network
    is down, or every reply is refused), [analyzeSongByName] of lines
    82-103 still returns a full result for every song whose title and
    artist are strings: the song, the chord fallback of its title and the
    tutorial fallback built on it.  It gets there after six requests and
    six seconds of waiting. *)
Theorem analyze_without_a_model_returns_both_fallbacks :
  forall (song : SongInfo) (title artist : string) (tr : Trace),
    Song.title song = JStr title ->
    Song.artist song = JStr artist ->
    (forall prompt n tr',
        exists e,
          fst (Client.attempt_once net (EndpointVariant.AZURE_OPENAI_ENDPOINT env)
                 (JStr (EndpointVariant.AZURE_OPENAI_API_KEY env)) prompt n tr')
          = Throw e) ->
    exists a t added,
      EndpointVariant.getEnhancedMockChordAnalysis song = Normal a
      /\ EndpointVariant.getEnhancedMockTutorial song a = Normal t
      /\ EndpointVariant.analyzeSongByName net env song tr
         = (Normal {| analysis := {| songInfo := song; chordAnalysis := a |}; tutorial := t |},
            tr ++ added)
      /\ List.length (requests added) = 6%nat
      /\ waited added = 6000%Z.
Proof.
  intros song title artist tr Ht Ha Hfail.
  destruct (chordPrompt_of_strings song title artist Ht Ha) as [p1 Hp1].
  destruct (tutorialPrompt_of_fallback song title artist (toLowerCase title) Ht Ha) as [p2 Hp2].
  destruct (mock_tutorial_of_fallback song title artist (toLowerCase title) Ht Ha) as [t Hmock].
  destruct (callAzureOpenAI_fails_when_attempts_fail net _ _ p1 (Some 2500%Z) tr Hfail)
    as (e1 & added1 & Hcall1 & Hreq1 & Hwait1).
  destruct (callAzureOpenAI_fails_when_attempts_fail net _ _ p2 (Some 3000%Z)
              ((tr ++ added1) ++ [ConsoleError (ChordsFailed e1)]) Hfail)
    as (e2 & added2 & Hcall2 & Hreq2 & Hwait2).
  exists (Spec.chordFallback (toLowerCase title)), t,
    (added1 ++ [ConsoleError (ChordsFailed e1)] ++ added2 ++ [ConsoleError (TutorialFailed e2)]).
  split; [apply (chord_fallback_of_title song title Ht) |].
  split; [exact Hmock |].
  split.
  - unfold EndpointVariant.analyzeSongByName, try_catch, bind at 1.
    rewrite (analyzeChords_run net env song p1 tr Hp1).
    unfold EndpointVariant.callAzureOpenAI. rewrite Hcall1. unfold chordsCaught.
    rewrite (chord_fallback_of_title song title Ht). unfold bind at 1.
    rewrite (generateTutorial_run net env song _ p2 _ Hp2).
    unfold EndpointVariant.callAzureOpenAI. rewrite Hcall2. unfold tutorialCaught.
    rewrite Hmock. run_prog. now rewrite <- !app_assoc.
  - rewrite !requests_app, !waited_app, !length_app, Hreq1, Hreq2, Hwait1, Hwait2.
    split; reflexivity.
Qed.

Lemma deployment_mock_tutorial :
  exists t, DeploymentVariant.getMockTutorial DeploymentVariant.getMockChordAnalysis = Normal t.
Proof. eexists. reflexivity. Qed.

(** The tutorial stage of lines 1007-1088 on the analysis of
    [getMockChordAnalysis], when no attempt succeeds. *)
Lemma deployment_tutorial_without_a_model song tr t :
  (forall prompt n tr',
      exists e,
        fst (Client.attempt_once net (DeploymentVariant.endpointURL env)
               (DeploymentVariant.AZURE_OPENAI_API_KEY env) prompt n tr')
        = Throw e) ->
  DeploymentVariant.getMockTutorial DeploymentVariant.getMockChordAnalysis = Normal t ->
  exists added,
    DeploymentVariant.generateTutorialWithAzureAI net env song DeploymentVariant.getMockChordAnalysis tr
    = (Normal t, tr ++ added)
    /\ (List.length (requests added) <= 3)%nat.
Proof.
  intros Hfail Ht. unfold DeploymentVariant.generateTutorialWithAzureAI.
  destruct (DeploymentVariant.tutorialPrompt song DeploymentVariant.getMockChordAnalysis)
    as [prompt | e]; run_prog.
  - destruct (callAzureOpenAI_fails_when_attempts_fail net _ _ prompt (Some 3000%Z) tr Hfail)
      as (e & added & Hcall & Hreq & _).
    unfold DeploymentVariant.callAzureOpenAI. rewrite Hcall, Ht.
    exists (added ++ [ConsoleError (TutorialFailed e)]). rewrite <- app_assoc.
    split; [reflexivity |]. rewrite requests_app, length_app, Hreq. simpl. lia.
  - rewrite Ht. eexists. split; [reflexivity |]. simpl. lia.
Qed.

(** X12.  When no attempt of the completion client succeeds,
    [analyzeSongByName] of lines 843-862 returns a full result for any
    song whatever, and the same analysis and tutorial for every song: the
    twelve chords of [getMockChordAnalysis] in G Major and the tutorial
    of [getMockTutorial] on them.  It sends at most six requests. *)
Theorem deployment_analyze_without_a_model_is_one_fixed_result :
  forall (song : SongInfo) (tr : Trace),
    (forall prompt n tr',
        exists e,
          fst (Client.attempt_once net (DeploymentVariant.endpointURL env)
                 (DeploymentVariant.AZURE_OPENAI_API_KEY env) prompt n tr')
          = Throw e) ->
    exists t added,
      DeploymentVariant.getMockTutorial DeploymentVariant.getMockChordAnalysis = Normal t
      /\ DeploymentVariant.analyzeSongByName net env song tr
         = (Normal {| analysis := {| songInfo := song;
                                     chordAnalysis := DeploymentVariant.getMockChordAnalysis |};
                      tutorial := t |},
            tr ++ added)
      /\ (List.length (requests added) <= 6)%nat.
Proof.
  intros song tr Hfail.
  destruct deployment_mock_tutorial as [t Ht]. exists t.
  assert (Hchords : exists added,
             DeploymentVariant.analyzeChordsWithAzureAI net env song tr
             = (Normal DeploymentVariant.getMockChordAnalysis, tr ++ added)
             /\ (List.length (requests added) <= 3)%nat).
  { unfold DeploymentVariant.analyzeChordsWithAzureAI.
    destruct (EndpointVariant.chordPrompt song) as [prompt | e]; run_prog.
    - destruct (callAzureOpenAI_fails_when_attempts_fail net _ _ prompt (Some 2500%Z) tr Hfail)
        as (e & added & Hcall & Hreq & _).
      unfold DeploymentVariant.callAzureOpenAI. rewrite Hcall.
      exists (added ++ [ConsoleError (ChordsFailed e)]). rewrite <- app_assoc.
      split; [reflexivity |]. rewrite requests_app, length_app, Hreq. simpl. lia.
    - eexists. split; [reflexivity |]. simpl. lia. }
  destruct Hchords as (added1 & Hchords & Hreq1).
  destruct (deployment_tutorial_without_a_model song (tr ++ added1) t Hfail Ht)
    as (added2 & Htutorial & Hreq2).
  exists (added1 ++ added2). split; [exact Ht |].
  split.
  - unfold DeploymentVariant.analyzeSongByName, try_catch, bind at 1.
    rewrite Hchords. unfold bind at 1. rewrite Htutorial. run_prog.
    now rewrite <- app_assoc.
  - rewrite requests_app, length_app. lia.
Qed.

(** A stage that only adds to the trace. *)
Lemma endpoint_tutorial_extends song a tr :
  exists added, snd (EndpointVariant.generateTutorialWithAzureAI net env song a tr) = tr ++ added.
Proof.
  unfold EndpointVariant.generateTutorialWithAzureAI.
  destruct (EndpointVariant.tutorialPrompt song a) as [prompt | e]; run_prog.
  - destruct (callAzureOpenAI_extends net (EndpointVariant.AZURE_OPENAI_ENDPOINT env)
                (JStr (EndpointVariant.AZURE_OPENAI_API_KEY env)) prompt (Some 3000%Z) tr)
      as [added Hadded].
    unfold EndpointVariant.callAzureOpenAI.
    destruct (Client.callAzureOpenAI _ _ _ prompt _ tr) as [[response | e] tr'];
      cbn [snd] in Hadded; subst tr'.
    + destruct (EndpointVariant.tutorialOfResponse song a response).
      * exists added. reflexivity.
      * destruct (EndpointVariant.getEnhancedMockTutorial song a); cbn [snd];
          rewrite <- app_assoc; eauto.
    + destruct (EndpointVariant.getEnhancedMockTutorial song a); cbn [snd];
        rewrite <- app_assoc; eauto.
  - destruct (EndpointVariant.getEnhancedMockTutorial song a); cbn [snd]; eauto.
Qed.

Lemma deployment_tutorial_extends song a tr :
  exists added, snd (DeploymentVariant.generateTutorialWithAzureAI net env song a tr) = tr ++ added.
Proof.
  unfold DeploymentVariant.generateTutorialWithAzureAI.
  destruct (DeploymentVariant.tutorialPrompt song a) as [prompt | e]; run_prog.
  - destruct (callAzureOpenAI_extends net (DeploymentVariant.endpointURL env)
                (DeploymentVariant.AZURE_OPENAI_API_KEY env) prompt (Some 3000%Z) tr)
      as [added Hadded].
    unfold DeploymentVariant.callAzureOpenAI.
    destruct (Client.callAzureOpenAI _ _ _ prompt _ tr) as [[response | e] tr'];
      cbn [snd] in Hadded; subst tr'.
    + destruct (EndpointVariant.tutorialOfResponse song a response).
      * exists added. reflexivity.
      * destruct (DeploymentVariant.getMockTutorial a); cbn [snd];
          rewrite <- app_assoc; eauto.
    + destruct (DeploymentVariant.getMockTutorial a); cbn [snd];
        rewrite <- app_assoc; eauto.
  - destruct (DeploymentVariant.getMockTutorial a); cbn [snd]; eauto.
Qed.

(** X13.  Neither [analyzeSongByName] looks at the key.  For a song whose
    title and artist are strings, and whatever the environment holds, the
    first thing each of them does is to send the request of the chord
    analysis: lines 82-103 to the endpoint (or its placeholder) with the
    key (or its placeholder), lines 843-862 to the deployment URL with
    the key as it is, [undefined] included.  No warning comes before
    it. *)
Theorem analyze_sends_its_request_whatever_the_key :
  forall (song : SongInfo) (title artist : string) (tr : Trace),
    Song.title song = JStr title ->
    Song.artist song = JStr artist ->
    exists prompt,
      EndpointVariant.chordPrompt song = Normal prompt
      /\ (exists rest,
             snd (EndpointVariant.analyzeSongByName net env song tr)
             = tr ++ Fetch (Client.request (EndpointVariant.AZURE_OPENAI_ENDPOINT env)
                                           (JStr (EndpointVariant.AZURE_OPENAI_API_KEY env))
                                           prompt 2500)
                  :: rest)
      /\ (exists rest,
             snd (DeploymentVariant.analyzeSongByName net env song tr)
             = tr ++ Fetch (Client.request (DeploymentVariant.endpointURL env)
                                           (DeploymentVariant.AZURE_OPENAI_API_KEY env)
                                           prompt 2500)
                  :: rest).
Proof.
  intros song title artist tr Ht Ha.
  destruct (chordPrompt_of_strings song title artist Ht Ha) as [prompt Hp].
  exists prompt. split; [exact Hp |]. split.
  - destruct (callAzureOpenAI_sends_first net (EndpointVariant.AZURE_OPENAI_ENDPOINT env)
                (JStr (EndpointVariant.AZURE_OPENAI_API_KEY env)) prompt (Some 2500%Z) tr)
      as [rest Hrest].
    unfold EndpointVariant.analyzeSongByName, try_catch, bind at 1.
    rewrite (analyzeChords_run net env song prompt tr Hp).
    unfold EndpointVariant.callAzureOpenAI, chordsCaught.
    rewrite (chord_fallback_of_title song title Ht).
    set (sent := tr ++ Fetch _ :: rest) in Hrest.
    assert (Hafter : forall a added,
               exists rest',
                 snd (let (c, tr') :=
                        bind (EndpointVariant.generateTutorialWithAzureAI net env song a)
                          (fun tutorial =>
                             ret {| analysis := {| songInfo := song; chordAnalysis := a |};
                                    tutorial := tutorial |}) (sent ++ added) in
                      match c with
                      | Normal r => (Normal r, tr')
                      | Throw e => (console_error (AnalyzeFailed e);; throw AnalysisFailed)%prog tr'
                      end)
                 = tr ++ Fetch (Client.request (EndpointVariant.AZURE_OPENAI_ENDPOINT env)
                                               (JStr (EndpointVariant.AZURE_OPENAI_API_KEY env))
                                               prompt 2500)
                      :: rest').
    { intros a added.
      destruct (endpoint_tutorial_extends song a (sent ++ added)) as [more Hmore].
      unfold bind at 1.
      destruct (EndpointVariant.generateTutorialWithAzureAI net env song a (sent ++ added))
        as [[t | e] tr']; cbn [snd] in Hmore; subst tr'; run_prog; cbn [snd]; unfold sent;
        rewrite <- !app_assoc; cbn [app]; eauto. }
    destruct (Client.callAzureOpenAI _ _ _ prompt _ tr) as [[response | e] tr1];
      cbn [snd] in Hrest; subst tr1.
    + destruct (EndpointVariant.chordAnalysisOfResponse response) as [a | e].
      * rewrite <- (app_nil_r sent). apply Hafter.
      * apply Hafter.
    + apply Hafter.
  - destruct (callAzureOpenAI_sends_first net (DeploymentVariant.endpointURL env)
                (DeploymentVariant.AZURE_OPENAI_API_KEY env) prompt (Some 2500%Z) tr)
      as [rest Hrest].
    unfold DeploymentVariant.analyzeSongByName, try_catch at 1, bind at 1.
    unfold DeploymentVariant.analyzeChordsWithAzureAI. rewrite Hp.
    unfold try_catch at 1, bind at 1, lift at 1, bind at 1.
    unfold DeploymentVariant.callAzureOpenAI.
    set (sent := tr ++ Fetch _ :: rest) in Hrest.
    assert (Hafter : forall a added,
               exists rest',
                 snd (let (c, tr') :=
                        bind (DeploymentVariant.generateTutorialWithAzureAI net env song a)
                          (fun tutorial =>
                             ret {| analysis := {| songInfo := song; chordAnalysis := a |};
                                    tutorial := tutorial |}) (sent ++ added) in
                      match c with
                      | Normal r => (Normal r, tr')
                      | Throw e => (console_error (AnalyzeFailed e);; throw AnalysisFailed)%prog tr'
                      end)
                 = tr ++ Fetch (Client.request (DeploymentVariant.endpointURL env)
                                               (DeploymentVariant.AZURE_OPENAI_API_KEY env)
                                               prompt 2500)
                      :: rest').
    { intros a added.
      destruct (deployment_tutorial_extends song a (sent ++ added)) as [more Hmore].
      unfold bind at 1.
      destruct (DeploymentVariant.generateTutorialWithAzureAI net env song a (sent ++ added))
        as [[t | e] tr']; cbn [snd] in Hmore; subst tr'; run_prog; cbn [snd]; unfold sent;
        rewrite <- !app_assoc; cbn [app]; eauto. }
    destruct (Client.callAzureOpenAI _ _ _ prompt _ tr) as [[response | e] tr1];
      cbn [snd] in Hrest; subst tr1.
    + unfold lift at 1.
      destruct (EndpointVariant.chordAnalysisOfResponse response) as [a | e].
      * rewrite <- (app_nil_r sent). apply Hafter.
      * unfold console_error, emit, bind at 1, ret at 1. apply Hafter.
    + unfold console_error, emit, bind at 1, ret at 1. apply Hafter.
Qed.

End Pipeline.

Lemma analyze_fails_when_the_tutorial_fallback_throws_witness :
  exists tr,
    EndpointVariant.analyzeSongByName (platform := Reference.platform)
      (Doubles.chords_only Doubles.reply_difficulty_three) Reference.configured
      (Reference.song "Yesterday" "The Beatles") []
    = (Throw AnalysisFailed, tr).
Proof.
  edestruct (analyze_fails_when_the_tutorial_fallback_throws (platform := Reference.platform)
               (Doubles.chords_only Doubles.reply_difficulty_three) Reference.configured
               (Reference.song "Yesterday" "The Beatles") []) as (e' & _ & Hrun);
    [vm_compute; reflexivity | reflexivity | vm_compute; reflexivity | vm_compute; reflexivity |].
  eexists. exact Hrun.
Defined.

Lemma analyze_without_a_model_returns_both_fallbacks_witness :
  exists t added,
    EndpointVariant.analyzeSongByName (platform := Reference.platform)
      Reference.offline Reference.unset (Reference.song "Wonderwall" "Oasis") []
    = (Normal {| analysis := {| songInfo := Reference.song "Wonderwall" "Oasis";
                                chordAnalysis := EndpointVariant.wonderwallProgression |};
                 tutorial := t |},
       added)
    /\ List.length (requests added) = 6%nat.
Proof.
  destruct (analyze_without_a_model_returns_both_fallbacks (platform := Reference.platform)
              Reference.offline Reference.unset (Reference.song "Wonderwall" "Oasis")
              "Wonderwall" "Oasis" [] eq_refl eq_refl
              (fun prompt n tr' => ex_intro _ (NetworkFailure "Network request failed") eq_refl))
    as (a & t & added & Ha & _ & Hrun & Hreq & _).
  apply (f_equal (fun c => match c with Normal x => x | Throw _ => a end)) in Ha.
  vm_compute in Ha. subst a.
  exists t, added. split; [exact Hrun | exact Hreq].
Defined.

Lemma deployment_analyze_without_a_model_is_one_fixed_result_witness :
  exists t added,
    DeploymentVariant.analyzeSongByName (platform := Reference.platform)
      Reference.offline Reference.unset (Reference.song "Wonderwall" "Oasis") []
    = (Normal {| analysis := {| songInfo := Reference.song "Wonderwall" "Oasis";
                                chordAnalysis := DeploymentVariant.getMockChordAnalysis |};
                 tutorial := t |},
       added)
    /\ (List.length (requests added) <= 6)%nat.
Proof.
  destruct (deployment_analyze_without_a_model_is_one_fixed_result (platform := Reference.platform)
              Reference.offline Reference.unset (Reference.song "Wonderwall" "Oasis") []
              (fun prompt n tr' => ex_intro _ (NetworkFailure "Network request failed") eq_refl))
    as (t & added & _ & Hrun & Hreq).
  exists t, added. split; [exact Hrun | exact Hreq].
Defined.

Lemma analyze_sends_its_request_whatever_the_key_witness :
  exists prompt rest,
    snd (DeploymentVariant.analyzeSongByName (platform := Reference.platform)
           Reference.offline Reference.unset (Reference.song "Wonderwall" "Oasis") [])
    = Fetch {| fetch_url := "undefined/openai/deployments/gpt-4/chat/completions?api-version=2024-02-15-preview";
               method := "POST";
               headers := [("Content-Type", JStr "application/json"); ("api-key", JUndefined)];
               messages := [ {| role := "system"; content := Client.systemInstruction |};
                             {| role := "user"; content := prompt |} ];
               max_tokens := 2500;
               temperature := 0.3%float;
               top_p := 0.8%float |}
      :: rest.
Proof.
  destruct (analyze_sends_its_request_whatever_the_key (platform := Reference.platform)
              Reference.offline Reference.unset (Reference.song "Wonderwall" "Oasis")
              "Wonderwall" "Oasis" [] eq_refl eq_refl)
    as (prompt & _ & _ & rest & Hrun).
  exists prompt, rest. exact Hrun.
Defined.

(* ================================================================== *)
(** ** The chord selector and the chord sheet *)
(* ================================================================== *)

Lemma sameValueZero_of_strings (x y : JSValue) :
  is_string x = true -> is_string y = true -> sameValueZero x y = true <-> x = y.
Proof.
  destruct x; try discriminate. destruct y; try discriminate. intros _ _. cbn [sameValueZero].
  rewrite String.eqb_eq. split; [now intros -> | intros H].
  now apply (f_equal (fun v => match v with JStr t => t | _ => "" end)) in H.
Qed.

Lemma strictEquals_of_strings (x y : JSValue) :
  is_string x = true -> is_string y = true -> strictEquals x y = true <-> x = y.
Proof.
  destruct x; try discriminate. destruct y; try discriminate. intros _ _. cbn [strictEquals].
  rewrite String.eqb_eq. split; [now intros -> | intros H].
  now apply (f_equal (fun v => match v with JStr t => t | _ => "" end)) in H.
Qed.

Lemma seen_among_strings (x : JSValue) (seen : list JSValue) :
  is_string x = true -> Forall (fun v => is_string v = true) seen ->
  existsb (sameValueZero x) seen = true <-> In x seen.
Proof.
  intros Hx Hseen. rewrite existsb_exists. split.
  - intros (y & Hin & Hy). rewrite Forall_forall in Hseen.
    apply (sameValueZero_of_strings x y Hx (Hseen y Hin)) in Hy. now subst.
  - intros Hin. exists x. split; [exact Hin |].
    now apply (sameValueZero_of_strings x x Hx Hx).
Qed.

(** [[...new Set(l)]] on strings: each string of [l] that has not been
    seen, once. *)
Lemma unique_from_of_strings (l seen : list JSValue) :
  Forall (fun v => is_string v = true) l ->
  Forall (fun v => is_string v = true) seen ->
  NoDup (unique_from seen l)
  /\ forall v, In v (unique_from seen l) <-> In v l /\ ~ In v seen.
Proof.
  revert seen. induction l as [| x l IH]; intros seen Hl Hseen.
  - split; [constructor | intros v; simpl; tauto].
  - inversion Hl as [| ? ? Hx Hl']; subst. cbn [unique_from].
    pose proof (seen_among_strings x seen Hx Hseen) as Hmem.
    destruct (existsb (sameValueZero x) seen) eqn:E.
    + destruct (IH seen Hl' Hseen) as [Hnd Hin]. split; [exact Hnd |].
      intros v. rewrite Hin. simpl. split; [tauto |].
      intros [[<- | Hv] Hnot]; [| tauto]. exfalso. apply Hnot. now apply Hmem.
    + assert (Hnew : ~ In x seen) by (intros H; apply Hmem in H; discriminate).
      destruct (IH (x :: seen) Hl' (Forall_cons _ Hx Hseen)) as [Hnd Hin]. split.
      * constructor; [| exact Hnd]. rewrite Hin. simpl. tauto.
      * intros v. simpl. rewrite Hin. simpl. split.
        -- intros [<- | [Hv Hnot]]; tauto.
        -- intros [[<- | Hv] Hnot]; [now left |].
           rewrite Forall_forall in Hl'.
           pose proof (sameValueZero_of_strings x v Hx (Hl' v Hv)) as Heq.
           destruct (sameValueZero x v).
           ++ left. now apply Heq.
           ++ right. split; [exact Hv |]. intros [H | H]; [| tauto].
              apply Heq in H. discriminate.
Qed.

Section Selector.
Context {platform : Platform}.

(** X14.  For chord events whose names are strings, the list of unique
    chords (the one the tutorial prompt and the fallback tutorials are
    built on, lines 262, 610, 1012 and 1173, and the one the chord selector
    shows, line 223 of the component) holds every chord name of the
    analysis, each of them once. *)
Theorem uniqueChords_holds_each_name_once :
  forall a : ChordAnalysis,
    Forall (fun c => is_string (Chord.chord c) = true) (Analysis.chords a) ->
    NoDup (EndpointVariant.uniqueChords a)
    /\ (forall name,
           In name (EndpointVariant.uniqueChords a)
           <-> In name (map Chord.chord (Analysis.chords a)))
    /\ ChordDisplay.uniqueChords (Analysis.chords a) = EndpointVariant.uniqueChords a
    /\ (List.length (EndpointVariant.uniqueChords a) <= List.length (Analysis.chords a))%nat.
Proof.
  intros a Hs.
  assert (Hnames : Forall (fun v => is_string v = true) (map Chord.chord (Analysis.chords a))).
  { rewrite Forall_forall in Hs |- *. intros v Hv. apply in_map_iff in Hv as (c & <- & Hc).
    now apply Hs. }
  destruct (unique_from_of_strings _ [] Hnames (Forall_nil _)) as [Hnd Hin].
  unfold EndpointVariant.uniqueChords, ChordDisplay.uniqueChords, unique.
  repeat split; try assumption.
  - intros H. now apply Hin in H.
  - intros H. apply Hin. split; [exact H | intros []].
  - rewrite <- (length_map Chord.chord (Analysis.chords a)).
    apply NoDup_incl_length; [exact Hnd |].
    intros v Hv. now apply Hin in Hv.
Qed.

(** X15.  In the chord selector (lines 223-241 of the component), for
    chord events whose names are strings: selecting a chord that the
    selector offers shows the events of that chord, in their order, and
    at least one; selecting it a second time clears the filter and shows
    every event again. *)
Theorem selecting_an_offered_chord_shows_its_events :
  forall (chords : list ChordProgression) (name : string),
    Forall (fun c => is_string (Chord.chord c) = true) chords ->
    In (JStr name) (ChordDisplay.uniqueChords chords) ->
    name <> "" ->
    let shown := ChordDisplay.filteredChords (JStr name) chords in
    shown <> []
    /\ shown = filter (fun c => strictEquals (Chord.chord c) (JStr name)) chords
    /\ (forall c, In c shown <-> In c chords /\ Chord.chord c = JStr name)
    /\ ChordDisplay.filteredChords (ChordDisplay.handleChordSelect (JStr name) (JStr name)) chords
       = chords.
Proof.
  intros chords name Hs Hin Hname shown.
  assert (Hshown : shown = filter (fun c => strictEquals (Chord.chord c) (JStr name)) chords).
  { unfold shown, ChordDisplay.filteredChords. cbn [truthy].
    destruct (name =? "") eqn:E; [apply String.eqb_eq in E; contradiction | reflexivity]. }
  assert (Hmem : forall c, In c shown <-> In c chords /\ Chord.chord c = JStr name).
  { intros c. rewrite Hshown, filter_In. rewrite Forall_forall in Hs. split.
    - intros [Hc Heq]. split; [exact Hc |].
      now apply (strictEquals_of_strings (Chord.chord c) (JStr name) (Hs c Hc) eq_refl).
    - intros [Hc Heq]. split; [exact Hc |].
      now apply (strictEquals_of_strings (Chord.chord c) (JStr name) (Hs c Hc) eq_refl). }
  repeat split; try assumption; try (now apply Hmem).
  - assert (Hnames : Forall (fun v => is_string v = true) (map Chord.chord chords)).
    { rewrite Forall_forall in Hs |- *. intros v Hv. apply in_map_iff in Hv as (c & <- & Hc).
      now apply Hs. }
    destruct (unique_from_of_strings _ [] Hnames (Forall_nil _)) as [_ Hu].
    apply Hu in Hin as [Hin _]. apply in_map_iff in Hin as (c & Hc & Hcin).
    intros Hempty. assert (Hcs : In c shown) by (apply Hmem; now split).
    rewrite Hempty in Hcs. exact Hcs.
  - unfold ChordDisplay.handleChordSelect. cbn [strictEquals]. now rewrite String.eqb_refl.
Qed.

End Selector.

Lemma uniqueChords_holds_each_name_once_witness :
  EndpointVariant.uniqueChords EndpointVariant.perfectProgression
  = [JStr "G"; JStr "Em"; JStr "C"; JStr "D"]
  /\ NoDup (EndpointVariant.uniqueChords EndpointVariant.perfectProgression).
Proof.
  split; [reflexivity |].
  apply (uniqueChords_holds_each_name_once EndpointVariant.perfectProgression).
  repeat constructor.
Defined.

Lemma selecting_an_offered_chord_shows_its_events_witness :
  ChordDisplay.filteredChords (JStr "Em") (Analysis.chords EndpointVariant.perfectProgression) <> [].
Proof.
  apply (selecting_an_offered_chord_shows_its_events
           (Analysis.chords EndpointVariant.perfectProgression) "Em").
  - repeat constructor.
  - right. left. reflexivity.
  - discriminate.
Defined.

(* ------------------------------------------------------------------ *)

Lemma snoc_case {A} (l : list A) : l = [] \/ exists init x, l = init ++ [x].
Proof. induction l as [| x l _] using rev_ind; [now left | right; eauto]. Qed.

Lemma last_opt_snoc {A} (l : list A) (x : A) : ChordDisplay.last_opt (l ++ [x]) = Some x.
Proof.
  induction l as [| y l IH]; [reflexivity |].
  cbn [app ChordDisplay.last_opt]. destruct (l ++ [x]) eqn:E; [| exact IH].
  now destruct l.
Qed.

Lemma no_repeat_snoc {A} (l : list A) (x : A) :
  no_repeat l -> (forall y, ChordDisplay.last_opt l = Some y -> y <> x) -> no_repeat (l ++ [x]).
Proof.
  induction l as [| a l IH]; intros Hl Hlast; [exact I |].
  destruct l as [| b l].
  - cbn. split; [now apply Hlast | exact I].
  - destruct Hl as [Hab Hl]. cbn [app no_repeat]. split; [exact Hab |].
    apply IH; [exact Hl | exact Hlast].
Qed.

Lemma no_repeat_neighbours {A} (l : list A) :
  no_repeat l ->
  forall i a b, nth_error l i = Some a -> nth_error l (S i) = Some b -> a <> b.
Proof.
  induction l as [| x l IH]; intros Hl i a b Ha Hb; [destruct i; discriminate |].
  destruct l as [| y l]; [destruct i; discriminate |].
  destruct Hl as [Hxy Hl]. destruct i as [| i].
  - cbn in Ha, Hb. congruence.
  - apply (IH Hl i a b); assumption.
Qed.

Section Sheet.
Context {platform : Platform}.

Lemma sheetStep_ok sections chordItem index :
  sheet_ok sections ->
  is_string (ChordDisplay.sectionOf chordItem) = true ->
  exists sections',
    ChordDisplay.sheetStep sections chordItem index = Normal sections'
    /\ sheet_ok sections'
    /\ concat (map ChordDisplay.chords sections')
       = concat (map ChordDisplay.chords sections) ++ [chordItem].
Proof.
  intros [Hall Hnames] Hs. unfold ChordDisplay.sheetStep.
  assert (Hpushed : forall k,
             exists name,
               ToString (ChordDisplay.sectionOf chordItem) = Normal name
               /\ Forall (fun s =>
                            is_string (ChordDisplay.sectionName s) = true
                            /\ ChordDisplay.chords s <> []
                            /\ Forall (fun c => ChordDisplay.sectionOf c = ChordDisplay.sectionName s)
                                      (ChordDisplay.chords s))
                         [ {| ChordDisplay.sectionName := ChordDisplay.sectionOf chordItem;
                              ChordDisplay.chords := [chordItem];
                              ChordDisplay.key := k name |} ]).
  { intros k. destruct (ChordDisplay.sectionOf chordItem) as [| | | | name | |] eqn:E;
      try discriminate Hs.
    exists name. split; [reflexivity |]. constructor; [| constructor].
    cbn. repeat split; [discriminate | constructor; [exact E | constructor]]. }
  destruct (snoc_case sections) as [-> | (init & s & ->)].
  - cbn [ChordDisplay.last_opt].
    destruct (Hpushed (fun name => "section-" ++ name ++ "-" ++ Number_toString (float_of_nat index))%string)
      as (name & -> & Hnew).
    cbn [cbind app]. eexists. split; [reflexivity |]. split; [split; [exact Hnew | exact I] |].
    reflexivity.
  - rewrite last_opt_snoc.
    apply Forall_app in Hall as [Hinit Hlast]. inversion Hlast as [| ? ? (Hsname & Hne & Hsame) _]; subst.
    destruct (strictEquals (ChordDisplay.sectionName s) (ChordDisplay.sectionOf chordItem)) eqn:E;
      cbn [negb].
    + apply (strictEquals_of_strings _ _ Hsname Hs) in E.
      rewrite removelast_last. eexists. split; [reflexivity |]. split; [split |].
      * apply Forall_app. split; [exact Hinit |]. constructor; [| constructor]. cbn.
        repeat split; [exact Hsname | now destruct (ChordDisplay.chords s) |].
        apply Forall_app. split; [exact Hsame |]. constructor; [now symmetry | constructor].
      * rewrite map_app in Hnames |- *. exact Hnames.
      * rewrite !map_app, !concat_app. cbn. now rewrite !app_nil_r, app_assoc.
    + destruct (Hpushed (fun name => "section-" ++ name ++ "-" ++ Number_toString (float_of_nat index))%string)
        as (name & -> & Hnew).
      cbn [cbind]. eexists. split; [reflexivity |]. split; [split |].
      * apply Forall_app. split; [apply Forall_app; split; assumption | exact Hnew].
      * rewrite map_app. cbn [map]. apply no_repeat_snoc; [exact Hnames |].
        rewrite map_app. cbn [map]. rewrite last_opt_snoc. intros y Hy Heq.
        injection Hy as <-.
        assert (Htrue : strictEquals (ChordDisplay.sectionName s) (ChordDisplay.sectionOf chordItem) = true)
          by now apply (strictEquals_of_strings _ _ Hsname Hs).
        congruence.
      * rewrite map_app, concat_app. cbn. now rewrite ?app_nil_r.
Qed.

Lemma reduce_from_ok (l : list ChordProgression) :
  forall index sections,
    sheet_ok sections ->
    Forall (fun c => is_string (ChordDisplay.sectionOf c) = true) l ->
    exists result,
      ChordDisplay.reduce_from index sections l = Normal result
      /\ sheet_ok result
      /\ concat (map ChordDisplay.chords result) = concat (map ChordDisplay.chords sections) ++ l.
Proof.
  induction l as [| c l IH]; intros index sections Hok Hl.
  - exists sections. split; [reflexivity |]. split; [exact Hok | now rewrite app_nil_r].
  - inversion Hl as [| ? ? Hc Hl']; subst.
    destruct (sheetStep_ok sections c index Hok Hc) as (sections' & Hstep & Hok' & Hconcat).
    destruct (IH (S index) sections' Hok' Hl') as (result & Hrun & Hres & Hcat).
    exists result. cbn [ChordDisplay.reduce_from]. rewrite Hstep. cbn [cbind].
    split; [exact Hrun |]. split; [exact Hres |].
    now rewrite Hcat, Hconcat, <- app_assoc.
Qed.

(** X16.  The chord sheet (lines 350-365 of the component) cuts the
    chord events into their runs of equal section.  For events whose
    section is a string or is missing (they count as 'main'), the
    [reduce] returns sections that, put end to end, are the events it was
    given, none dropped and none moved; no section is empty, every event
    of a section has the section's name, and no two neighbouring sections
    have the same name. *)
Theorem chordSheet_cuts_the_events_into_runs :
  forall filtered : list ChordProgression,
    Forall (fun c => is_string (ChordDisplay.sectionOf c) = true) filtered ->
    exists sections,
      ChordDisplay.chordSheet filtered = Normal sections
      /\ concat (map ChordDisplay.chords sections) = filtered
      /\ Forall (fun s =>
                   ChordDisplay.chords s <> []
                   /\ Forall (fun c => ChordDisplay.sectionOf c = ChordDisplay.sectionName s)
                             (ChordDisplay.chords s))
                sections
      /\ (forall i s1 s2,
             nth_error sections i = Some s1 ->
             nth_error sections (S i) = Some s2 ->
             ChordDisplay.sectionName s1 <> ChordDisplay.sectionName s2).
Proof.
  intros filtered Hl.
  destruct (reduce_from_ok filtered 0 [] (conj (Forall_nil _) I) Hl)
    as (sections & Hrun & [Hall Hnames] & Hcat).
  exists sections. split; [exact Hrun |]. split; [exact Hcat |]. split.
  - eapply Forall_impl; [| exact Hall]. cbn. tauto.
  - intros i s1 s2 H1 H2.
    apply (no_repeat_neighbours _ Hnames i).
    + now rewrite nth_error_map, H1.
    + now rewrite nth_error_map, H2.
Qed.

End Sheet.

Lemma chordSheet_cuts_the_events_into_runs_witness :
  exists sections,
    ChordDisplay.chordSheet (platform := Reference.platform)
      (Analysis.chords EndpointVariant.perfectProgression)
    = Normal sections
    /\ map ChordDisplay.sectionName sections = [JStr "verse"; JStr "chorus"]
    /\ map (fun s => List.length (ChordDisplay.chords s)) sections = [4; 4]%nat
    /\ map ChordDisplay.key sections = ["section-verse-0"; "section-chorus-4"].
Proof.
  destruct (chordSheet_cuts_the_events_into_runs (platform := Reference.platform)
              (Analysis.chords EndpointVariant.perfectProgression))
    as (sections & Hrun & _).
  - repeat constructor.
  - exists sections. split; [exact Hrun |].
    apply (f_equal (fun c => match c with Normal x => x | Throw _ => [] end)) in Hrun.
    rewrite <- Hrun. vm_compute. repeat split.
Defined.

(* ================================================================== *)
(** ** The handlers of the home screen *)
(* ================================================================== *)

Ltac run_ui :=
  unfold Screen.Alert_alert, Screen.ui_bind, Screen.ui_emit, Screen.ui_ret, Screen.ui_throw.

(** The events of the service, and then [after]. *)
Ltac served_then after :=
  match goal with
  | |- context [map Screen.Effect ?served] =>
      exists (map Screen.Effect served ++ after);
      rewrite <- !app_assoc; cbn [app]; reflexivity
  end.

Lemma trimEnd_idempotent (s : string) : trimEnd (trimEnd s) = trimEnd s.
Proof.
  induction s as [| c s IH]; [reflexivity |]. cbn [trimEnd].
  destruct (isWhiteSpace c && (trimEnd s =? "")) eqn:E; [reflexivity |].
  cbn [trimEnd]. now rewrite IH, E.
Qed.

Lemma trimStart_of_trimmed (s : string) : trimStart (trimEnd (trimStart s)) = trimEnd (trimStart s).
Proof.
  induction s as [| c s IH]; [reflexivity |]. cbn [trimStart].
  destruct (isWhiteSpace c) eqn:Hc; [exact IH |].
  cbn [trimEnd]. rewrite Hc. cbn [andb trimStart]. now rewrite Hc.
Qed.

Lemma trim_idempotent (s : string) : trim (trim s) = trim s.
Proof. unfold trim. now rewrite trimStart_of_trimmed, trimEnd_idempotent. Qed.

Lemma effects_app (log log' : Screen.Log) :
  Screen.effects (log ++ log') = Screen.effects log ++ Screen.effects log'.
Proof. unfold Screen.effects. apply flat_map_app. Qed.

Lemma try_catch_finally_emit {A} (body : Screen.UI A) (handler : Exn -> Screen.UI A)
      (ev : Screen.UIEvent) (log : Screen.Log) :
  Screen.try_catch_finally body handler (Screen.ui_emit ev) log
  = let '(c, log1) := match body log with
                      | (Normal a, log') => (Normal a, log')
                      | (Throw e, log') => handler e log'
                      end in
    (c, log1 ++ [ev]).
Proof.
  unfold Screen.try_catch_finally, Screen.ui_emit.
  destruct (body log) as [[a | e] log']; [reflexivity |].
  now destruct (handler e log').
Qed.

Section Handlers.
Context {platform : Platform}.

(** X17.  Whatever the functions of the service do (return, return
    [undefined], throw), the two handlers of the home screen never raise,
    and the last thing each of them does is to clear the flag it has set:
    [handleSearchSongs] (for an ASCII query that is not blank) ends with
    [setIsSearching(false)], [handleAnalyzeSong] with
    [setIsLoading(false)]. *)
Theorem handlers_never_raise_and_clear_their_flag :
  forall (searchSongs : string -> Prog (option (list SongInfo)))
         (analyzeSongByName : SongInfo -> Prog FullAnalysisResult)
         (log : Screen.Log),
    (forall query,
        is_ascii query = true ->
        (trim query =? "") = false ->
        exists middle,
          Screen.handleSearchSongs searchSongs query log
          = (Normal tt,
             log ++ [Screen.SetIsSearching true; Screen.SetError None;
                     Screen.SetValue Screen.resultsAnim 0]
                 ++ middle ++ [Screen.SetIsSearching false]))
    /\ (forall songInfo,
           exists middle,
             Screen.handleAnalyzeSong analyzeSongByName songInfo log
             = (Normal tt,
                log ++ [Screen.SetIsLoading true; Screen.SetError None;
                        Screen.Start Screen.resultsAnim
                          [{| Screen.toValue := 0; Screen.duration := 300;
                              Screen.easing := Screen.EaseInCubic |}]
                          (Some Screen.ClearSearchResults)]
                    ++ middle ++ [Screen.SetIsLoading false])).
Proof.
  intros searchSongs analyzeSongByName log. split.
  - intros query _ Hq. unfold Screen.handleSearchSongs. rewrite Hq.
    unfold Screen.ui_bind at 1 2 3, Screen.ui_emit at 1 2 3.
    rewrite try_catch_finally_emit.
    unfold Screen.ui_bind at 1, Screen.call.
    destruct (searchSongs query _) as [[[found |] | e] tr']; run_ui.
    + destruct (0 <? List.length found)%nat.
      * served_then [Screen.SetSearchResults (Some found);
                     Screen.Start Screen.resultsAnim
                       [{| Screen.toValue := 1; Screen.duration := 500;
                           Screen.easing := Screen.EaseOutCubic |}] None].
      * served_then [Screen.SetSearchResults (Some found)].
    + served_then [Screen.SetSearchResults None;
                   Screen.SetError
                     (Some (Screen.message_or
                              (TypeError "Cannot read property 'length' of undefined")
                              "Search failed"));
                   Screen.Effect
                     (AlertShown "Search Failed"
                        (Screen.message_or
                           (TypeError "Cannot read property 'length' of undefined")
                           "Search failed"))].
    + served_then [Screen.SetError (Some (Screen.message_or e "Search failed"));
                   Screen.Effect (AlertShown "Search Failed" (Screen.message_or e "Search failed"))].
  - intros songInfo. unfold Screen.handleAnalyzeSong.
    unfold Screen.ui_bind at 1 2 3, Screen.ui_emit at 1 2 3.
    rewrite try_catch_finally_emit.
    unfold Screen.ui_bind at 1, Screen.call.
    destruct (analyzeSongByName songInfo _) as [[result | e] tr']; run_ui.
    + served_then [Screen.SetAnalysisResult result].
    + served_then [Screen.SetError (Some (Screen.message_or e "Analysis failed"));
                   Screen.Effect (AlertShown "Analysis Failed"
                                    (Screen.message_or e "Analysis failed"))].
Qed.


(** X18.  A blank query never reaches the service (the queries are ASCII
    text).  Called with a query that trims to nothing,
    [handleSearchSongs] shows the 'Empty Search' alert and does nothing
    else.  Behind the input box that alert is out of reach:
    [handleSearch] does nothing at all for such a query, and for any
    other it hands over the trimmed text, which passes the check of the
    handler (trimming twice is trimming once), so the search starts. *)
Theorem blank_queries_never_reach_the_service :
  forall (searchSongs : string -> Prog (option (list SongInfo))) (query : string)
         (log : Screen.Log),
    is_ascii query = true ->
    (trim query = "" ->
     Screen.handleSearchSongs searchSongs query log
     = (Normal tt, log ++ [Screen.Effect (AlertShown "Empty Search"
                                            "Please enter a song name or artist")])
     /\ Screen.handleSearch searchSongs query log = (Normal tt, log))
    /\ (trim query <> "" ->
        let pressed :=
          log ++ [Screen.Start Screen.buttonScale
                    [ {| Screen.toValue := 0.95; Screen.duration := 100;
                         Screen.easing := Screen.EaseInOutCubic |};
                      {| Screen.toValue := 1; Screen.duration := 200;
                         Screen.easing := Screen.EaseOutCubic |} ] None] in
        Screen.handleSearch searchSongs query log
        = Screen.handleSearchSongs searchSongs (trim query) pressed
        /\ exists middle,
             Screen.handleSearchSongs searchSongs (trim query) pressed
             = (Normal tt,
                pressed ++ [Screen.SetIsSearching true; Screen.SetError None;
                            Screen.SetValue Screen.resultsAnim 0]
                        ++ middle ++ [Screen.SetIsSearching false])).
Proof.
  intros searchSongs query log _. split.
  - intros Hblank. unfold Screen.handleSearch, Screen.handleSearchSongs.
    rewrite Hblank. split; reflexivity.
  - intros Hq pressed.
    assert (Hq' : (trim query =? "") = false) by now apply String.eqb_neq.
    split.
    + unfold Screen.handleSearch. rewrite Hq'. reflexivity.
    + unfold Screen.handleSearchSongs. rewrite trim_idempotent, Hq'.
      unfold Screen.ui_bind at 1 2 3, Screen.ui_emit at 1 2 3.
      rewrite try_catch_finally_emit.
      unfold Screen.ui_bind at 1, Screen.call.
      destruct (searchSongs (trim query) _) as [[[found |] | e] tr']; run_ui.
      * destruct (0 <? List.length found)%nat.
        -- served_then [Screen.SetSearchResults (Some found);
                        Screen.Start Screen.resultsAnim
                          [{| Screen.toValue := 1; Screen.duration := 500;
                              Screen.easing := Screen.EaseOutCubic |}] None].
        -- served_then [Screen.SetSearchResults (Some found)].
      * served_then [Screen.SetSearchResults None;
                     Screen.SetError
                       (Some (Screen.message_or
                                (TypeError "Cannot read property 'length' of undefined")
                                "Search failed"));
                     Screen.Effect
                       (AlertShown "Search Failed"
                          (Screen.message_or
                             (TypeError "Cannot read property 'length' of undefined")
                             "Search failed"))].
      * served_then [Screen.SetError (Some (Screen.message_or e "Search failed"));
                     Screen.Effect (AlertShown "Search Failed" (Screen.message_or e "Search failed"))].
Qed.

Section OnTheService.
Context (net : Network) (env : ProcessEnv).

Local Abbreviation callA := (EndpointVariant.callAzureOpenAI net env).

(** X19.  The [undefined] of lines 19-77 reaches the user as a failed
    search.  When the model's reply to a search (for an ASCII query that
    is not blank) is not an array,
    [searchSongs] returns [undefined]; the handler stores it with
    [setSearchResults], reads its [length], and the TypeError lands in
    its own [catch]: the error text is set, the 'Search Failed' alert is
    shown with it, and the flag is cleared.  No candidate and no fallback
    is shown. *)
Theorem undefined_search_result_fails_on_the_screen :
  forall (query : string) (log : Screen.Log) (response : JSValue) (added : Trace),
    is_ascii query = true ->
    (trim query =? "") = false ->
    callA (EndpointVariant.searchPrompt query) None (Screen.effects log ++ keyWarnings env)
    = (Normal response, Screen.effects log ++ added) ->
    isArray response = false ->
    exists message,
      Screen.handleSearchSongs (Screen.endpointSearch net env) query log
      = (Normal tt,
         log ++ [Screen.SetIsSearching true; Screen.SetError None;
                 Screen.SetValue Screen.resultsAnim 0]
             ++ map Screen.Effect added
             ++ [Screen.SetSearchResults None;
                 Screen.SetError (Some message);
                 Screen.Effect (AlertShown "Search Failed" message);
                 Screen.SetIsSearching false]).
Proof.
  intros query log response added _ Hq Hcall Harr.
  assert (Hrun : EndpointVariant.searchSongs net env query (Screen.effects log)
                 = (Normal None, Screen.effects log ++ added)).
  { unfold EndpointVariant.searchSongs, try_catch.
    rewrite endpoint_searchSongs_try_run, Hcall.
    destruct response; try reflexivity. discriminate Harr. }
  eexists. unfold Screen.handleSearchSongs. rewrite Hq.
  unfold Screen.ui_bind at 1 2 3, Screen.ui_emit at 1 2 3.
  rewrite try_catch_finally_emit.
  unfold Screen.ui_bind at 1, Screen.call, Screen.endpointSearch.
  rewrite !effects_app. cbn [Screen.effects flat_map app]. rewrite !app_nil_r.
  rewrite Hrun. run_ui. unfold Screen.message_or. cbn [Screen.Error_message].
  rewrite skipn_app, skipn_all, Nat.sub_diag. cbn [skipn app].
  rewrite <- !app_assoc. cbn [app]. reflexivity.
Qed.







End OnTheService.
End Handlers.

Lemma blank_queries_never_reach_the_service_witness :
  Screen.handleSearch (platform := Reference.platform)
    (Screen.endpointSearch (platform := Reference.platform) Reference.offline Reference.configured) "   " []
  = (Normal tt, []).
Proof.
  exact (proj2 (proj1 (blank_queries_never_reach_the_service (platform := Reference.platform)
                         (Screen.endpointSearch (platform := Reference.platform) Reference.offline Reference.configured) "   " []
                         eq_refl)
                      eq_refl)).
Defined.

Lemma undefined_search_result_fails_on_the_screen_witness :
  exists message middle,
    Screen.handleSearchSongs (platform := Reference.platform)
      (Screen.endpointSearch (platform := Reference.platform) (Reference.replying "{}") Reference.configured) "Wonderwall" []
    = (Normal tt,
       [Screen.SetIsSearching true; Screen.SetError None; Screen.SetValue Screen.resultsAnim 0]
         ++ middle
         ++ [Screen.SetSearchResults None;
             Screen.SetError (Some message);
             Screen.Effect (AlertShown "Search Failed" message);
             Screen.SetIsSearching false]).
Proof.
  edestruct (undefined_search_result_fails_on_the_screen (platform := Reference.platform)
               (Reference.replying "{}") Reference.configured "Wonderwall" [] (JObj []))
    as (message & Hrun); [reflexivity | reflexivity | vm_compute; reflexivity | reflexivity |].
  exists message. eexists. exact Hrun.
Defined.


